(** * PYQ retriever service: a shallow embedding of
      [src/app/pyq_retriever_service.py] and the properties of its
      practice-session engine.

    Conventions of the embedding.
    - A Python [str] is a [string] whose characters are read as the code
      points U+0000..U+00FF; [isspace], [lower], [strip] and [casefold]
      below are Python's on that range, and every statement about the
      content of strings is a statement about strings of that range.
    - A Python [int] is a [Z]; a Python [float] that the code obtains by true
      division of two ints is the exact rational ([Q]) it approximates.
    - A [dict] used as a map is a [gmap]; a dict used as a record is a
      [Record] whose optional keys are [option] fields.
    - The durable store (the Supabase client), the clock, [uuid.uuid4] and
      [random] are the environment: a [Runtime] of oracles indexed by call
      counters that the [World] threads through every operation. *)

From stdpp Require Import gmap strings list fin_maps.
From Stdlib Require Import Ascii QArith.

Open Scope Z_scope.

(* ===================================================================== *)
(** ** Python strings                                                     *)
(* ===================================================================== *)

Module PyStr.

Definition code (c : ascii) : N := Ascii.N_of_ascii c.

(** [str.isspace] on one code point below U+0100: TAB..CR, FS..US, SPACE,
    NEL and NBSP. *)
Definition isspace (c : ascii) : bool :=
  let n := code c in
  ((9 <=? n) && (n <=? 13) || (28 <=? n) && (n <=? 32)
   || (n =? 133) || (n =? 160))%N.

(** The code points below U+0100 that [str.lower] changes: A..Z and
    U+00C0..U+00DE without the multiplication sign U+00D7. *)
Definition isupper (c : ascii) : bool :=
  let n := code c in
  ((65 <=? n) && (n <=? 90)
   || (192 <=? n) && (n <=? 222) && negb (n =? 215))%N.

Definition lower_char (c : ascii) : ascii :=
  if isupper c then Ascii.ascii_of_N (code c + 32) else c.

(** [s.lower()] *)
Fixpoint lower (s : string) : string :=
  match s with
  | EmptyString => EmptyString
  | String c s' => String (lower_char c) (lower s')
  end.

(** [s.lstrip()] *)
Fixpoint lstrip (s : string) : string :=
  match s with
  | EmptyString => EmptyString
  | String c s' => if isspace c then lstrip s' else s
  end.

(** [s.rstrip()] *)
Fixpoint rstrip (s : string) : string :=
  match s with
  | EmptyString => EmptyString
  | String c s' =>
      match rstrip s' with
      | EmptyString => if isspace c then EmptyString else String c EmptyString
      | r => String c r
      end
  end.

(** [s.strip()] *)
Definition strip (s : string) : string := rstrip (lstrip s).

(** [str(x)] for a value that is a string or [None]. *)
Definition str (x : option string) : string :=
  match x with
  | Some s => s
  | None => "None"
  end.

(** Truthiness of an optional string: [None] and [""] are falsy. *)
Definition truthy (x : option string) : bool :=
  match x with
  | Some (String _ _) => true
  | _ => false
  end.








End PyStr.

(** [PYQRetrieverService._check_answer] *)
Definition _check_answer (correct_answer : option string) (user_answer : string)
  : bool :=
  String.eqb (PyStr.lower (PyStr.strip (PyStr.str correct_answer)))
             (PyStr.lower (PyStr.strip user_answer)).


(* ===================================================================== *)
(** ** Dates and times                                                    *)
(* ===================================================================== *)

(** A [datetime]: the wall-clock reading in microseconds and, for an aware
    value, its UTC offset in microseconds. *)
Record datetime := {
  wall : Z;
  tzinfo : option Z
}.

(** [a - b] on datetimes, in microseconds: defined between two naive or two
    aware values; mixing them raises [TypeError] ([None]). *)
Definition datetime_sub (a b : datetime) : option Z :=
  match tzinfo a, tzinfo b with
  | None, None => Some (wall a - wall b)
  | Some oa, Some ob => Some ((wall a - oa) - (wall b - ob))
  | _, _ => None
  end.

(** [timedelta.total_seconds()] *)
Definition total_seconds (micros : Z) : Q := (micros # 1000000)%Q.

(* ===================================================================== *)
(** ** Data model                                                         *)
(* ===================================================================== *)

Inductive SessionStatus := ACTIVE | PAUSED | COMPLETED | EXPIRED.

Inductive QuestionStatus :=
  NOT_ATTEMPTED | ATTEMPTED | CORRECT | INCORRECT | SKIPPED.

(** [PYQSessionFilter] *)
Record PYQSessionFilter := {
  exam_id : option string;
  subject_id : option string;
  chapter_id : option string;
  topic_id : option string;
  concept_id : option string;
  year : option Z;
  year_range : option (Z * Z);
  exam_session : option string;
  source : option string;
  difficulty_level : option string;
  question_type : option string;
  marks_min : option Q;
  marks_max : option Q;
  tags : option (list string);
  shuffle_questions : bool;
  include_solved : bool
}.

(** A row of the [pyq_metadata] table. *)
Record Metadata := {
  md_question_id : string;
  md_year : Z;
  md_exam_session : option string;
  md_source : option string;
  md_difficulty_level : option string;
  md_question_type : option string;
  md_solution : option string
}.

(** A question record: a row of the [questions] table, with the
    [pyq_metadata] key the service attaches to it ([None]: key absent). *)
Record Question := {
  q_id : string;
  q_content : string;
  q_exam_id : option string;
  q_subject_id : option string;
  q_chapter_id : option string;
  q_topic_id : option string;
  q_concept_id : option string;
  q_correct_answer : option string;
  q_pyq_metadata : option (list Metadata)
}.

Definition with_pyq_metadata (q : Question) (m : option (list Metadata))
  : Question :=
  {| q_id := q_id q; q_content := q_content q; q_exam_id := q_exam_id q;
     q_subject_id := q_subject_id q; q_chapter_id := q_chapter_id q;
     q_topic_id := q_topic_id q; q_concept_id := q_concept_id q;
     q_correct_answer := q_correct_answer q; q_pyq_metadata := m |}.

(** A recorded response: the dict [submit_answer] stores under
    [responses[question_id]] (also the shape of a [test_responses] row). *)
Record Response := {
  r_id : string;
  r_session_id : string;
  r_question_id : string;
  r_user_answer : string;
  r_is_correct : bool;
  r_time_taken : Z;
  r_response_time : string
}.

(** A row of the [pyq_sessions] table. *)
Record SessionRow := {
  row_id : string;
  row_user_id : string;
  row_session_name : string;
  row_filters : PYQSessionFilter;
  row_current_question_index : Z;
  row_total_questions : Z;
  row_questions_answered : Z;
  row_start_time : string;
  row_last_activity : string;
  row_is_active : bool
}.

(** An entry of [self.fallback_sessions]. Only ["id"] is in every entry;
    every other key is present in some entries and absent ([None]) in
    others. [fs_time_limit] is [None] both for an absent key and for a
    stored [None]. *)
Record FallbackSession := {
  fs_id : string;
  fs_user_id : option string;
  fs_session_name : option string;
  fs_filters : option PYQSessionFilter;
  fs_current_question_index : option Z;
  fs_total_questions : option Z;
  fs_questions_answered : option Z;
  fs_questions_correct : option Z;
  fs_questions_incorrect : option Z;
  fs_questions_skipped : option Z;
  fs_start_time : option string;
  fs_last_activity : option string;
  fs_is_active : option bool;
  fs_status : option SessionStatus;
  fs_time_limit : option Z;
  fs_question_ids : option (list string);
  fs_question_bank : option (gmap string Question);
  fs_responses : option (gmap string Response)
}.

(** The entry with only ["id"], ["question_ids"], ["question_bank"] and,
    when given, ["responses"]. *)
Definition stub_session (sid : string) (qids : list string)
    (bank : gmap string Question) (resp : option (gmap string Response))
  : FallbackSession :=
  {| fs_id := sid; fs_user_id := None; fs_session_name := None;
     fs_filters := None; fs_current_question_index := None;
     fs_total_questions := None; fs_questions_answered := None;
     fs_questions_correct := None; fs_questions_incorrect := None;
     fs_questions_skipped := None; fs_start_time := None;
     fs_last_activity := None; fs_is_active := None; fs_status := None;
     fs_time_limit := None; fs_question_ids := Some qids;
     fs_question_bank := Some bank; fs_responses := resp |}.

(** [session["last_activity"] = t] *)
Definition set_last_activity (t : string) (s : FallbackSession)
  : FallbackSession :=
  {| fs_id := fs_id s; fs_user_id := fs_user_id s;
     fs_session_name := fs_session_name s; fs_filters := fs_filters s;
     fs_current_question_index := fs_current_question_index s;
     fs_total_questions := fs_total_questions s;
     fs_questions_answered := fs_questions_answered s;
     fs_questions_correct := fs_questions_correct s;
     fs_questions_incorrect := fs_questions_incorrect s;
     fs_questions_skipped := fs_questions_skipped s;
     fs_start_time := fs_start_time s; fs_last_activity := Some t;
     fs_is_active := fs_is_active s; fs_status := fs_status s;
     fs_time_limit := fs_time_limit s; fs_question_ids := fs_question_ids s;
     fs_question_bank := fs_question_bank s; fs_responses := fs_responses s |}.

(** [session["current_question_index"] = i] *)
Definition set_current_question_index (i : Z) (s : FallbackSession)
  : FallbackSession :=
  {| fs_id := fs_id s; fs_user_id := fs_user_id s;
     fs_session_name := fs_session_name s; fs_filters := fs_filters s;
     fs_current_question_index := Some i;
     fs_total_questions := fs_total_questions s;
     fs_questions_answered := fs_questions_answered s;
     fs_questions_correct := fs_questions_correct s;
     fs_questions_incorrect := fs_questions_incorrect s;
     fs_questions_skipped := fs_questions_skipped s;
     fs_start_time := fs_start_time s; fs_last_activity := fs_last_activity s;
     fs_is_active := fs_is_active s; fs_status := fs_status s;
     fs_time_limit := fs_time_limit s; fs_question_ids := fs_question_ids s;
     fs_question_bank := fs_question_bank s; fs_responses := fs_responses s |}.

(** [session["is_active"] = a; session["status"] = st] *)
Definition set_activity_status (a : bool) (st : SessionStatus)
    (s : FallbackSession) : FallbackSession :=
  {| fs_id := fs_id s; fs_user_id := fs_user_id s;
     fs_session_name := fs_session_name s; fs_filters := fs_filters s;
     fs_current_question_index := fs_current_question_index s;
     fs_total_questions := fs_total_questions s;
     fs_questions_answered := fs_questions_answered s;
     fs_questions_correct := fs_questions_correct s;
     fs_questions_incorrect := fs_questions_incorrect s;
     fs_questions_skipped := fs_questions_skipped s;
     fs_start_time := fs_start_time s; fs_last_activity := fs_last_activity s;
     fs_is_active := Some a; fs_status := Some st;
     fs_time_limit := fs_time_limit s; fs_question_ids := fs_question_ids s;
     fs_question_bank := fs_question_bank s; fs_responses := fs_responses s |}.

(** [session["responses"] = r] *)
Definition set_responses (r : gmap string Response) (s : FallbackSession)
  : FallbackSession :=
  {| fs_id := fs_id s; fs_user_id := fs_user_id s;
     fs_session_name := fs_session_name s; fs_filters := fs_filters s;
     fs_current_question_index := fs_current_question_index s;
     fs_total_questions := fs_total_questions s;
     fs_questions_answered := fs_questions_answered s;
     fs_questions_correct := fs_questions_correct s;
     fs_questions_incorrect := fs_questions_incorrect s;
     fs_questions_skipped := fs_questions_skipped s;
     fs_start_time := fs_start_time s; fs_last_activity := fs_last_activity s;
     fs_is_active := fs_is_active s; fs_status := fs_status s;
     fs_time_limit := fs_time_limit s; fs_question_ids := fs_question_ids s;
     fs_question_bank := fs_question_bank s; fs_responses := Some r |}.

(** The three counters and the activity stamp, written together. *)
Definition set_stats (answered correct incorrect : Z) (t : string)
    (s : FallbackSession) : FallbackSession :=
  {| fs_id := fs_id s; fs_user_id := fs_user_id s;
     fs_session_name := fs_session_name s; fs_filters := fs_filters s;
     fs_current_question_index := fs_current_question_index s;
     fs_total_questions := fs_total_questions s;
     fs_questions_answered := Some answered;
     fs_questions_correct := Some correct;
     fs_questions_incorrect := Some incorrect;
     fs_questions_skipped := fs_questions_skipped s;
     fs_start_time := fs_start_time s; fs_last_activity := Some t;
     fs_is_active := fs_is_active s; fs_status := fs_status s;
     fs_time_limit := fs_time_limit s; fs_question_ids := fs_question_ids s;
     fs_question_bank := fs_question_bank s; fs_responses := fs_responses s |}.

(** The session dict without its ["responses"] and ["question_bank"] keys. *)
Definition public_view (s : FallbackSession) : FallbackSession :=
  {| fs_id := fs_id s; fs_user_id := fs_user_id s;
     fs_session_name := fs_session_name s; fs_filters := fs_filters s;
     fs_current_question_index := fs_current_question_index s;
     fs_total_questions := fs_total_questions s;
     fs_questions_answered := fs_questions_answered s;
     fs_questions_correct := fs_questions_correct s;
     fs_questions_incorrect := fs_questions_incorrect s;
     fs_questions_skipped := fs_questions_skipped s;
     fs_start_time := fs_start_time s; fs_last_activity := fs_last_activity s;
     fs_is_active := fs_is_active s; fs_status := fs_status s;
     fs_time_limit := fs_time_limit s; fs_question_ids := fs_question_ids s;
     fs_question_bank := None; fs_responses := None |}.

(** Updates of a [pyq_sessions] row, one per [update({...})] payload the
    service sends. *)
Definition row_touch (t : string) (r : SessionRow) : SessionRow :=
  {| row_id := row_id r; row_user_id := row_user_id r;
     row_session_name := row_session_name r; row_filters := row_filters r;
     row_current_question_index := row_current_question_index r;
     row_total_questions := row_total_questions r;
     row_questions_answered := row_questions_answered r;
     row_start_time := row_start_time r; row_last_activity := t;
     row_is_active := row_is_active r |}.

Definition row_move (i : Z) (t : string) (r : SessionRow) : SessionRow :=
  {| row_id := row_id r; row_user_id := row_user_id r;
     row_session_name := row_session_name r; row_filters := row_filters r;
     row_current_question_index := i;
     row_total_questions := row_total_questions r;
     row_questions_answered := row_questions_answered r;
     row_start_time := row_start_time r; row_last_activity := t;
     row_is_active := row_is_active r |}.

Definition row_answered (n : Z) (t : string) (r : SessionRow) : SessionRow :=
  {| row_id := row_id r; row_user_id := row_user_id r;
     row_session_name := row_session_name r; row_filters := row_filters r;
     row_current_question_index := row_current_question_index r;
     row_total_questions := row_total_questions r;
     row_questions_answered := n;
     row_start_time := row_start_time r; row_last_activity := t;
     row_is_active := row_is_active r |}.

Definition row_activate (a : bool) (t : string) (r : SessionRow) : SessionRow :=
  {| row_id := row_id r; row_user_id := row_user_id r;
     row_session_name := row_session_name r; row_filters := row_filters r;
     row_current_question_index := row_current_question_index r;
     row_total_questions := row_total_questions r;
     row_questions_answered := row_questions_answered r;
     row_start_time := row_start_time r; row_last_activity := t;
     row_is_active := a |}.

Definition row_with_id (i : string) (r : SessionRow) : SessionRow :=
  {| row_id := i; row_user_id := row_user_id r;
     row_session_name := row_session_name r; row_filters := row_filters r;
     row_current_question_index := row_current_question_index r;
     row_total_questions := row_total_questions r;
     row_questions_answered := row_questions_answered r;
     row_start_time := row_start_time r;
     row_last_activity := row_last_activity r;
     row_is_active := row_is_active r |}.

(* ===================================================================== *)
(** ** The durable store                                                  *)
(* ===================================================================== *)

(** The tables the service touches. *)
Record Database := {
  pyq_sessions : gmap string SessionRow;
  questions : list Question;
  pyq_metadata : list Metadata;
  test_responses : list Response
}.

Definition with_sessions (s : gmap string SessionRow) (db : Database)
  : Database :=
  {| pyq_sessions := s; questions := questions db;
     pyq_metadata := pyq_metadata db; test_responses := test_responses db |}.

(** A query either raises ([None]) or returns its [data] and the store it
    leaves behind. *)
Definition Query (A : Type) : Type := Database -> option (A * Database).

Module Store.

(** [table("pyq_sessions").select("*").eq("id", sid)] *)
Definition select_session (sid : string) : Query (list SessionRow) :=
  fun db => Some (option_list (pyq_sessions db !! sid), db).

(** [table("pyq_sessions").update(patch).eq("id", sid)]: no row, no change. *)
Definition update_session (sid : string) (patch : SessionRow -> SessionRow)
  : Query unit :=
  fun db => Some (tt, with_sessions (alter patch sid (pyq_sessions db)) db).

(** [table("pyq_sessions").insert(row)]: the store assigns the id [new_id],
    refuses a duplicate primary key and returns the stored row. *)
Definition insert_session (new_id : string) (row : SessionRow)
  : Query (list SessionRow) :=
  fun db =>
    match pyq_sessions db !! new_id with
    | Some _ => None
    | None =>
        let stored := row_with_id new_id row in
        Some ([stored],
              with_sessions (<[new_id := stored]> (pyq_sessions db)) db)
    end.

(** One [.eq(column, value)] of the hierarchy filter, added only when the
    filter value is truthy. *)
Definition eq_if_set (wanted : option string) (column : option string)
  : bool :=
  if PyStr.truthy wanted then bool_decide (column = wanted) else true.

Definition hierarchy_match (f : PYQSessionFilter) (q : Question) : bool :=
  eq_if_set (exam_id f) (q_exam_id q)
  && eq_if_set (subject_id f) (q_subject_id q)
  && eq_if_set (chapter_id f) (q_chapter_id q)
  && eq_if_set (topic_id f) (q_topic_id q)
  && eq_if_set (concept_id f) (q_concept_id q).

(** [table("questions").select("*")] with the hierarchy filters. *)
Definition select_questions (f : PYQSessionFilter) : Query (list Question) :=
  fun db => Some (List.filter (hierarchy_match f) (questions db), db).

(** [table("questions").select("*").eq("id", qid)] *)
Definition select_question (qid : string) : Query (list Question) :=
  fun db =>
    Some (List.filter (fun q => bool_decide (q_id q = qid)) (questions db), db).

(** [table("pyq_metadata").select("*").eq("question_id", qid)] *)
Definition select_metadata (qid : string) : Query (list Metadata) :=
  fun db =>
    Some (List.filter (fun m => bool_decide (md_question_id m = qid))
                      (pyq_metadata db), db).

(** [table("pyq_metadata").select("*").in_("question_id", qids)] *)
Definition select_metadata_in (qids : list string) : Query (list Metadata) :=
  fun db =>
    Some (List.filter (fun m => bool_decide (md_question_id m ∈ qids))
                      (pyq_metadata db), db).

(** [table("test_responses").select("*").eq("session_id", sid)
      .eq("question_id", qid)] *)
Definition select_responses (sid qid : string) : Query (list Response) :=
  fun db =>
    Some (List.filter
            (fun r => bool_decide (r_session_id r = sid)
                      && bool_decide (r_question_id r = qid))
            (test_responses db), db).

End Store.

(* ===================================================================== *)
(** ** The environment and the world                                      *)
(* ===================================================================== *)

(** The outcome of a call that may raise. *)
Inductive Try (A : Type) :=
| Returned (a : A)
| Raise (msg : string).
Arguments Returned {A} a.
Arguments Raise {A} msg.

(** What the service cannot decide by itself. *)
Record Runtime := {
  (** whether the [k]-th call of the durable store raises *)
  raises : nat -> bool;
  (** the id the durable store assigns to a row inserted by its [k]-th call *)
  store_id : nat -> string;
  (** the [k]-th reading of the clock, in microseconds of UTC *)
  clock : nat -> Z;
  (** local time minus UTC, in microseconds *)
  local_offset : Z;
  (** the [k]-th [str(uuid.uuid4())] *)
  uuid4 : nat -> string;
  (** the [k]-th draw of the random generator *)
  random : nat -> nat;
  (** [datetime.isoformat] and [datetime.fromisoformat] *)
  isoformat : datetime -> string;
  fromisoformat : string -> option datetime
}.

(** The service object ([supabase], [fallback_provider],
    [fallback_sessions]) with the environment and its call counters.
    [fallback_provider] is [None] when no provider is given or when it has
    no [get_filtered_questions] attribute. *)
Record World := {
  rt : Runtime;
  store_calls : nat;
  clock_reads : nat;
  uuid_draws : nat;
  random_draws : nat;
  supabase : option Database;
  fallback_provider : option (PYQSessionFilter -> Try (list Question));
  fallback_sessions : gmap string FallbackSession
}.

Definition set_store (k : nat) (db : option Database) (w : World) : World :=
  {| rt := rt w; store_calls := k; clock_reads := clock_reads w;
     uuid_draws := uuid_draws w; random_draws := random_draws w;
     supabase := db; fallback_provider := fallback_provider w;
     fallback_sessions := fallback_sessions w |}.

Definition set_clock_reads (k : nat) (w : World) : World :=
  {| rt := rt w; store_calls := store_calls w; clock_reads := k;
     uuid_draws := uuid_draws w; random_draws := random_draws w;
     supabase := supabase w; fallback_provider := fallback_provider w;
     fallback_sessions := fallback_sessions w |}.

Definition set_uuid_draws (k : nat) (w : World) : World :=
  {| rt := rt w; store_calls := store_calls w; clock_reads := clock_reads w;
     uuid_draws := k; random_draws := random_draws w;
     supabase := supabase w; fallback_provider := fallback_provider w;
     fallback_sessions := fallback_sessions w |}.

Definition set_random_draws (k : nat) (w : World) : World :=
  {| rt := rt w; store_calls := store_calls w; clock_reads := clock_reads w;
     uuid_draws := uuid_draws w; random_draws := k;
     supabase := supabase w; fallback_provider := fallback_provider w;
     fallback_sessions := fallback_sessions w |}.

Definition set_fallback_sessions (m : gmap string FallbackSession) (w : World)
  : World :=
  {| rt := rt w; store_calls := store_calls w; clock_reads := clock_reads w;
     uuid_draws := uuid_draws w; random_draws := random_draws w;
     supabase := supabase w; fallback_provider := fallback_provider w;
     fallback_sessions := m |}.

(** *** The state monad of the service *)

Definition M (A : Type) : Type := World -> A * World.

Definition ret {A} (a : A) : M A := fun w => (a, w).

Definition bind {A B} (m : M A) (k : A -> M B) : M B :=
  fun w => let r := m w in k (fst r) (snd r).

Declare Scope service_scope.
Delimit Scope service_scope with service.
Notation "x <- c ;; k" := (bind c (fun x => k))
  (at level 100, c at next level, right associativity) : service_scope.
Notation "c ;; k" := (bind c (fun _ => k))
  (at level 100, right associativity) : service_scope.
Open Scope service_scope.

(** [if self.supabase] *)
Definition has_supabase : M bool :=
  fun w => (bool_decide (is_Some (supabase w)), w).

(** One call of the durable store, inside its [try]: [None] when it
    raised. *)
Definition store_call {A} (q : Query A) : M (option A) :=
  fun w =>
    let k := store_calls w in
    if raises (rt w) k then (None, set_store (S k) (supabase w) w)
    else
      match supabase w with
      | None => (None, set_store (S k) None w)
      | Some db =>
          match q db with
          | None => (None, set_store (S k) (Some db) w)
          | Some (a, db') => (Some a, set_store (S k) (Some db') w)
          end
      end.

(** The id the store would assign at its next call. *)
Definition next_store_id : M string :=
  fun w => (store_id (rt w) (store_calls w), w).

(** [datetime.now()] *)
Definition datetime_now : M datetime :=
  fun w =>
    let k := clock_reads w in
    ({| wall := clock (rt w) k + local_offset (rt w); tzinfo := None |},
     set_clock_reads (S k) w).

(** [datetime.now(timezone.utc)] *)
Definition datetime_now_utc : M datetime :=
  fun w =>
    let k := clock_reads w in
    ({| wall := clock (rt w) k; tzinfo := Some 0 |}, set_clock_reads (S k) w).

(** [datetime.now().isoformat()] *)
Definition now_isoformat : M string :=
  fun w => let r := datetime_now w in (isoformat (rt w) (fst r), snd r).

(** [str(uuid.uuid4())] *)
Definition new_uuid : M string :=
  fun w =>
    let k := uuid_draws w in (uuid4 (rt w) k, set_uuid_draws (S k) w).

(** [random.randbelow(n)], for [n > 0] *)
Definition randbelow (n : nat) : M nat :=
  fun w =>
    let k := random_draws w in
    ((random (rt w) k `mod` n)%nat, set_random_draws (S k) w).

(** [self.fallback_sessions.get(sid)] *)
Definition get_fallback (sid : string) : M (option FallbackSession) :=
  fun w => (fallback_sessions w !! sid, w).

(** [self.fallback_sessions[sid] = s] *)
Definition put_fallback (sid : string) (s : FallbackSession) : M unit :=
  fun w => (tt, set_fallback_sessions (<[sid := s]> (fallback_sessions w)) w).

(** An in-place mutation of the dict stored under [sid]. *)
Definition mutate_fallback (sid : string)
    (f : FallbackSession -> FallbackSession) : M unit :=
  fun w => (tt, set_fallback_sessions (alter f sid (fallback_sessions w)) w).

(** [random.shuffle(x)]: for [i] from [len(x) - 1] down to [1], swap
    [x[i]] with [x[randbelow(i + 1)]]. *)
Definition swap {A} (i j : nat) (x : list A) : list A :=
  match x !! i, x !! j with
  | Some a, Some b => <[i := b]> (<[j := a]> x)
  | _, _ => x
  end.

Fixpoint shuffle_from {A} (i : nat) (x : list A) : M (list A) :=
  match i with
  | O => ret x
  | S i' => j <- randbelow (S i) ;; shuffle_from i' (swap i j x)
  end.

Definition random_shuffle {A} (x : list A) : M (list A) :=
  shuffle_from (length x - 1) x.

(* ===================================================================== *)
(** ** Results                                                            *)
(* ===================================================================== *)

(** What an operation gives back: a dict with ["success": True] and a
    payload, a dict with ["success": False] and an ["error"] (and, for one
    failure of [get_current_question], ["session_completed": True]), or
    an exception that leaves the method. *)
Inductive Reply (A : Type) :=
| Success (payload : A)
| Failure (error : string) (session_completed : bool)
| Uncaught (exc : string).
Arguments Success {A} payload.
Arguments Failure {A} error session_completed.
Arguments Uncaught {A} exc.

Definition success {A} (r : Reply A) : bool :=
  match r with Success _ => true | _ => false end.

Definition error_of {A} (r : Reply A) : option string :=
  match r with Failure e _ => Some e | _ => None end.

(** Where a session was read from. *)
Inductive Source := from_supabase | from_fallback.

Definition is_fallback (s : Source) : bool :=
  match s with from_fallback => true | from_supabase => false end.

(** The [session] dict an operation works on: a row of the durable store or
    an entry of the fallback map. *)
Inductive Session :=
| RowSession (r : SessionRow)
| MemSession (s : FallbackSession).

(** [session.get("current_question_index", 0)] *)
Definition current_question_index (s : Session) : Z :=
  match s with
  | RowSession r => row_current_question_index r
  | MemSession m => default 0 (fs_current_question_index m)
  end.

(** [session.get("questions_answered", 0)] *)
Definition questions_answered_of (s : Session) : Z :=
  match s with
  | RowSession r => row_questions_answered r
  | MemSession m => default 0 (fs_questions_answered m)
  end.

(** [session.get("total_questions", d)] *)
Definition total_questions_of (d : Z) (s : Session) : Z :=
  match s with
  | RowSession r => row_total_questions r
  | MemSession m => default d (fs_total_questions m)
  end.

(** [session.get("session_name")] *)
Definition session_name_of (s : Session) : option string :=
  match s with
  | RowSession r => Some (row_session_name r)
  | MemSession m => fs_session_name m
  end.

(** [session.get("start_time")] *)
Definition start_time_of (s : Session) : option string :=
  match s with
  | RowSession r => Some (row_start_time r)
  | MemSession m => fs_start_time m
  end.

(** [session.get("question_ids", [])] on a fallback entry *)
Definition question_ids_of (m : FallbackSession) : list string :=
  default [] (fs_question_ids m).

(** [len(x)] as a Python int *)
Definition len {A} (x : list A) : Z := Z.of_nat (length x).

(** [x[i]] with Python's negative indices; [None] is [IndexError]. *)
Definition py_index {A} (x : list A) (i : Z) : option A :=
  if 0 <=? i then x !! Z.to_nat i
  else if - len x <=? i then x !! Z.to_nat (len x + i)
  else None.

(** [a / b * 100] for ints [a], [b] with [b] non-zero *)
Definition percentage (a b : Z) : Q := ((inject_Z a / inject_Z b) * 100)%Q.

Record CreatedSession := {
  cs_session : Session;
  cs_question_ids : list string;
  cs_time_limit : option Z;
  cs_total_questions : Z;
  cs_fallback : bool
}.

Record SessionInfo := {
  si_session_id : string;
  si_current_index : Z;
  si_total_questions : Z;
  si_questions_answered : Z;
  si_progress_percentage : Q
}.

Record Navigation := {
  has_previous : bool;
  has_next : bool;
  is_last : bool
}.

Record CurrentQuestion := {
  cq_question : Question;
  cq_session_info : SessionInfo;
  cq_previous_response : option Response;
  cq_navigation : Navigation;
  cq_fallback : bool
}.

Record Grade := {
  g_is_correct : bool;
  g_correct_answer : option string;
  g_explanation : string;
  g_response_id : string;
  g_fallback : bool
}.

Record Moved := {
  mv_current_index : Z;
  mv_fallback : bool
}.

Record Progress := {
  pr_current_question : Z;
  pr_total_questions : Z;
  pr_questions_answered : Z;
  pr_questions_correct : Z;
  pr_questions_incorrect : Z;
  pr_questions_remaining : Z;
  pr_progress_percentage : Q;
  pr_accuracy_percentage : Q
}.

Record TimeStats := {
  ts_total_time_seconds : Z;
  ts_average_time_per_question : Q;
  ts_session_duration : Q
}.

Record ProgressReport := {
  rep_session_id : string;
  rep_session_name : option string;
  rep_progress : Progress;
  rep_time_stats : TimeStats;
  rep_question_status : list QuestionStatus;
  rep_is_completed : bool;
  rep_fallback : bool
}.

Record Ack := {
  ack_message : string;
  ack_fallback : bool
}.

(* ===================================================================== *)
(** ** The service                                                        *)
(* ===================================================================== *)

(** [data[0] if data else None], for the [data] of a call that may have
    raised *)
Definition first_row {A} (data : option (list A)) : option A :=
  match data with
  | Some (x :: _) => Some x
  | _ => None
  end.

(** [_get_question_with_metadata] *)
Definition _get_question_with_metadata (question_id : string)
  : M (option Question) :=
  sb <- has_supabase ;;
  if sb then
    result <- store_call (Store.select_question question_id) ;;
    match first_row result with
    | Some question =>
        metadata_result <- store_call (Store.select_metadata question_id) ;;
        ret (Some (match metadata_result with
                   | Some [] => question
                   | Some data => with_pyq_metadata question (Some data)
                   | None => with_pyq_metadata question (Some [])
                   end))
    | None => ret None
    end
  else ret None.

(** [_get_session_question_ids] *)
Definition _get_session_question_ids (session_id : string)
  : M (list string) :=
  entry <- get_fallback session_id ;;
  ret (match entry with
       | Some s => question_ids_of s
       | None => []
       end).

(** [filters.year or filters.year_range or filters.exam_session or
     filters.source or filters.difficulty_level or filters.question_type] *)
Definition metadata_filters_set (f : PYQSessionFilter) : bool :=
  match year f with Some y => negb (y =? 0) | None => false end
  || bool_decide (is_Some (year_range f))
  || PyStr.truthy (exam_session f) || PyStr.truthy (source f)
  || PyStr.truthy (difficulty_level f) || PyStr.truthy (question_type f).

(** The body of the metadata loop: [false] where the source [continue]s. *)
Definition metadata_match (f : PYQSessionFilter) (m : Metadata) : bool :=
  match year f with
  | Some y => (y =? 0) || (md_year m =? y)
  | None => true
  end
  && match year_range f with
     | Some (lo, hi) => (lo <=? md_year m) && (md_year m <=? hi)
     | None => true
     end
  && Store.eq_if_set (exam_session f) (md_exam_session m)
  && Store.eq_if_set (source f) (md_source m)
  && Store.eq_if_set (difficulty_level f) (md_difficulty_level m)
  && Store.eq_if_set (question_type f) (md_question_type m).

(** [{m["question_id"]: m for m in data}] *)
Definition metadata_by_question (data : list Metadata) : gmap string Metadata :=
  foldl (fun d m => <[md_question_id m := m]> d) ∅ data.

Definition filter_by_metadata (f : PYQSessionFilter)
    (by_question : gmap string Metadata) (qs : list Question)
  : list Question :=
  omap (fun q =>
          match by_question !! q_id q with
          | None => None
          | Some m =>
              if metadata_match f m
              then Some (with_pyq_metadata q (Some [m]))
              else None
          end) qs.

Definition nonempty {A} (x : list A) : bool :=
  match x with [] => false | _ => true end.

(** [_get_filtered_questions]; [Raise] when the fallback provider raises. *)
Definition _get_filtered_questions (filters : PYQSessionFilter)
  : M (Try (list Question)) :=
  sb <- has_supabase ;;
  questions <-
    (if sb then
       result <- store_call (Store.select_questions filters) ;;
       match result with
       | None => ret []
       | Some questions =>
           if nonempty questions && metadata_filters_set filters then
             metadata_result <-
               store_call (Store.select_metadata_in (q_id <$> questions)) ;;
             match metadata_result with
             | None => ret questions
             | Some data =>
                 ret (filter_by_metadata filters (metadata_by_question data)
                                         questions)
             end
           else ret questions
       end
     else ret []) ;;
  if nonempty questions then ret (Returned questions)
  else
    fun w =>
      match fallback_provider w with
      | Some get_filtered_questions => (get_filtered_questions filters, w)
      | None => (Returned [], w)
      end.

(** [{q["id"]: q for q in questions}] *)
Definition question_bank_of (qs : list Question) : gmap string Question :=
  foldl (fun d q => <[q_id q := q]> d) ∅ qs.

(** [create_session] *)
Definition create_session (user_id session_name : string)
    (filters : PYQSessionFilter) (time_limit : option Z)
  : M (Reply CreatedSession) :=
  found <- _get_filtered_questions filters ;;
  match found with
  | Raise e => ret (Failure e false)
  | Returned [] =>
      ret (Failure "No questions found matching the specified filters" false)
  | Returned unshuffled =>
      questions <- (if shuffle_questions filters
                    then random_shuffle unshuffled else ret unshuffled) ;;
      start_time <- now_isoformat ;;
      last_activity <- now_isoformat ;;
      let session_data :=
        {| row_id := ""; row_user_id := user_id;
           row_session_name := session_name; row_filters := filters;
           row_current_question_index := 0;
           row_total_questions := len questions;
           row_questions_answered := 0; row_start_time := start_time;
           row_last_activity := last_activity; row_is_active := true |} in
      let question_ids := q_id <$> questions in
      sb <- has_supabase ;;
      inserted <- (if sb then
                     new_id <- next_store_id ;;
                     store_call (Store.insert_session new_id session_data)
                   else ret None) ;;
      match first_row inserted with
      | Some session =>
          let session_id := row_id session in
          put_fallback session_id
            (stub_session session_id question_ids
                          (question_bank_of questions) None) ;;
          ret (Success {| cs_session := RowSession session;
                          cs_question_ids := question_ids;
                          cs_time_limit := time_limit;
                          cs_total_questions := len questions;
                          cs_fallback := false |})
      | None =>
          session_id <- new_uuid ;;
          let fallback_session :=
            {| fs_id := session_id; fs_user_id := Some user_id;
               fs_session_name := Some session_name;
               fs_filters := Some filters;
               fs_current_question_index := Some 0;
               fs_total_questions := Some (len questions);
               fs_questions_answered := Some 0;
               fs_questions_correct := Some 0;
               fs_questions_incorrect := Some 0;
               fs_questions_skipped := Some 0;
               fs_start_time := Some start_time;
               fs_last_activity := Some last_activity;
               fs_is_active := Some true; fs_status := Some ACTIVE;
               fs_time_limit := time_limit;
               fs_question_ids := Some question_ids;
               fs_question_bank := Some (question_bank_of questions);
               fs_responses := Some ∅ |} in
          put_fallback session_id fallback_session ;;
          ret (Success {| cs_session := MemSession (public_view fallback_session);
                          cs_question_ids := question_ids;
                          cs_time_limit := time_limit;
                          cs_total_questions := len questions;
                          cs_fallback := true |})
      end
  end.

(** The block that opens [get_current_question], [navigate_to_question],
    [jump_to_question] and [get_session_progress]: the row of the durable
    store when the client is there, the call does not raise and a row
    comes back, else the fallback entry. The [source] variable of the code
    is ["supabase"] exactly when the session is a row. *)
Definition find_session (session_id : string) : M (option Session) :=
  sb <- has_supabase ;;
  row <- (if sb then
            session_result <- store_call (Store.select_session session_id) ;;
            ret (first_row session_result)
          else ret None) ;;
  match row with
  | Some r => ret (Some (RowSession r))
  | None => entry <- get_fallback session_id ;; ret (MemSession <$> entry)
  end.

Definition source_of (s : Session) : Source :=
  match s with
  | RowSession _ => from_supabase
  | MemSession _ => from_fallback
  end.

(** The question ids of a found session: [_get_session_question_ids] for
    a row, [session.get("question_ids", [])] for a fallback entry. *)
Definition session_question_ids (session_id : string) (s : Session)
  : M (list string) :=
  match s with
  | RowSession _ => _get_session_question_ids session_id
  | MemSession m => ret (question_ids_of m)
  end.

(** [get_current_question] *)
Definition get_current_question (session_id : string)
  : M (Reply CurrentQuestion) :=
  found <- find_session session_id ;;
  match found with
  | None => ret (Failure "Session not found" false)
  | Some session =>
      question_ids <- session_question_ids session_id session ;;
      if negb (nonempty question_ids) then
        ret (Failure "No questions found for this session" false)
      else
        let current_index := current_question_index session in
        if len question_ids <=? current_index then
          ret (Failure "No more questions in this session" true)
        else
          match py_index question_ids current_index with
          | None => ret (Uncaught "IndexError")
          | Some current_question_id =>
              looked_up <- _get_question_with_metadata current_question_id ;;
              match looked_up with
              | None => ret (Failure "Question not found" false)
              | Some question =>
                  previous_response <-
                    (match session with
                     | RowSession _ =>
                         response_result <-
                           store_call (Store.select_responses
                                         session_id current_question_id) ;;
                         ret (first_row response_result)
                     | MemSession m =>
                         ret (default ∅ (fs_responses m)
                                !! current_question_id)
                     end) ;;
                  t <- now_isoformat ;;
                  (match session with
                   | RowSession _ =>
                       store_call (Store.update_session session_id
                                     (row_touch t)) ;;
                       ret tt
                   | MemSession _ =>
                       mutate_fallback session_id (set_last_activity t)
                   end) ;;
                  ret (Success
                         {| cq_question := question;
                            cq_session_info :=
                              {| si_session_id := session_id;
                                 si_current_index := current_index;
                                 si_total_questions := len question_ids;
                                 si_questions_answered :=
                                   questions_answered_of session;
                                 si_progress_percentage :=
                                   percentage current_index
                                              (len question_ids) |};
                            cq_previous_response := previous_response;
                            cq_navigation :=
                              {| has_previous := 0 <? current_index;
                                 has_next :=
                                   current_index <? len question_ids - 1;
                                 is_last :=
                                   current_index =? len question_ids - 1 |};
                            cq_fallback := is_fallback (source_of session) |})
              end
          end
  end.

(** [list(responses.values())]. The list is in the order of the keys of
    the map, not in Python's insertion order; lengths, counts and sums do
    not depend on the order. *)
Definition values (responses : gmap string Response) : list Response :=
  (map_to_list responses).*2.

(** [sum(1 for r in responses.values() if p(r))] *)
Definition count_responses (p : Response -> bool)
    (responses : gmap string Response) : Z :=
  len (List.filter p (values responses)).

Definition is_incorrect (r : Response) : bool := negb (r_is_correct r).

(** [_update_session_stats] *)
Definition _update_session_stats (session_id : string) : M unit :=
  session <- get_fallback session_id ;;
  match session with
  | None => ret tt
  | Some s =>
      let responses := default ∅ (fs_responses s) in
      let questions_answered := Z.of_nat (size responses) in
      sb <- has_supabase ;;
      (if sb then
         t <- now_isoformat ;;
         store_call (Store.update_session session_id
                       (row_answered questions_answered t)) ;;
         ret tt
       else ret tt) ;;
      t <- now_isoformat ;;
      mutate_fallback session_id
        (set_stats questions_answered
                   (count_responses r_is_correct responses)
                   (count_responses is_incorrect responses) t)
  end.

(** [(question.get("pyq_metadata") or [{}])[0].get("solution", "")] *)
Definition explanation_of (q : Question) : string :=
  match q_pyq_metadata q with
  | Some (m :: _) => default "" (md_solution m)
  | _ => ""
  end.

(** [submit_answer] *)
Definition submit_answer (session_id question_id user_answer : string)
    (time_taken : Z) : M (Reply Grade) :=
  looked_up <- _get_question_with_metadata question_id ;;
  fallback_session <- get_fallback session_id ;;
  let resolved :=
    match looked_up, fallback_session with
    | None, Some s => default ∅ (fs_question_bank s) !! question_id
    | _, _ => looked_up
    end in
  match resolved with
  | None => ret (Failure "Question not found" false)
  | Some question =>
      let is_correct :=
        _check_answer (q_correct_answer question) user_answer in
      response_time <- now_isoformat ;;
      present <- get_fallback session_id ;;
      let entry :=
        match present with
        | Some s => s
        | None => stub_session session_id [] ∅ (Some ∅)
        end in
      (match present with
       | Some _ => ret tt
       | None => put_fallback session_id entry
       end) ;;
      let responses := default ∅ (fs_responses entry) in
      response_id <- (match responses !! question_id with
                      | Some existing => ret (r_id existing)
                      | None => new_uuid
                      end) ;;
      let responses' :=
        <[question_id :=
            {| r_id := response_id; r_session_id := session_id;
               r_question_id := question_id; r_user_answer := user_answer;
               r_is_correct := is_correct; r_time_taken := time_taken;
               r_response_time := response_time |}]> responses in
      mutate_fallback session_id (set_responses responses') ;;
      sb <- has_supabase ;;
      (if sb then _update_session_stats session_id else ret tt) ;;
      t <- now_isoformat ;;
      mutate_fallback session_id
        (set_stats (Z.of_nat (size responses'))
                   (count_responses r_is_correct responses')
                   (count_responses is_incorrect responses') t) ;;
      ret (Success {| g_is_correct := is_correct;
                      g_correct_answer := q_correct_answer question;
                      g_explanation := explanation_of question;
                      g_response_id := response_id;
                      g_fallback := true |})
  end.

(** The cursor a navigation asks for, or the error that refuses it. *)
Definition step_cursor (direction : string) (current_index n : Z)
  : Z + string :=
  if bool_decide (direction = "next") then
    if n - 1 <=? current_index
    then inr "Cannot move beyond the last question"
    else inl (current_index + 1)
  else if bool_decide (direction = "previous") then
    if current_index <=? 0
    then inr "Cannot move before the first question"
    else inl (current_index - 1)
  else inr "Invalid navigation direction".

(** The write that ends a successful navigation: the row of the durable
    store (a raise is swallowed) or the fallback entry. *)
Definition store_cursor (session_id : string) (session : Session)
    (index : Z) : M unit :=
  t <- now_isoformat ;;
  match session with
  | RowSession _ =>
      store_call (Store.update_session session_id (row_move index t)) ;;
      ret tt
  | MemSession _ =>
      mutate_fallback session_id
        (fun s => set_last_activity t (set_current_question_index index s))
  end.

(** [navigate_to_question] *)
Definition navigate_to_question (session_id direction : string)
  : M (Reply Moved) :=
  found <- find_session session_id ;;
  match found with
  | None => ret (Failure "Session not found" false)
  | Some session =>
      question_ids <- session_question_ids session_id session ;;
      if negb (nonempty question_ids) then
        ret (Failure "No questions found for this session" false)
      else
        match step_cursor direction (current_question_index session)
                          (len question_ids) with
        | inr e => ret (Failure e false)
        | inl current_index =>
            store_cursor session_id session current_index ;;
            ret (Success {| mv_current_index := current_index;
                            mv_fallback := is_fallback (source_of session) |})
        end
  end.

(** [jump_to_question] *)
Definition jump_to_question (session_id : string) (question_index : Z)
  : M (Reply Moved) :=
  found <- find_session session_id ;;
  match found with
  | None => ret (Failure "Session not found" false)
  | Some session =>
      question_ids <- session_question_ids session_id session ;;
      if negb (nonempty question_ids) then
        ret (Failure "No questions found for this session" false)
      else if (question_index <? 0) || (len question_ids <=? question_index)
      then ret (Failure "Invalid question index" false)
      else
        store_cursor session_id session question_index ;;
        ret (Success {| mv_current_index := question_index;
                        mv_fallback := is_fallback (source_of session) |})
  end.

(** The [try] block of [_calculate_session_duration]: [None] when
    [fromisoformat] or the subtraction raises. *)
Definition try_session_duration (start_time_str : string) : M (option Q) :=
  fun w =>
    match fromisoformat (rt w) start_time_str with
    | None => (None, w)
    | Some start_time =>
        let r := match tzinfo start_time with
                 | Some _ => datetime_now_utc w
                 | None => datetime_now w
                 end in
        (total_seconds <$> datetime_sub (fst r) start_time, snd r)
    end.

(** [_calculate_session_duration]: 0 for a missing or empty string and
    when the [try] block raised. *)
Definition _calculate_session_duration (start_time_str : option string)
  : M Q :=
  match start_time_str with
  | Some (String c s) =>
      r <- try_session_duration (String c s) ;; ret (default 0%Q r)
  | _ => ret 0%Q
  end.

(** The status of one position of [question_ids], from the first
    response about that question; there is at most one such response when
    every response is stored under its own question id. *)
Definition status_of (responses : list Response) (q : string)
  : QuestionStatus :=
  match List.find (fun r => bool_decide (r_question_id r = q)) responses with
  | Some response => if r_is_correct response then CORRECT else INCORRECT
  | None => NOT_ATTEMPTED
  end.

Definition sum_time_taken (responses : list Response) : Z :=
  foldr Z.add 0 (r_time_taken <$> responses).

(** [get_session_progress]. The list of responses is the one of the
    fallback entry whatever the source of the session. *)
Definition get_session_progress (session_id : string)
  : M (Reply ProgressReport) :=
  found <- find_session session_id ;;
  match found with
  | None => ret (Failure "Session not found" false)
  | Some session =>
      fallback_data <- get_fallback session_id ;;
      let responses := values (default ∅ (fallback_data ≫= fs_responses)) in
      question_ids <-
        (match session with
         | RowSession _ => _get_session_question_ids session_id
         | MemSession _ => ret (default [] (fallback_data ≫= fs_question_ids))
         end) ;;
      let total_questions := total_questions_of (len question_ids) session in
      let questions_answered := len responses in
      let questions_correct := len (List.filter r_is_correct responses) in
      let questions_incorrect := len (List.filter is_incorrect responses) in
      let total_time := sum_time_taken responses in
      let avg_time :=
        if questions_answered =? 0 then 0%Q
        else (inject_Z total_time / inject_Z questions_answered)%Q in
      session_duration <-
        _calculate_session_duration (start_time_of session) ;;
      ret (Success
             {| rep_session_id := session_id;
                rep_session_name := session_name_of session;
                rep_progress :=
                  {| pr_current_question := current_question_index session + 1;
                     pr_total_questions := total_questions;
                     pr_questions_answered := questions_answered;
                     pr_questions_correct := questions_correct;
                     pr_questions_incorrect := questions_incorrect;
                     pr_questions_remaining :=
                       total_questions - questions_answered;
                     pr_progress_percentage :=
                       if total_questions =? 0 then 0%Q
                       else percentage questions_answered total_questions;
                     pr_accuracy_percentage :=
                       if questions_answered =? 0 then 0%Q
                       else percentage questions_correct questions_answered |};
                rep_time_stats :=
                  {| ts_total_time_seconds := total_time;
                     ts_average_time_per_question := avg_time;
                     ts_session_duration := session_duration |};
                rep_question_status := status_of responses <$> question_ids;
                rep_is_completed := questions_answered =? total_questions;
                rep_fallback := is_fallback (source_of session) |})
  end.

(** The body shared by [pause_session] and [resume_session], which differ
    in the flag, the status and the message they write. *)
Definition set_active (session_id : string) (active : bool)
    (status : SessionStatus) (message : string) : M (Reply Ack) :=
  sb <- has_supabase ;;
  updated <- (if sb then
                t <- now_isoformat ;;
                result <- store_call (Store.update_session session_id
                                        (row_activate active t)) ;;
                ret (bool_decide (is_Some result))
              else ret false) ;;
  if updated then
    ret (Success {| ack_message := message; ack_fallback := false |})
  else
    session <- get_fallback session_id ;;
    match session with
    | None => ret (Failure "Session not found" false)
    | Some _ =>
        t <- now_isoformat ;;
        mutate_fallback session_id
          (fun s => set_last_activity t (set_activity_status active status s)) ;;
        ret (Success {| ack_message := message; ack_fallback := true |})
    end.

(** [pause_session] *)
Definition pause_session (session_id : string) : M (Reply Ack) :=
  set_active session_id false PAUSED "Session paused".

(** [resume_session] *)
Definition resume_session (session_id : string) : M (Reply Ack) :=
  set_active session_id true ACTIVE "Session resumed".


(* ===================================================================== *)
(** ** Views used by the statements                                       *)
(* ===================================================================== *)

(** The [pyq_sessions] table the service is connected to (empty without a
    client). *)
Definition stored_sessions (w : World) : gmap string SessionRow :=
  match supabase w with
  | Some db => pyq_sessions db
  | None => ∅
  end.

(** A fallback entry without its ["is_active"], ["status"] and
    ["last_activity"] keys. *)
Definition without_activity (s : FallbackSession) : FallbackSession :=
  {| fs_id := fs_id s; fs_user_id := fs_user_id s;
     fs_session_name := fs_session_name s; fs_filters := fs_filters s;
     fs_current_question_index := fs_current_question_index s;
     fs_total_questions := fs_total_questions s;
     fs_questions_answered := fs_questions_answered s;
     fs_questions_correct := fs_questions_correct s;
     fs_questions_incorrect := fs_questions_incorrect s;
     fs_questions_skipped := fs_questions_skipped s;
     fs_start_time := fs_start_time s; fs_last_activity := None;
     fs_is_active := None; fs_status := None;
     fs_time_limit := fs_time_limit s; fs_question_ids := fs_question_ids s;
     fs_question_bank := fs_question_bank s; fs_responses := fs_responses s |}.

(** A row without its [is_active] and [last_activity] columns: every other
    column, in order. *)
Definition row_without_activity (r : SessionRow) :=
  (row_id r, row_user_id r, row_session_name r, row_filters r,
   row_current_question_index r, row_total_questions r,
   row_questions_answered r, row_start_time r).

(** The UTC instant of an aware datetime and the local reading of a naive
    one, in microseconds. *)
Definition instant (d : datetime) : Z :=
  match tzinfo d with
  | Some offset => wall d - offset
  | None => wall d
  end.

(** Two worlds with the same service state and environment, whatever
    their call counters. *)
Definition same_state (w w' : World) : Prop :=
  rt w' = rt w /\ supabase w' = supabase w
  /\ fallback_provider w' = fallback_provider w
  /\ fallback_sessions w' = fallback_sessions w.

(** The question ids the fallback map holds for a session: what every
    operation uses as the session's [question_ids], whatever the source
    of the session. *)
Definition fallback_question_ids (sid : string) (w : World) : list string :=
  match fallback_sessions w !! sid with
  | Some s => question_ids_of s
  | None => []
  end.

(** The cursor of session [sid] is a position of its question list, in
    the durable store and in the fallback map. *)
Definition cursor_in_range (sid : string) (w : World) : Prop :=
  let n := len (fallback_question_ids sid w) in
  (forall r, stored_sessions w !! sid = Some r ->
             0 <= row_current_question_index r < n)
  /\ (forall m, fallback_sessions w !! sid = Some m ->
                0 <= default 0 (fs_current_question_index m) < n).

(** The fallback entry [submit_answer] records into: the one stored under
    [sid], else the fresh entry it creates. *)
Definition fallback_entry (sid : string) (w : World) : FallbackSession :=
  default (stub_session sid [] ∅ (Some ∅)) (fallback_sessions w !! sid).

(** The responses recorded so far for session [sid]. *)
Definition recorded_responses (sid : string) (w : World)
  : gmap string Response :=
  default ∅ (fallback_sessions w !! sid ≫= fs_responses).

(** The reading [datetime.now().isoformat()] gives in world [w]. *)
Definition stamp (w : World) : string :=
  isoformat (rt w)
    {| wall := clock (rt w) (clock_reads w) + local_offset (rt w);
       tzinfo := None |}.


(** The question [submit_answer] grades: the one the durable store
    returns, else the one in the question bank of the fallback entry. *)
Definition resolve_question (sid qid : string) (w : World)
  : option Question :=
  let looked_up := fst (_get_question_with_metadata qid w) in
  match looked_up, fallback_sessions w !! sid with
  | None, Some s => default ∅ (fs_question_bank s) !! qid
  | _, _ => looked_up
  end.

(** Every response is stored under its own question id. *)
Definition well_keyed (responses : gmap string Response) : Prop :=
  forall k r, responses !! k = Some r -> r_question_id r = k.


(* ===================================================================== *)
(** ** More views                                                         *)
(* ===================================================================== *)

(** The same service with another fallback provider. *)
Definition with_provider
    (p : option (PYQSessionFilter -> Try (list Question))) (w : World)
  : World :=
  {| rt := rt w; store_calls := store_calls w; clock_reads := clock_reads w;
     uuid_draws := uuid_draws w; random_draws := random_draws w;
     supabase := supabase w; fallback_provider := p;
     fallback_sessions := fallback_sessions w |}.

(** The rows of the [questions] table a hierarchy filter selects. *)
Definition hierarchy_result (f : PYQSessionFilter) (db : Database)
  : list Question :=
  List.filter (Store.hierarchy_match f) (questions db).

(** Two worlds whose sessions differ at most in their last-activity
    stamp, and whose other tables are the same. *)
Definition same_but_last_activity (w w' : World) : Prop :=
  (forall k, set_last_activity "" <$> fallback_sessions w' !! k
             = set_last_activity "" <$> fallback_sessions w !! k)
  /\ (forall k, row_touch "" <$> stored_sessions w' !! k
                = row_touch "" <$> stored_sessions w !! k)
  /\ (questions <$> supabase w') = (questions <$> supabase w)
  /\ (pyq_metadata <$> supabase w') = (pyq_metadata <$> supabase w)
  /\ (test_responses <$> supabase w') = (test_responses <$> supabase w).

(** The service cannot reach its store: it has no client, or every call
    raises. *)
Definition store_unreachable (w : World) : Prop :=
  supabase w = None \/ forall k, raises (rt w) k = true.

(** The cursor of the fallback entry of a session, if there is one. *)
Definition fallback_cursor (sid : string) (w : World) : option Z :=
  fallback_sessions w !! sid ≫= fs_current_question_index.


(* ===================================================================== *)
(** ** Listing the sessions of a user                                     *)
(* ===================================================================== *)

(** [table("pyq_sessions").select("*").eq("user_id", uid)
      .order("created_at", desc=True)], with [.eq("is_active", a)] when
    [active] is [Some a]. The rows of this model carry no [created_at]:
    the result lists the matching rows in the order of the table's keys,
    and no statement below depends on the order of a listing. *)
Definition user_rows (uid : string) (active : option bool) (db : Database)
  : list SessionRow :=
  List.filter
    (fun r => bool_decide (row_user_id r = uid)
              && match active with
                 | Some a => bool_decide (row_is_active r = a)
                 | None => true
                 end)
    (map_to_list (pyq_sessions db)).*2.

Definition select_user_sessions (uid : string) (active : option bool)
  : Query (list SessionRow) :=
  fun db => Some (user_rows uid active db, db).

(** The [count] of [table("test_responses").select("*", count="exact")
      .eq("session_id", sid)] *)
Definition count_session_responses (sid : string) : Query Z :=
  fun db =>
    Some (len (List.filter (fun r => bool_decide (r_session_id r = sid))
                           (test_responses db)), db).

(** [list(self.fallback_sessions.values())], in the order of the keys. *)
Definition fallback_values : M (list FallbackSession) :=
  fun w => ((map_to_list (fallback_sessions w)).*2, w).

(** A [for] loop that appends one result for each element of [x]. *)
Fixpoint for_each {A B} (body : A -> M B) (x : list A) : M (list B) :=
  match x with
  | [] => ret []
  | a :: rest =>
      b <- body a ;;
      bs <- for_each body rest ;;
      ret (b :: bs)
  end.

(** An entry of the listing: the session dict with the keys the listing
    adds or overwrites. ["fallback"] is added to the entries read from
    the fallback map only. *)
Record SessionSummary := {
  ss_session : Session;
  ss_questions_answered : Z;
  ss_progress_percentage : Q;
  ss_is_completed : bool;
  ss_fallback : option bool
}.

Record SessionList := {
  sl_sessions : list SessionSummary;
  sl_fallback : bool
}.

(** The dict appended to [enhanced_sessions]. *)
Definition enhanced (session : Session) (questions_answered total_questions : Z)
    (fallback : option bool) : SessionSummary :=
  {| ss_session := session;
     ss_questions_answered := questions_answered;
     ss_progress_percentage :=
       if total_questions =? 0 then 0%Q
       else percentage questions_answered total_questions;
     ss_is_completed := questions_answered =? total_questions;
     ss_fallback := fallback |}.

(** The body of the loop over the rows of the store: the number of
    answers is the count of the [test_responses] rows of the session, 0
    when that query raises. *)
Definition store_summary (session : SessionRow) : M SessionSummary :=
  let total_questions := row_total_questions session in
  responses_result <- store_call (count_session_responses (row_id session)) ;;
  let questions_answered := default 0 responses_result in
  ret (enhanced (RowSession session) questions_answered total_questions None).

(** The body of the loop over the entries of the fallback map, each
    without its responses and its question bank: the counters are the
    ones of the entry stored under the id of the session. *)
Definition fallback_summary (session : FallbackSession) : M SessionSummary :=
  fallback_session <- get_fallback (fs_id session) ;;
  let questions_answered :=
    match fallback_session with
    | Some f => default 0 (fs_questions_answered f)
    | None => 0
    end in
  let total_questions :=
    match fallback_session with
    | Some f => default (len (question_ids_of f)) (fs_total_questions f)
    | None =>
        default (len (question_ids_of session)) (fs_total_questions session)
    end in
  ret (enhanced (MemSession session) questions_answered total_questions
         (Some true)).

(** The test of the comprehension over the fallback map. *)
Definition listed_in_fallback (user_id status : string) (s : FallbackSession)
  : bool :=
  bool_decide (fs_user_id s = Some user_id)
  && (bool_decide (status = "all")
      || (bool_decide (status = "active") && default false (fs_is_active s))).

(** [get_user_sessions]: it has no failure reply. *)
Definition get_user_sessions (user_id status : string)
  : M (Reply SessionList) :=
  sb <- has_supabase ;;
  sessions <- (if sb then
                 result <-
                   store_call
                     (select_user_sessions user_id
                        (if bool_decide (status = "all") then None
                         else Some (bool_decide (status = "active")))) ;;
                 ret (default [] result)
               else ret []) ;;
  if nonempty sessions then
    enhanced_sessions <- for_each store_summary sessions ;;
    ret (Success {| sl_sessions := enhanced_sessions; sl_fallback := false |})
  else
    entries <- fallback_values ;;
    let sessions :=
      public_view <$> List.filter (listed_in_fallback user_id status) entries in
    enhanced_sessions <- for_each fallback_summary sessions ;;
    ret (Success {| sl_sessions := enhanced_sessions; sl_fallback := true |}).


(** The number of [test_responses] rows of a session. *)
Definition stored_answers (sid : string) (db : Database) : Z :=
  len (List.filter (fun r => bool_decide (r_session_id r = sid))
                   (test_responses db)).
(* ===================================================================== *)
(** ** Concrete worlds                                                    *)
(* ===================================================================== *)

Module Demo.

Definition any_question : PYQSessionFilter :=
  {| exam_id := None; subject_id := None; chapter_id := None;
     topic_id := None; concept_id := None; year := None;
     year_range := None; exam_session := None; source := None;
     difficulty_level := None; question_type := None; marks_min := None;
     marks_max := None; tags := None; shuffle_questions := false;
     include_solved := true |}.

Definition of_subject (s : string) : PYQSessionFilter :=
  {| exam_id := None; subject_id := Some s; chapter_id := None;
     topic_id := None; concept_id := None; year := None;
     year_range := None; exam_session := None; source := None;
     difficulty_level := None; question_type := None; marks_min := None;
     marks_max := None; tags := None; shuffle_questions := false;
     include_solved := true |}.

(** A question of the given subject, with its id and answer key. *)
Definition question_of (subject id key : string) : Question :=
  {| q_id := id; q_content := "?"; q_exam_id := None;
     q_subject_id := Some subject; q_chapter_id := None; q_topic_id := None;
     q_concept_id := None; q_correct_answer := Some key;
     q_pyq_metadata := None |}.

Definition question : string -> string -> Question := question_of "S1".

(** Two questions of subject ["S1"] and one of subject ["S2"]. *)
Definition catalogue : Database :=
  {| pyq_sessions := ∅;
     questions := [question "q1" "A"; question "q2" "B";
                   question_of "S2" "q3" "C"];
     pyq_metadata := []; test_responses := [] |}.

(** An environment whose durable store is always down ([down = true]) or
    always up. *)
Definition runtime (down : bool) : Runtime :=
  {| raises := fun _ => down;
     store_id := fun _ => "row-1";
     clock := fun k => Z.of_nat k * 1000000;
     local_offset := 0;
     uuid4 := fun k => match k with
                       | O => "uuid-0" | 1%nat => "uuid-1" | _ => "uuid-2"
                       end;
     random := fun _ => O;
     isoformat := fun _ => "now";
     fromisoformat := fun _ => None |}.

Definition world (down : bool) (db : option Database)
    (provider : option (PYQSessionFilter -> Try (list Question))) : World :=
  {| rt := runtime down; store_calls := 0; clock_reads := 0;
     uuid_draws := 0; random_draws := 0; supabase := db;
     fallback_provider := provider; fallback_sessions := ∅ |}.

(** The store is up and holds the two questions [q1] and [q2]. *)
Definition online : World := world false (Some catalogue) None.

(** The store raises at every call; a fallback provider serves [q1]. *)
Definition offline : World :=
  world true (Some catalogue)
        (Some (fun _ => Returned [question "q1" "A"])).

(** The state after [op], and its reply. *)
Definition after {A} (op : M A) (w : World) : World := snd (op w).
Definition reply {A} (op : M A) (w : World) : A := fst (op w).

(** A session over the one question of subject ["S2"], in which that
    question and a question outside the session have been answered. *)
Definition overanswered : World :=
  after (submit_answer "row-1" "q1" "A" 4)
    (after (submit_answer "row-1" "q3" "C" 6)
       (after (create_session "u" "n" (of_subject "S2") None) online)).

(** A session over the two questions of subject ["S1"], the first one
    answered, the cursor still on it. *)
Definition half_done : World :=
  after (submit_answer "row-1" "q1" "A" 4)
    (after (create_session "u" "n" (of_subject "S1") None) online).

(** A session over the two questions of subject ["S1"], just created. *)
Definition two_questions : World :=
  after (create_session "u" "n" (of_subject "S1") None) online.


(** A world whose clock reads 5 s, one hour ahead of UTC, and whose
    parser knows one aware and one naive start time. *)
Definition clocked : World :=
  {| rt := {| raises := fun _ => true; store_id := fun _ => "";
              clock := fun _ => 5000000; local_offset := 3600000000;
              uuid4 := fun _ => ""; random := fun _ => O;
              isoformat := fun _ => "";
              fromisoformat := fun s =>
                if String.eqb s "aware"
                then Some {| wall := 3602000000; tzinfo := Some 3600000000 |}
                else if String.eqb s "naive"
                then Some {| wall := 3601000000; tzinfo := None |}
                else None |};
     store_calls := 0; clock_reads := 0; uuid_draws := 0;
     random_draws := 0; supabase := None; fallback_provider := None;
     fallback_sessions := ∅ |}.

(** A session created while the store is down. *)
Definition degraded : World :=
  after (create_session "u" "n" any_question None) offline.


End Demo.

(** *** Worlds without a durable store *)

Module Sample.

(** Any question, in shuffled order. *)
Definition shuffled : PYQSessionFilter :=
  {| exam_id := None; subject_id := None; chapter_id := None;
     topic_id := None; concept_id := None; year := None;
     year_range := None; exam_session := None; source := None;
     difficulty_level := None; question_type := None; marks_min := None;
     marks_max := None; tags := None; shuffle_questions := true;
     include_solved := true |}.

(** No client at all; a fallback provider that serves [q1] and [q2]. *)
Definition local : World :=
  Demo.world false None
    (Some (fun _ => Returned [Demo.question "q1" "A";
                              Demo.question "q2" "B"])).

(** The session ["uuid-0"] over [q1] and [q2], just created in the
    fallback map. *)
Definition local_session : World :=
  Demo.after (create_session "u" "n" Demo.any_question None) local.

(** Questions [q1] and [q2] with one metadata row each, of the years 2020
    and 2021. *)
Definition paper (qid : string) (y : Z) : Metadata :=
  {| md_question_id := qid; md_year := y; md_exam_session := None;
     md_source := None; md_difficulty_level := None;
     md_question_type := None; md_solution := Some "see the key" |}.

Definition archive : Database :=
  {| pyq_sessions := ∅;
     questions := [Demo.question "q1" "A"; Demo.question "q2" "B"];
     pyq_metadata := [paper "q1" 2020; paper "q2" 2021];
     test_responses := [] |}.

Definition of_year (y : Z) : PYQSessionFilter :=
  {| exam_id := None; subject_id := None; chapter_id := None;
     topic_id := None; concept_id := None; year := Some y;
     year_range := None; exam_session := None; source := None;
     difficulty_level := None; question_type := None; marks_min := None;
     marks_max := None; tags := None; shuffle_questions := false;
     include_solved := true |}.

(** A store that answers every call but its second one. *)
Definition second_call_raises : Runtime :=
  {| raises := fun k => Nat.eqb k 1;
     store_id := store_id (Demo.runtime false);
     clock := clock (Demo.runtime false);
     local_offset := 0;
     uuid4 := uuid4 (Demo.runtime false);
     random := random (Demo.runtime false);
     isoformat := isoformat (Demo.runtime false);
     fromisoformat := fromisoformat (Demo.runtime false) |}.

(** The archive behind a store that is up. *)
Definition archive_online : World := Demo.world false (Some archive) None.

(** The archive behind a store whose second call raises. *)
Definition archive_flaky : World :=
  {| rt := second_call_raises; store_calls := 0; clock_reads := 0;
     uuid_draws := 0; random_draws := 0; supabase := Some archive;
     fallback_provider := None; fallback_sessions := ∅ |}.

(** The session ["uuid-0"] of [local_session] after the store came
    back: the store is up and holds the questions, but no row for the
    session. *)
Definition recovered : World :=
  {| rt := Demo.runtime false; store_calls := 0; clock_reads := 2;
     uuid_draws := 1; random_draws := 0;
     supabase := Some Demo.catalogue; fallback_provider := None;
     fallback_sessions := fallback_sessions local_session |}.

(** In [recovered], the first question answered. *)
Definition recovered_answered : World :=
  Demo.after (submit_answer "uuid-0" "q1" "a" 3) recovered.

(** The session ["row-1"] of [Demo.two_questions] behind a store whose
    second call from now on raises. *)
Definition two_questions_flaky : World :=
  {| rt := second_call_raises; store_calls := 0; clock_reads := 2;
     uuid_draws := 0; random_draws := 0;
     supabase := supabase Demo.two_questions; fallback_provider := None;
     fallback_sessions := fallback_sessions Demo.two_questions |}.

(** The store of [Demo.two_questions] behind a service that has just
    started: the row of the session ["row-1"] is there, the fallback map
    is empty. *)
Definition restarted : World :=
  Demo.world false (supabase Demo.two_questions) None.

End Sample.

(* ===================================================================== *)
(** ** Running the service                                                *)
(* ===================================================================== *)

(** Reduces the projections of a world that was built by the setters. *)
Ltac world_simpl :=
  cbn beta iota zeta delta
    [fst snd rt store_calls clock_reads uuid_draws random_draws supabase
     fallback_provider fallback_sessions set_store set_clock_reads
     set_uuid_draws set_random_draws set_fallback_sessions] in *.

(** Unfolds the monad and its primitives, so that an operation applied to
    a world becomes a tree of tests on that world. *)
Ltac run :=
  cbv beta delta
    [bind ret has_supabase store_call next_store_id datetime_now
     datetime_now_utc now_isoformat new_uuid get_fallback put_fallback
     mutate_fallback first_row
     Store.select_session Store.update_session Store.insert_session
     Store.select_questions Store.select_question Store.select_metadata
     Store.select_metadata_in Store.select_responses] in *;
  world_simpl.

(** Splits on the tests of the goal, one at a time. *)
Ltac branch := repeat (case_match; simplify_eq; world_simpl).

(* ===================================================================== *)
(** ** Grading                                                            *)
(* ===================================================================== *)

Section Grading.
Import PyStr.
#[local] Arguments isspace : simpl never.
#[local] Arguments lower_char : simpl never.




















End Grading.

(* ===================================================================== *)
(** ** Session duration                                                   *)
(* ===================================================================== *)

Section Duration.

Lemma try_session_duration_parsed w s start :
  fromisoformat (rt w) s = Some start ->
  fst (try_session_duration s w)
  = Some (total_seconds
            (match tzinfo start with
             | Some _ => clock (rt w) (clock_reads w)
             | None => clock (rt w) (clock_reads w) + local_offset (rt w)
             end - instant start)).
Proof.
  intros Hp. unfold try_session_duration, instant. rewrite Hp.
  destruct start as [t [o |]]; cbn; f_equal; f_equal; lia.
Qed.

(** C7. [_calculate_session_duration] is total and its [try] block raises
    only when the start time does not parse: for a start time that parses,
    aware or naive, "now" is read with the same awareness, the subtraction
    is defined and the result is the elapsed time in seconds; a missing,
    empty or unparseable start time gives 0. *)
Theorem calculate_session_duration_never_throws (w : World) :
  fst (_calculate_session_duration None w) = 0%Q
  /\ fst (_calculate_session_duration (Some "") w) = 0%Q
  /\ (forall s,
         fromisoformat (rt w) s = None ->
         fst (try_session_duration s w) = None
         /\ fst (_calculate_session_duration (Some s) w) = 0%Q)
  /\ (forall s start,
         s <> "" ->
         fromisoformat (rt w) s = Some start ->
         let now := match tzinfo start with
                    | Some _ => fst (datetime_now_utc w)
                    | None => fst (datetime_now w)
                    end in
         (is_Some (tzinfo now) <-> is_Some (tzinfo start))
         /\ datetime_sub now start = Some (instant now - instant start)
         /\ fst (try_session_duration s w)
            = Some (total_seconds (instant now - instant start))
         /\ fst (_calculate_session_duration (Some s) w)
            = total_seconds (instant now - instant start)).
Proof.
  split; [done | split; [done | split]].
  - intros s Hp.
    assert (fst (try_session_duration s w) = None) as Hbody
      by (unfold try_session_duration; by rewrite Hp).
    split; [done |].
    destruct s as [| c s]; [done |].
    cbn [_calculate_session_duration]. unfold bind, ret. cbn [fst snd].
    by rewrite Hbody.
  - intros s start Hs Hp now.
    assert (fst (try_session_duration s w)
            = Some (total_seconds (instant now - instant start))) as Hbody.
    { rewrite (try_session_duration_parsed w s start Hp).
      subst now. destruct start as [t [o |]]; cbn; do 2 f_equal; lia. }
    split; [| split; [| split]]; [| | done |].
    + subst now. destruct start as [t [o |]]; cbn; split; intros [? ?]; eauto;
        discriminate.
    + subst now. destruct start as [t [o |]]; cbn; f_equal; lia.
    + destruct s as [| c s]; [done |].
      cbn [_calculate_session_duration]. unfold bind, ret. cbn [fst snd].
      by rewrite Hbody.
Qed.

Lemma calculate_session_duration_never_throws_witness :
  fst (_calculate_session_duration (Some "aware") Demo.clocked)
  = total_seconds 3000000
  /\ fst (_calculate_session_duration (Some "naive") Demo.clocked)
     = total_seconds 4000000
  /\ fst (_calculate_session_duration (Some "yesterday") Demo.clocked) = 0%Q.
Proof.
  pose proof (calculate_session_duration_never_throws Demo.clocked)
    as (_ & _ & Hbad & Hgood).
  split; [| split].
  - exact (proj2 (proj2 (proj2
      (Hgood "aware" _ ltac:(discriminate) eq_refl)))).
  - exact (proj2 (proj2 (proj2
      (Hgood "naive" _ ltac:(discriminate) eq_refl)))).
  - exact (proj2 (Hbad "yesterday" eq_refl)).
Defined.

End Duration.

(* ===================================================================== *)
(** ** Pause and resume                                                   *)
(* ===================================================================== *)

Section PauseResume.

Lemma without_activity_touch s t a st :
  without_activity (set_last_activity t (set_activity_status a st s))
  = without_activity s.
Proof. reflexivity. Qed.

Lemma set_active_frame sid a st msg (w : World) :
  let w' := snd (set_active sid a st msg w) in
  (forall k, without_activity <$> fallback_sessions w' !! k
             = without_activity <$> fallback_sessions w !! k)
  /\ (forall k, row_without_activity <$> stored_sessions w' !! k
                = row_without_activity <$> stored_sessions w !! k)
  /\ (questions <$> supabase w') = (questions <$> supabase w)
  /\ (pyq_metadata <$> supabase w') = (pyq_metadata <$> supabase w)
  /\ (test_responses <$> supabase w') = (test_responses <$> supabase w).
Proof.
  unfold set_active, stored_sessions. run.
  destruct (supabase w) as [db |] eqn:Hdb; cbn;
    [destruct (raises (rt w) (store_calls w)) eqn:Hr; cbn |];
    try destruct (fallback_sessions w !! sid) as [s |] eqn:Hs; cbn;
    rewrite ?Hdb; cbn; repeat split; try done; intros k;
    rewrite lookup_alter; case_decide; subst; try done;
    try (rewrite Hs; done);
    by destruct (pyq_sessions db !! k).
Qed.

(** C8. [pause_session] and [resume_session] change nothing but
    [is_active], [status] and [last_activity]: in the fallback map and in
    the [pyq_sessions] table every session keeps every other field, in
    particular its [question_ids], its [current_question_index] and its
    recorded responses, and no session appears or disappears. *)
Theorem pause_resume_touch_only_activity (w : World) (sid : string) :
  let paused := snd (pause_session sid w) in
  let resumed := snd (resume_session sid w) in
  (forall k,
      without_activity <$> fallback_sessions paused !! k
      = without_activity <$> fallback_sessions w !! k
      /\ without_activity <$> fallback_sessions resumed !! k
         = without_activity <$> fallback_sessions w !! k)
  /\ (forall k,
         row_without_activity <$> stored_sessions paused !! k
         = row_without_activity <$> stored_sessions w !! k
         /\ row_without_activity <$> stored_sessions resumed !! k
            = row_without_activity <$> stored_sessions w !! k)
  /\ (forall k,
         (fallback_sessions paused !! k ≫= fs_question_ids)
         = (fallback_sessions w !! k ≫= fs_question_ids)
         /\ (fallback_sessions paused !! k ≫= fs_current_question_index)
            = (fallback_sessions w !! k ≫= fs_current_question_index)
         /\ (fallback_sessions paused !! k ≫= fs_responses)
            = (fallback_sessions w !! k ≫= fs_responses)
         /\ (row_current_question_index <$> stored_sessions paused !! k)
            = (row_current_question_index <$> stored_sessions w !! k))
  /\ (forall k,
         (fallback_sessions resumed !! k ≫= fs_question_ids)
         = (fallback_sessions w !! k ≫= fs_question_ids)
         /\ (fallback_sessions resumed !! k ≫= fs_current_question_index)
            = (fallback_sessions w !! k ≫= fs_current_question_index)
         /\ (fallback_sessions resumed !! k ≫= fs_responses)
            = (fallback_sessions w !! k ≫= fs_responses)
         /\ (row_current_question_index <$> stored_sessions resumed !! k)
            = (row_current_question_index <$> stored_sessions w !! k)).
Proof.
  intros paused resumed.
  destruct (set_active_frame sid false PAUSED "Session paused" w)
    as (Hp & Hpr & _).
  destruct (set_active_frame sid true ACTIVE "Session resumed" w)
    as (Hr & Hrr & _).
  fold (pause_session sid) in Hp, Hpr. fold (resume_session sid) in Hr, Hrr.
  fold paused in Hp, Hpr. fold resumed in Hr, Hrr.
  assert (forall w1 w2 k,
             without_activity <$> fallback_sessions w1 !! k
             = without_activity <$> fallback_sessions w2 !! k ->
             (fallback_sessions w1 !! k ≫= fs_question_ids)
             = (fallback_sessions w2 !! k ≫= fs_question_ids)
             /\ (fallback_sessions w1 !! k ≫= fs_current_question_index)
                = (fallback_sessions w2 !! k ≫= fs_current_question_index)
             /\ (fallback_sessions w1 !! k ≫= fs_responses)
                = (fallback_sessions w2 !! k ≫= fs_responses)) as Hmem.
  { intros w1 w2 k H.
    destruct (fallback_sessions w1 !! k) as [[] |],
             (fallback_sessions w2 !! k) as [[] |];
      cbn in H; try done; by simplify_eq. }
  assert (forall w1 w2 k,
             row_without_activity <$> stored_sessions w1 !! k
             = row_without_activity <$> stored_sessions w2 !! k ->
             (row_current_question_index <$> stored_sessions w1 !! k)
             = (row_current_question_index <$> stored_sessions w2 !! k))
    as Hrow.
  { intros w1 w2 k H.
    destruct (stored_sessions w1 !! k) as [[] |],
             (stored_sessions w2 !! k) as [[] |];
      cbn in H; try done; by simplify_eq. }
  repeat split; auto; try apply Hmem; try apply Hrow; auto.
Qed.

End PauseResume.

(* ===================================================================== *)
(** ** Session creation                                                   *)
(* ===================================================================== *)

Section Creation.

Lemma get_filtered_questions_same_state filters w :
  same_state w (snd (_get_filtered_questions filters w)).
Proof.
  unfold same_state, _get_filtered_questions. run.
  destruct (supabase w) as [db |] eqn:Hdb; cbn; branch; cbn; rewrite ?Hdb;
    done.
Qed.

(** C6. When the filter resolves to no question, [create_session] fails
    with the no-questions error and neither the durable store nor the
    fallback map changes: no session is created. *)
Theorem create_session_no_questions
    (user_id session_name : string) (filters : PYQSessionFilter)
    (time_limit : option Z) (w : World) :
  fst (_get_filtered_questions filters w) = Returned [] ->
  fst (create_session user_id session_name filters time_limit w)
  = Failure "No questions found matching the specified filters" false
  /\ success (fst (create_session user_id session_name filters time_limit w))
     = false
  /\ supabase (snd (create_session user_id session_name filters time_limit w))
     = supabase w
  /\ fallback_sessions
       (snd (create_session user_id session_name filters time_limit w))
     = fallback_sessions w.
Proof.
  intros Hnone.
  destruct (get_filtered_questions_same_state filters w) as (_ & Hs & _ & Hf).
  cbv beta zeta delta [create_session bind].
  rewrite Hnone. cbv beta iota delta [ret success]. cbn [fst snd].
  by rewrite Hs, Hf.
Qed.

Lemma create_session_no_questions_witness :
  fst (_get_filtered_questions (Demo.of_subject "S9") Demo.online)
  = Returned []
  /\ fst (create_session "u" "n" (Demo.of_subject "S9") None Demo.online)
     = Failure "No questions found matching the specified filters" false.
Proof.
  assert (fst (_get_filtered_questions (Demo.of_subject "S9") Demo.online)
          = Returned []) as H by (vm_compute; reflexivity).
  split; [exact H |].
  exact (proj1 (create_session_no_questions "u" "n" _ None _ H)).
Defined.

End Creation.

(* ===================================================================== *)
(** ** Navigation                                                         *)
(* ===================================================================== *)

Section Navigation.

Lemma find_session_same_state sid w : same_state w (snd (find_session sid w)).
Proof.
  unfold same_state, find_session. run.
  destruct (supabase w) as [db |] eqn:Hdb; cbn; branch; cbn; rewrite ?Hdb;
    done.
Qed.

Lemma find_session_found sid w s :
  fst (find_session sid w) = Some s ->
  match s with
  | RowSession r => stored_sessions w !! sid = Some r
  | MemSession m => fallback_sessions w !! sid = Some m
  end.
Proof.
  unfold find_session, stored_sessions. run.
  destruct (supabase w) as [db |] eqn:Hdb; cbn;
    [destruct (raises (rt w) (store_calls w)); cbn; rewrite ?Hdb; cbn;
     [| destruct (pyq_sessions db !! sid) eqn:Hrow; cbn] |];
    try (destruct (fallback_sessions w !! sid); cbn);
    intros; by simplify_eq/=.
Qed.

Lemma session_question_ids_spec sid s w0 w :
  fallback_sessions w = fallback_sessions w0 ->
  match s with
  | RowSession _ => True
  | MemSession m => fallback_sessions w0 !! sid = Some m
  end ->
  session_question_ids sid s w = (fallback_question_ids sid w0, w).
Proof.
  intros Hf Hs. unfold fallback_question_ids.
  destruct s as [r | m]; cbn; unfold _get_session_question_ids; run;
    rewrite ?Hf; [done | by rewrite Hs].
Qed.

Lemma store_cursor_fallback sid m i w :
  fallback_sessions (snd (store_cursor sid (MemSession m) i w))
  = alter (fun s => set_last_activity
                      (isoformat (rt w)
                         {| wall := clock (rt w) (clock_reads w)
                                    + local_offset (rt w);
                            tzinfo := None |})
                      (set_current_question_index i s))
          sid (fallback_sessions w)
  /\ supabase (snd (store_cursor sid (MemSession m) i w)) = supabase w.
Proof. by unfold store_cursor; run. Qed.

Lemma store_cursor_row sid r i w :
  fallback_sessions (snd (store_cursor sid (RowSession r) i w))
  = fallback_sessions w
  /\ forall k,
       stored_sessions (snd (store_cursor sid (RowSession r) i w)) !! k
       = stored_sessions w !! k
       \/ k = sid
          /\ exists t, stored_sessions
                         (snd (store_cursor sid (RowSession r) i w)) !! k
                       = row_move i t <$> stored_sessions w !! k.
Proof.
  unfold store_cursor, stored_sessions. run.
  destruct (raises (rt w) (store_calls w)); cbn; [by split; [| left] |].
  destruct (supabase w) as [db |] eqn:Hdb; cbn; [| by split; [| left]].
  split; [done |]. intros k. rewrite lookup_alter. case_decide; subst; eauto.
Qed.

(** A written cursor that is a position of the list keeps
    [cursor_in_range]; the question ids never change. *)
Lemma store_cursor_in_range sid s i w0 w :
  same_state w0 w ->
  match s with
  | RowSession _ => True
  | MemSession m => fallback_sessions w0 !! sid = Some m
  end ->
  0 <= i < len (fallback_question_ids sid w0) ->
  cursor_in_range sid w0 ->
  cursor_in_range sid (snd (store_cursor sid s i w)).
Proof.
  intros (Hrt & Hdb & _ & Hf) Hs Hi [Hrow Hmem].
  assert (stored_sessions w = stored_sessions w0) as Hst
    by (unfold stored_sessions; by rewrite Hdb).
  destruct s as [r | m].
  - destruct (store_cursor_row sid r i w) as [Hf' Hk].
    assert (fallback_question_ids sid (snd (store_cursor sid (RowSession r) i w))
            = fallback_question_ids sid w0) as Hq
      by (unfold fallback_question_ids; by rewrite Hf', Hf).
    split; cbv zeta; rewrite Hq.
    + intros r'. destruct (Hk sid) as [-> | [_ [t ->]]]; rewrite Hst.
      * apply Hrow.
      * destruct (stored_sessions w0 !! sid); cbn; intros; by simplify_eq/=.
    + intros m'. rewrite Hf', Hf. apply Hmem.
  - destruct (store_cursor_fallback sid m i w) as [Hf' Hdb'].
    assert (stored_sessions (snd (store_cursor sid (MemSession m) i w))
            = stored_sessions w0) as Hst'
      by (unfold stored_sessions; by rewrite Hdb', Hdb).
    assert (fallback_question_ids sid (snd (store_cursor sid (MemSession m) i w))
            = fallback_question_ids sid w0) as Hq.
    { unfold fallback_question_ids. rewrite Hf', Hf, lookup_alter.
      case_decide; [| done]. by rewrite Hs. }
    split; cbv zeta; rewrite Hq.
    + intros r'. rewrite Hst'. apply Hrow.
    + intros m'. rewrite Hf', Hf, lookup_alter. case_decide; [| done].
      rewrite Hs. cbn. intros; by simplify_eq.
Qed.

Lemma cursor_in_range_same_state sid w w' :
  same_state w w' -> cursor_in_range sid w -> cursor_in_range sid w'.
Proof.
  intros (_ & Hdb & _ & Hf).
  unfold cursor_in_range, fallback_question_ids, stored_sessions.
  by rewrite Hdb, Hf.
Qed.

Lemma step_cursor_next i n :
  n - 1 <= i ->
  step_cursor "next" i n = inr "Cannot move beyond the last question".
Proof.
  intros H. unfold step_cursor. rewrite bool_decide_eq_true_2 by done.
  by rewrite (proj2 (Z.leb_le _ _) H).
Qed.

Lemma step_cursor_previous i n :
  i <= 0 ->
  step_cursor "previous" i n = inr "Cannot move before the first question".
Proof.
  intros H. unfold step_cursor.
  rewrite bool_decide_eq_false_2 by done.
  rewrite bool_decide_eq_true_2 by done.
  by rewrite (proj2 (Z.leb_le _ _) H).
Qed.

Lemma step_cursor_moves d i n j :
  step_cursor d i n = inl j ->
  (d = "next" /\ j = i + 1 /\ j < n) \/ (d = "previous" /\ j = i - 1 /\ 0 <= j).
Proof.
  unfold step_cursor. repeat case_bool_decide; repeat case_match;
    intros; simplify_eq; [left | right]; repeat split; lia.
Qed.

(** What [navigate_to_question] and [jump_to_question] do once the
    session and its questions are known. *)
Lemma navigate_unfold sid d w :
  navigate_to_question sid d w
  = let w1 := snd (find_session sid w) in
    match fst (find_session sid w) with
    | None => (Failure "Session not found" false, w1)
    | Some s =>
        let qids := fallback_question_ids sid w in
        if negb (nonempty qids)
        then (Failure "No questions found for this session" false, w1)
        else match step_cursor d (current_question_index s) (len qids) with
             | inr e => (Failure e false, w1)
             | inl i =>
                 (Success {| mv_current_index := i;
                             mv_fallback := is_fallback (source_of s) |},
                  snd (store_cursor sid s i w1))
             end
    end.
Proof.
  destruct (find_session_same_state sid w) as (_ & _ & _ & Hf).
  cbv beta zeta delta [navigate_to_question bind].
  destruct (fst (find_session sid w)) as [s |] eqn:Hs; [| done].
  rewrite (session_question_ids_spec sid s w _ Hf)
    by (pose proof (find_session_found sid w s Hs); by destruct s).
  cbn [fst snd]. case_match; [done |]. by case_match.
Qed.

Lemma jump_unfold sid i w :
  jump_to_question sid i w
  = let w1 := snd (find_session sid w) in
    match fst (find_session sid w) with
    | None => (Failure "Session not found" false, w1)
    | Some s =>
        let qids := fallback_question_ids sid w in
        if negb (nonempty qids)
        then (Failure "No questions found for this session" false, w1)
        else if (i <? 0) || (len qids <=? i)
        then (Failure "Invalid question index" false, w1)
        else (Success {| mv_current_index := i;
                         mv_fallback := is_fallback (source_of s) |},
              snd (store_cursor sid s i w1))
    end.
Proof.
  destruct (find_session_same_state sid w) as (_ & _ & _ & Hf).
  cbv beta zeta delta [jump_to_question bind].
  destruct (fst (find_session sid w)) as [s |] eqn:Hs; [| done].
  rewrite (session_question_ids_spec sid s w _ Hf)
    by (pose proof (find_session_found sid w s Hs); by destruct s).
  cbn [fst snd]. case_match; [done |]. by case_match.
Qed.

Lemma found_cursor_in_range sid w s :
  fst (find_session sid w) = Some s ->
  cursor_in_range sid w ->
  0 <= current_question_index s < len (fallback_question_ids sid w).
Proof.
  intros Hs [Hrow Hmem]. pose proof (find_session_found sid w s Hs) as H.
  destruct s as [r | m]; cbn; [by apply Hrow | by apply Hmem].
Qed.

Lemma nonempty_len {A} (x : list A) : nonempty x = true <-> 0 < len x.
Proof. destruct x; cbn; unfold len; cbn; split; (done || lia). Qed.

(** C2. Navigation at the boundaries. For a session found with cursor
    [i] over [n] questions: "next" fails when [i >= n - 1], "previous"
    fails when [i <= 0], and a jump fails when its target is outside
    [0, n). Every failed navigation leaves the durable store and the
    fallback map as they were, so the cursor does not move. After a
    successful navigation the cursor is a position of the question list:
    the index given back is within [0, n), and a cursor that was in range
    in both stores is in range afterwards. *)
Theorem navigation_boundaries (w : World) (sid : string) :
  let n := len (fallback_question_ids sid w) in
  (forall d,
      success (fst (navigate_to_question sid d w)) = false ->
      supabase (snd (navigate_to_question sid d w)) = supabase w
      /\ fallback_sessions (snd (navigate_to_question sid d w))
         = fallback_sessions w)
  /\ (forall i,
         success (fst (jump_to_question sid i w)) = false ->
         supabase (snd (jump_to_question sid i w)) = supabase w
         /\ fallback_sessions (snd (jump_to_question sid i w))
            = fallback_sessions w)
  /\ (forall s,
         fst (find_session sid w) = Some s ->
         n - 1 <= current_question_index s ->
         success (fst (navigate_to_question sid "next" w)) = false
         /\ (0 < n ->
             fst (navigate_to_question sid "next" w)
             = Failure "Cannot move beyond the last question" false))
  /\ (forall s,
         fst (find_session sid w) = Some s ->
         current_question_index s <= 0 ->
         success (fst (navigate_to_question sid "previous" w)) = false
         /\ (0 < n ->
             fst (navigate_to_question sid "previous" w)
             = Failure "Cannot move before the first question" false))
  /\ (forall i,
         i < 0 \/ n <= i ->
         success (fst (jump_to_question sid i w)) = false
         /\ (is_Some (fst (find_session sid w)) -> 0 < n ->
             fst (jump_to_question sid i w)
             = Failure "Invalid question index" false))
  /\ (forall d p,
         fst (navigate_to_question sid d w) = Success p ->
         cursor_in_range sid w ->
         0 <= mv_current_index p < n
         /\ cursor_in_range sid (snd (navigate_to_question sid d w)))
  /\ (forall i p,
         fst (jump_to_question sid i w) = Success p ->
         mv_current_index p = i /\ 0 <= i < n
         /\ (cursor_in_range sid w ->
             cursor_in_range sid (snd (jump_to_question sid i w)))).
Proof.
  intros n.
  pose proof (find_session_same_state sid w) as Hsame.
  destruct Hsame as (Hrt & Hdb & Hfp & Hf).
  assert (same_state w (snd (find_session sid w))) as Hsame by done.
  split; [| split; [| split; [| split; [| split; [| split]]]]].
  - intros d. rewrite navigate_unfold. cbv zeta.
    destruct (fst (find_session sid w)) as [s |]; [| done].
    destruct (negb _); [done |].
    by destruct (step_cursor _ _ _).
  - intros i. rewrite jump_unfold. cbv zeta.
    destruct (fst (find_session sid w)) as [s |]; [| done].
    destruct (negb _); [done |].
    by destruct (_ || _).
  - intros s Hs Hi. rewrite navigate_unfold, Hs. cbv zeta. fold n.
    rewrite (step_cursor_next _ _ Hi).
    destruct (nonempty _) eqn:Hne; cbn; [done |].
    split; [done |]. intros Hn%nonempty_len. congruence.
  - intros s Hs Hi. rewrite navigate_unfold, Hs. cbv zeta. fold n.
    rewrite (step_cursor_previous _ _ Hi).
    destruct (nonempty _) eqn:Hne; cbn; [done |].
    split; [done |]. intros Hn%nonempty_len. congruence.
  - intros i Hi. rewrite jump_unfold. cbv zeta. fold n.
    destruct (fst (find_session sid w)) as [s |];
      [| split; [done | by intros [? ?]]].
    assert ((i <? 0) || (n <=? i) = true) as ->.
    { apply orb_true_iff. destruct Hi; [left | right]; lia. }
    destruct (nonempty _) eqn:Hne; cbn; [done |].
    split; [done |]. intros _ Hn%nonempty_len. congruence.
  - intros d p. rewrite navigate_unfold. cbv zeta. fold n.
    destruct (fst (find_session sid w)) as [s |] eqn:Hs; [| done].
    destruct (nonempty _) eqn:Hne; cbn [negb]; [| done].
    destruct (step_cursor _ _ _) as [j | e] eqn:Hstep; [| done].
    cbn [fst snd]. intros [= <-] Hin. cbn [mv_current_index].
    pose proof (found_cursor_in_range sid w s Hs Hin) as Hcur. fold n in Hcur.
    assert (0 <= j < n) as Hj
      by (destruct (step_cursor_moves _ _ _ _ Hstep)
            as [(_ & -> & ?) | (_ & -> & ?)]; lia).
    split; [done |].
    apply (store_cursor_in_range sid s j w); try done.
    pose proof (find_session_found sid w s Hs). by destruct s.
  - intros i p. rewrite jump_unfold. cbv zeta. fold n.
    destruct (fst (find_session sid w)) as [s |] eqn:Hs; [| done].
    destruct (nonempty _) eqn:Hne; cbn [negb]; [| done].
    destruct (_ || _) eqn:Hout; [done |].
    apply orb_false_iff in Hout as [Hlo Hhi].
    cbn [fst snd]. intros [= <-]. cbn [mv_current_index].
    assert (0 <= i < n) as Hi by lia.
    split; [done | split; [done |]]. intros Hin.
    apply (store_cursor_in_range sid s i w); try done.
    pose proof (find_session_found sid w s Hs). by destruct s.
Qed.

Lemma navigation_boundaries_witness :
  cursor_in_range "row-1" Demo.two_questions
  /\ fst (navigate_to_question "row-1" "previous" Demo.two_questions)
     = Failure "Cannot move before the first question" false
  /\ cursor_in_range "row-1"
       (snd (navigate_to_question "row-1" "next" Demo.two_questions))
  /\ success (fst (jump_to_question "row-1" 2 Demo.two_questions)) = false.
Proof.
  assert (cursor_in_range "row-1" Demo.two_questions) as Hin.
  { split; intros r Hr; vm_compute in Hr; injection Hr as <-;
      vm_compute; split; discriminate || reflexivity. }
  pose proof (navigation_boundaries Demo.two_questions "row-1")
    as (_ & _ & _ & Hprev & Hjump & Hnav & _).
  split; [exact Hin | split; [| split]].
  - exact (proj2 (Hprev (RowSession
                           {| row_id := "row-1"; row_user_id := "u";
                              row_session_name := "n";
                              row_filters := Demo.of_subject "S1";
                              row_current_question_index := 0;
                              row_total_questions := 2;
                              row_questions_answered := 0;
                              row_start_time := "now";
                              row_last_activity := "now";
                              row_is_active := true |})
                        eq_refl ltac:(vm_compute; discriminate))
                 ltac:(vm_compute; reflexivity)).
  - exact (proj2 (Hnav "next" {| mv_current_index := 1;
                                 mv_fallback := false |} eq_refl Hin)).
  - exact (proj1 (Hjump 2 ltac:(right; vm_compute; discriminate))).
Defined.

End Navigation.

(* ===================================================================== *)
(** ** Answer submission                                                  *)
(* ===================================================================== *)

Section Submission.

(** Looking a question up asks the store but changes nothing else. *)
Lemma get_question_frame qid w :
  let w' := snd (_get_question_with_metadata qid w) in
  same_state w w' /\ clock_reads w' = clock_reads w
  /\ uuid_draws w' = uuid_draws w.
Proof.
  unfold same_state, _get_question_with_metadata. run.
  destruct (supabase w) as [db |] eqn:Hdb; cbn; [| done].
  destruct (raises (rt w) (store_calls w)); cbn; rewrite ?Hdb; cbn; [done |].
  destruct (List.filter _ (questions db)); cbn; rewrite ?Hdb; [done |].
  destruct (raises (rt w) (S (store_calls w))); cbn; rewrite ?Hdb; done.
Qed.

Lemma update_session_stats_spec sid w s :
  fallback_sessions w !! sid = Some s ->
  let w' := snd (_update_session_stats sid w) in
  let responses := default ∅ (fs_responses s) in
  rt w' = rt w /\ uuid_draws w' = uuid_draws w
  /\ dom (stored_sessions w') = dom (stored_sessions w)
  /\ exists t,
       fallback_sessions w'
       = alter (set_stats (Z.of_nat (size responses))
                          (count_responses r_is_correct responses)
                          (count_responses is_incorrect responses) t)
               sid (fallback_sessions w).
Proof.
  intros Hs. unfold _update_session_stats, stored_sessions. run.
  rewrite Hs. cbn.
  destruct (supabase w) as [db |] eqn:Hdb; cbn;
    [destruct (raises (rt w) (store_calls w)); cbn |];
    rewrite ?Hdb; cbn; repeat split; eauto; apply dom_alter_L.
Qed.

Lemma maybe_update_stats sid w s (b : bool) :
  fallback_sessions w !! sid = Some s ->
  let w' := snd ((if b then _update_session_stats sid else ret tt) w) in
  let responses := default ∅ (fs_responses s) in
  rt w' = rt w /\ uuid_draws w' = uuid_draws w
  /\ dom (stored_sessions w') = dom (stored_sessions w)
  /\ exists s',
       fallback_sessions w' = <[sid := s']> (fallback_sessions w)
       /\ (s' = s
           \/ exists t,
               s' = set_stats (Z.of_nat (size responses))
                              (count_responses r_is_correct responses)
                              (count_responses is_incorrect responses) t s).
Proof.
  intros Hs. destruct b; cbv zeta.
  - destruct (update_session_stats_spec sid w s Hs) as (? & ? & ? & t & Hf).
    repeat split; try done. eexists; split; [| right; by exists t].
    by rewrite Hf, (alter_alt_Some _ _ _ _ Hs).
  - cbn. repeat split; try done. exists s; split; [| by left].
    by rewrite insert_id.
Qed.

Lemma submit_answer_spec sid qid a t w :
  let r := submit_answer sid qid a t w in
  let old := recorded_responses sid w in
  match fst r with
  | Uncaught _ => False
  | Failure e c =>
      e = "Question not found" /\ c = false
      /\ resolve_question sid qid w = None
      /\ fallback_sessions (snd r) = fallback_sessions w
      /\ supabase (snd r) = supabase w
  | Success g =>
      exists q tlast,
        let rid := match old !! qid with
                   | Some e => r_id e
                   | None => uuid4 (rt w) (uuid_draws w)
                   end in
        let new :=
          <[qid := {| r_id := rid; r_session_id := sid; r_question_id := qid;
                      r_user_answer := a;
                      r_is_correct := _check_answer (q_correct_answer q) a;
                      r_time_taken := t; r_response_time := stamp w |}]> old in
        resolve_question sid qid w = Some q
        /\ g = {| g_is_correct := _check_answer (q_correct_answer q) a;
               g_correct_answer := q_correct_answer q;
               g_explanation := explanation_of q;
               g_response_id := rid; g_fallback := true |}
        /\ fallback_sessions (snd r)
           = <[sid := set_stats (Z.of_nat (size new))
                                (count_responses r_is_correct new)
                                (count_responses is_incorrect new) tlast
                                (set_responses new (fallback_entry sid w))]>
               (fallback_sessions w)
        /\ rt (snd r) = rt w
        /\ dom (stored_sessions (snd r)) = dom (stored_sessions w)
  end.
Proof.
  destruct (get_question_frame qid w) as ((Hrt & Hdb & Hfp & Hf) & Hck & Hu).
  cbv beta zeta delta [submit_answer bind].
  set (w1 := snd (_get_question_with_metadata qid w)) in *.
  unfold recorded_responses, fallback_entry, stamp, resolve_question.
  cbv zeta.
  rewrite <- Hrt, <- Hck, <- Hu, <- Hf.
  assert (stored_sessions w = stored_sessions w1) as ->
    by (unfold stored_sessions; by rewrite Hdb).
  rewrite <- Hdb.
  clearbody w1. clear Hrt Hdb Hfp Hf Hck Hu.
  set (looked_up := fst (_get_question_with_metadata qid w)). clearbody looked_up.
  unfold get_fallback at 1. cbn [fst snd].
  set (resolved := match looked_up with Some _ => _ | None => _ end).
  clearbody resolved. destruct resolved as [q |]; [| done].
  exists q.
  destruct (fallback_sessions w1 !! sid) as [s |] eqn:Hs;
    cbn [default mbind option_bind];
    [destruct (default ∅ (fs_responses s) !! qid) as [e |] eqn:He |];
    run; rewrite ?Hs; cbn [default mbind option_bind fs_responses stub_session];
    cbn [from_option id]; rewrite ?He, ?lookup_empty; world_simpl.
  all:
    match goal with
    | Hs : fallback_sessions _ !! _ = _
      |- context [(if ?b then _update_session_stats ?i else ?r) ?W] =>
        let H := fresh in
        eassert (fallback_sessions W !! i = Some _) as H
          by (world_simpl;
              rewrite ?lookup_alter_eq, ?lookup_insert_eq, ?Hs; reflexivity);
        destruct (maybe_update_stats i W _ b H)
          as (Hrt & Hu & Hdom & s' & Hf' & Hs'); clear H
    end;
    cbv beta zeta delta [ret] in Hrt, Hu, Hdom, Hf';
    eexists; (split; [reflexivity |]); (split; [reflexivity |]);
    (split; [| split]);
    [ rewrite Hf'; world_simpl;
      rewrite alter_insert_eq, ?insert_alter_eq, ?insert_insert_eq;
      f_equal; destruct Hs' as [-> | [t' ->]]; reflexivity
    | rewrite Hrt; reflexivity
    | unfold stored_sessions in Hdom |- *; world_simpl; rewrite Hdom;
      reflexivity ].
Qed.
Lemma list_filter_Permutation {A} (p : A -> bool) (l l' : list A) :
  l ≡ₚ l' -> List.filter p l ≡ₚ List.filter p l'.
Proof.
  induction 1 as [| x l l' _ IH | x y l | l l' l'' _ IH1 _ IH2]; cbn.
  - done.
  - destruct (p x); by rewrite IH.
  - destruct (p x), (p y); by try apply perm_swap.
  - by etrans.
Qed.

Lemma values_insert q r (R : gmap string Response) :
  values (<[q := r]> R) ≡ₚ r :: values (delete q R).
Proof.
  unfold values. rewrite <- insert_delete_eq.
  rewrite map_to_list_insert by apply lookup_delete_eq. done.
Qed.

Lemma count_responses_insert p q r (R : gmap string Response) :
  count_responses p (<[q := r]> R)
  = (if p r then 1 else 0) + count_responses p (delete q R).
Proof.
  unfold count_responses, len.
  rewrite (Permutation_length (list_filter_Permutation p _ _ (values_insert q r R))).
  cbn. destruct (p r); cbn [length]; lia.
Qed.


Lemma list_filter_none {A} (p : A -> bool) (l : list A) :
  (forall x, x ∈ l -> p x = false) -> List.filter p l = [].
Proof.
  induction l as [| x l IH]; intros H; [done |].
  cbn. rewrite (H x) by constructor. apply IH. intros y Hy. apply H.
  by constructor.
Qed.


Lemma well_keyed_insert q r (R : gmap string Response) :
  well_keyed R -> r_question_id r = q -> well_keyed (<[q := r]> R).
Proof.
  intros Hk Hr k x. rewrite lookup_insert. case_decide; [| apply Hk].
  intros; by simplify_eq.
Qed.

(** [submit_answer] keeps every response under its own question id. *)
Lemma submit_answer_well_keyed sid qid a t w :
  well_keyed (recorded_responses sid w) ->
  well_keyed (recorded_responses sid (snd (submit_answer sid qid a t w))).
Proof.
  intros Hk. pose proof (submit_answer_spec sid qid a t w) as H.
  cbv zeta in H.
  destruct (fst (submit_answer sid qid a t w)) as [g | e c | x]; [| | done].
  - destruct H as (q & tlast & _ & _ & Hf & _).
    unfold recorded_responses at 1. rewrite Hf, lookup_insert_eq. cbn.
    by apply well_keyed_insert.
  - destruct H as (_ & _ & _ & Hf & _).
    unfold recorded_responses in *. by rewrite Hf.
Qed.




(** C9. [submit_answer] has one failure, "Question not found": it never
    reports a missing session. For a session id the fallback map does not
    know, whatever the durable store holds, and a question the store
    returns, it succeeds, creates under that id a fallback entry with no
    question ids and an empty question bank, records the response there
    with a fresh id and counts it; the durable store gets no new
    session. *)
Theorem submit_answer_creates_missing_session
    (w : World) (sid qid a : string) (t : Z) :
  let r := submit_answer sid qid a t w in
  error_of (fst r) <> Some "Session not found"
  /\ (success (fst r) = false -> error_of (fst r) = Some "Question not found")
  /\ (forall q,
         fallback_sessions w !! sid = None ->
         fst (_get_question_with_metadata qid w) = Some q ->
         exists tlast,
           let response :=
             {| r_id := uuid4 (rt w) (uuid_draws w); r_session_id := sid;
                r_question_id := qid; r_user_answer := a;
                r_is_correct := _check_answer (q_correct_answer q) a;
                r_time_taken := t; r_response_time := stamp w |} in
           fst r = Success
                     {| g_is_correct := _check_answer (q_correct_answer q) a;
                        g_correct_answer := q_correct_answer q;
                        g_explanation := explanation_of q;
                        g_response_id := uuid4 (rt w) (uuid_draws w);
                        g_fallback := true |}
           /\ fallback_sessions (snd r) !! sid
              = Some (set_stats 1
                        (if _check_answer (q_correct_answer q) a then 1 else 0)
                        (if _check_answer (q_correct_answer q) a then 0 else 1)
                        tlast
                        (stub_session sid [] ∅ (Some {[qid := response]})))
           /\ (forall k, k <> sid ->
                         fallback_sessions (snd r) !! k
                         = fallback_sessions w !! k)
           /\ dom (stored_sessions (snd r)) = dom (stored_sessions w)).
Proof.
  intros r. pose proof (submit_answer_spec sid qid a t w) as H.
  cbv zeta in H. fold r in H.
  split; [| split].
  - destruct (fst r) as [g | e c | x]; cbn; [done | | done].
    destruct H as (-> & _). by intros [= ?].
  - destruct (fst r) as [g | e c | x]; cbn; [done | | done].
    destruct H as (-> & _). done.
  - intros q Hs Hq.
    assert (resolve_question sid qid w = Some q) as Hres
      by (unfold resolve_question; by rewrite Hq).
    destruct (fst r) as [g | e c | x]; [| | done].
    + destruct H as (q' & tlast & Hres' & -> & Hf & _ & Hdom).
      assert (q' = q) as -> by congruence.
      unfold recorded_responses, fallback_entry in Hf |- *.
      rewrite Hs. rewrite Hs in Hf.
      cbn [default from_option id mbind option_bind] in Hf |- *.
      rewrite lookup_empty. rewrite lookup_empty in Hf.
      exists tlast. cbv zeta.
      split; [done | split; [| split; [| done]]].
      * rewrite Hf, lookup_insert_eq. f_equal.
        rewrite !count_responses_insert, delete_empty.
        rewrite map_size_insert_None by apply lookup_empty.
        unfold is_incorrect. cbn.
        by destruct (_check_answer (q_correct_answer q) a).
      * intros k Hk. by rewrite Hf, lookup_insert_ne.
    + destruct H as (_ & _ & Hnone & _). congruence.
Qed.

Lemma submit_answer_creates_missing_session_witness :
  fallback_sessions Demo.online !! "ghost" = None
  /\ success (fst (submit_answer "ghost" "q2" "b" 9 Demo.online)) = true
  /\ (fallback_sessions (Demo.after (submit_answer "ghost" "q2" "b" 9)
                                   Demo.online) !! "ghost"
      ≫= fs_question_ids) = Some [].
Proof.
  pose proof (submit_answer_creates_missing_session
                Demo.online "ghost" "q2" "b" 9) as (_ & _ & H).
  destruct (H (Demo.question "q2" "B") eq_refl eq_refl)
    as (tlast & Hr & Hs & _).
  split; [reflexivity | split].
  - by rewrite Hr.
  - unfold Demo.after. by rewrite Hs.
Defined.

End Submission.
(* ===================================================================== *)
(** ** Progress                                                           *)
(* ===================================================================== *)

Section ProgressReports.

Lemma percentage_range a b :
  0 <= a <= b -> b <> 0 -> (0 <= percentage a b <= 100)%Q.
Proof.
  intros [Ha Hab] Hb. unfold percentage.
  assert (0 < inject_Z b)%Q as Hpos
    by (change 0%Q with (inject_Z 0); rewrite <- Zlt_Qlt; lia).
  split.
  - apply Qmult_le_0_compat; [| done].
    apply Qle_shift_div_l; [done |]. rewrite Qmult_0_l.
    change 0%Q with (inject_Z 0). by rewrite <- Zle_Qle.
  - change 100%Q with (1 * 100)%Q at 2.
    apply Qmult_le_compat_r; [| done].
    apply Qle_shift_div_r; [done |]. rewrite Qmult_1_l.
    by rewrite <- Zle_Qle.
Qed.

Lemma filter_length_le {A} (p : A -> bool) (l : list A) :
  len (List.filter p l) <= len l.
Proof.
  unfold len. induction l as [| x l IH]; cbn; [done |].
  destruct (p x); cbn [length]; lia.
Qed.

(** The report of [get_session_progress], field by field. *)
Lemma get_session_progress_report sid w rep :
  fst (get_session_progress sid w) = Success rep ->
  exists s,
    fst (find_session sid w) = Some s
    /\ let responses := values (recorded_responses sid w) in
       let total :=
         total_questions_of (len (fallback_question_ids sid w)) s in
       rep_progress rep
       = {| pr_current_question := current_question_index s + 1;
            pr_total_questions := total;
            pr_questions_answered := len responses;
            pr_questions_correct := len (List.filter r_is_correct responses);
            pr_questions_incorrect :=
              len (List.filter is_incorrect responses);
            pr_questions_remaining := total - len responses;
            pr_progress_percentage :=
              if total =? 0 then 0%Q else percentage (len responses) total;
            pr_accuracy_percentage :=
              if len responses =? 0 then 0%Q
              else percentage (len (List.filter r_is_correct responses))
                              (len responses) |}
       /\ rep_fallback rep = is_fallback (source_of s).
Proof.
  destruct (find_session_same_state sid w) as (_ & _ & _ & Hf).
  cbv beta zeta delta [get_session_progress bind].
  destruct (fst (find_session sid w)) as [s |] eqn:Hs; [| done].
  pose proof (find_session_found sid w s Hs) as Hfound.
  unfold get_fallback. cbn [fst snd]. rewrite Hf.
  assert (fst (match s with
               | RowSession _ => _get_session_question_ids sid
               | MemSession _ =>
                   ret (default [] (fallback_sessions w !! sid
                                      ≫= fs_question_ids))
               end (snd (find_session sid w)))
          = fallback_question_ids sid w) as ->.
  { unfold fallback_question_ids, _get_session_question_ids, bind,
      get_fallback, ret.
    destruct s as [r | m]; cbn [fst snd]; [by rewrite Hf |].
    by rewrite Hfound. }
  cbv beta iota delta [ret]. cbn [fst snd].
  intros [= <-]. exists s. split; [done |]. by cbn.
Qed.

(** C4. The report of [get_session_progress]: the questions remaining are
    the total minus the answered ones; the progress percentage is
    answered / total * 100, and 0 for a total of 0; the accuracy
    percentage is correct / answered * 100, and 0 when nothing is
    answered. The accuracy percentage is within [0, 100]; the progress
    percentage is within [0, 100] when no more questions are answered
    than the session counts. *)
Theorem session_progress_report (w : World) (sid : string)
    (rep : ProgressReport) :
  fst (get_session_progress sid w) = Success rep ->
  let p := rep_progress rep in
  pr_questions_answered p = Z.of_nat (size (recorded_responses sid w))
  /\ pr_questions_remaining p
     = pr_total_questions p - pr_questions_answered p
  /\ pr_progress_percentage p
     = (if pr_total_questions p =? 0 then 0%Q
        else percentage (pr_questions_answered p) (pr_total_questions p))
  /\ pr_accuracy_percentage p
     = (if pr_questions_answered p =? 0 then 0%Q
        else percentage (pr_questions_correct p) (pr_questions_answered p))
  /\ (pr_total_questions p = 0 -> pr_progress_percentage p = 0%Q)
  /\ (pr_questions_answered p = 0 -> pr_accuracy_percentage p = 0%Q)
  /\ (0 <= pr_accuracy_percentage p <= 100)%Q
  /\ (pr_questions_answered p <= pr_total_questions p ->
      (0 <= pr_progress_percentage p <= 100)%Q).
Proof.
  intros Hrep p.
  destruct (get_session_progress_report sid w rep Hrep) as (s & _ & Hp & _).
  cbv zeta in Hp. subst p. rewrite Hp. cbn.
  set (responses := values (recorded_responses sid w)).
  set (total := total_questions_of _ s).
  assert (0 <= len responses) as Hlen by (unfold len; lia).
  pose proof (filter_length_le r_is_correct responses) as Hcorrect.
  assert (0 <= len (List.filter r_is_correct responses)) as Hc0
    by (unfold len; lia).
  split; [| split; [done | split; [done | split; [done | split;
    [| split; [| split]]]]]].
  - unfold len, responses, values. by rewrite length_fmap, length_map_to_list.
  - by intros ->.
  - by intros ->.
  - destruct (len responses =? 0) eqn:Hz; [done |].
    apply percentage_range; lia.
  - intros Hle. destruct (total =? 0) eqn:Hz; [done |].
    apply percentage_range; lia.
Qed.

Lemma session_progress_report_witness :
  exists rep,
    fst (get_session_progress "row-1" Demo.half_done) = Success rep
    /\ pr_questions_answered (rep_progress rep)
       <= pr_total_questions (rep_progress rep)
    /\ (0 <= pr_progress_percentage (rep_progress rep) <= 100)%Q.
Proof.
  eexists. split; [vm_compute; reflexivity |].
  split; [vm_compute; discriminate |].
  refine (proj2 (proj2 (proj2 (proj2 (proj2 (proj2 (proj2
            (session_progress_report Demo.half_done "row-1" _ _))))))) _).
  - vm_compute; reflexivity.
  - vm_compute; discriminate.
Defined.

(** The progress percentage is not always within [0, 100]: a session
    over one question in which two questions were answered reports
    200. *)
Lemma progress_percentage_above_100 :
  exists rep,
    fst (get_session_progress "row-1" Demo.overanswered) = Success rep
    /\ pr_total_questions (rep_progress rep) = 1
    /\ pr_questions_answered (rep_progress rep) = 2
    /\ pr_progress_percentage (rep_progress rep) = 200%Q
    /\ ~ (0 <= pr_progress_percentage (rep_progress rep) <= 100)%Q.
Proof.
  eexists. split; [vm_compute; reflexivity |]. cbn.
  repeat split. intros [_ H]. vm_compute in H. by apply H.
Qed.

(** The session information [get_current_question] gives back. *)
Lemma get_current_question_info sid w cq :
  fst (get_current_question sid w) = Success cq ->
  exists s,
    fst (find_session sid w) = Some s
    /\ cq_session_info cq
       = {| si_session_id := sid;
            si_current_index := current_question_index s;
            si_total_questions := len (fallback_question_ids sid w);
            si_questions_answered := questions_answered_of s;
            si_progress_percentage :=
              percentage (current_question_index s)
                         (len (fallback_question_ids sid w)) |}
    /\ 0 < len (fallback_question_ids sid w)
    /\ current_question_index s < len (fallback_question_ids sid w).
Proof.
  destruct (find_session_same_state sid w) as (_ & _ & _ & Hf).
  cbv beta zeta delta [get_current_question bind].
  destruct (fst (find_session sid w)) as [s |] eqn:Hs; [| done].
  rewrite (session_question_ids_spec sid s w _ Hf)
    by (pose proof (find_session_found sid w s Hs); by destruct s).
  cbn [fst snd].
  destruct (nonempty (fallback_question_ids sid w)) eqn:Hne; [| done].
  cbn [negb].
  destruct (len _ <=? current_question_index s) eqn:Hle; [done |].
  destruct (py_index _ _) as [qid |]; [| done].
  destruct (fst (_get_question_with_metadata qid _)) as [q |]; [| done].
  cbv beta iota delta [ret]. cbn [fst snd]. intros [= <-].
  exists s. cbn. repeat split; [by apply nonempty_len | lia].
Qed.

(** C10. The [progress_percentage] of [get_current_question] is the
    position of the cursor over the number of questions, times 100; it
    is not the share of answered questions, and for one session in one
    state it differs from the [progress_percentage] of
    [get_session_progress]: 0 against 50 after the first of two questions
    is answered and the cursor has not moved. *)
Theorem current_question_progress_is_cursor_ratio :
  (forall w sid cq,
      fst (get_current_question sid w) = Success cq ->
      exists s,
        fst (find_session sid w) = Some s
        /\ si_current_index (cq_session_info cq) = current_question_index s
        /\ si_total_questions (cq_session_info cq)
           = len (fallback_question_ids sid w)
        /\ si_progress_percentage (cq_session_info cq)
           = percentage (current_question_index s)
                        (len (fallback_question_ids sid w)))
  /\ exists cq rep,
       fst (get_current_question "row-1" Demo.half_done) = Success cq
       /\ fst (get_session_progress "row-1" Demo.half_done) = Success rep
       /\ (si_progress_percentage (cq_session_info cq) == 0)%Q
       /\ (pr_progress_percentage (rep_progress rep) == 50)%Q
       /\ ~ (si_progress_percentage (cq_session_info cq)
             == pr_progress_percentage (rep_progress rep))%Q.
Proof.
  split.
  - intros w sid cq Hcq.
    destruct (get_current_question_info sid w cq Hcq) as (s & Hs & -> & _).
    by exists s.
  - eexists _, _.
    split; [vm_compute; reflexivity |].
    split; [vm_compute; reflexivity |].
    cbn. repeat split; discriminate.
Qed.

Lemma current_question_progress_is_cursor_ratio_witness :
  exists cq,
    fst (get_current_question "row-1" Demo.half_done) = Success cq
    /\ si_progress_percentage (cq_session_info cq) = percentage 0 2.
Proof.
  eexists. split; [vm_compute; reflexivity |].
  destruct (proj1 current_question_progress_is_cursor_ratio
              Demo.half_done "row-1" _ ltac:(vm_compute; reflexivity))
    as (s & Hs & _ & _ & Hp).
  vm_compute in Hs. injection Hs as <-. exact Hp.
Defined.

End ProgressReports.
(* ===================================================================== *)
(** ** Degraded mode                                                      *)
(* ===================================================================== *)

Section Degraded.

(** Without the durable store no question is ever looked up:
    [_get_question_with_metadata] has no fallback of its own. *)
Lemma get_question_store_down qid w :
  (forall k, raises (rt w) k = true) ->
  fst (_get_question_with_metadata qid w) = None.
Proof.
  intros Hdown. unfold _get_question_with_metadata. run.
  destruct (supabase w); cbn; [| done]. by rewrite Hdown.
Qed.

(** So [get_current_question] cannot succeed while the store is down,
    whatever the fallback map holds. *)
Lemma get_current_question_store_down sid w :
  (forall k, raises (rt w) k = true) ->
  success (fst (get_current_question sid w)) = false.
Proof.
  intros Hdown.
  destruct (find_session_same_state sid w) as (Hrt & _ & _ & Hf).
  cbv beta zeta delta [get_current_question bind].
  destruct (fst (find_session sid w)) as [s |] eqn:Hs; [| done].
  rewrite (session_question_ids_spec sid s w _ Hf)
    by (pose proof (find_session_found sid w s Hs); by destruct s).
  cbn [fst snd].
  destruct (negb _); [done |].
  destruct (_ <=? _); [done |].
  destruct (py_index _ _) as [qid |]; [| done].
  rewrite get_question_store_down; [done |].
  intros k. by rewrite Hrt.
Qed.

(** C5, on the code. With a durable store that raises at every call and
    a fallback provider that serves one question: [create_session]
    succeeds, in the fallback map only, under a fresh UUID and flagged
    as fallback; [submit_answer] and [get_session_progress] succeed on
    that session and report the fallback; but [get_current_question]
    fails with "Question not found", although the question is in the
    question bank of the session. *)
Theorem degraded_session_has_no_current_question :
  (exists created,
      fst (create_session "u" "n" Demo.any_question None Demo.offline)
      = Success created
      /\ cs_fallback created = true
      /\ cs_question_ids created = ["q1"]
      /\ dom (fallback_sessions Demo.degraded) = {["uuid-0"]}
      /\ stored_sessions Demo.degraded = ∅)
  /\ (fallback_sessions Demo.degraded !! "uuid-0" ≫= fs_question_bank)
     = Some {["q1" := Demo.question "q1" "A"]}
  /\ fst (get_current_question "uuid-0" Demo.degraded)
     = Failure "Question not found" false
  /\ (exists grade,
         fst (submit_answer "uuid-0" "q1" "a" 3 Demo.degraded)
         = Success grade
         /\ g_is_correct grade = true /\ g_fallback grade = true)
  /\ (exists report,
         fst (get_session_progress "uuid-0"
                (Demo.after (submit_answer "uuid-0" "q1" "a" 3)
                            Demo.degraded))
         = Success report
         /\ pr_questions_answered (rep_progress report) = 1
         /\ rep_fallback report = true).
Proof.
  split; [| split; [| split; [| split]]].
  - eexists. split; [vm_compute; reflexivity |].
    repeat split; by vm_compute.
  - by vm_compute.
  - by vm_compute.
  - eexists. split; [vm_compute; reflexivity |]. done.
  - eexists. split; [vm_compute; reflexivity |]. done.
Qed.

End Degraded.

(* ===================================================================== *)
(** ** More on session creation                                           *)
(* ===================================================================== *)

Section CreationMore.

Lemma insert_swap_head {A} (x : list A) (j : nat) (b c : A) :
  x !! j = Some b -> b :: <[j := c]> x ≡ₚ c :: x.
Proof.
  revert j. induction x as [| d x IH]; intros [| j] Hj; simplify_eq/=;
    [apply perm_swap |].
  rewrite perm_swap, (IH j Hj). apply perm_swap.
Qed.

Lemma swap_Permutation {A} (i j : nat) (x : list A) : swap i j x ≡ₚ x.
Proof.
  unfold swap.
  destruct (x !! i) as [a |] eqn:Hi; [| done].
  destruct (x !! j) as [b |] eqn:Hj; [| done].
  revert i j Hi Hj.
  induction x as [| c x IH]; intros [| i] [| j] Hi Hj; simplify_eq/=;
    try done; try (by apply insert_swap_head).
  by rewrite (IH i j).
Qed.

Lemma shuffle_from_spec {A} (i : nat) (x : list A) (w : World) :
  fst (shuffle_from i x w) ≡ₚ x
  /\ same_state w (snd (shuffle_from i x w))
  /\ store_calls (snd (shuffle_from i x w)) = store_calls w
  /\ clock_reads (snd (shuffle_from i x w)) = clock_reads w
  /\ uuid_draws (snd (shuffle_from i x w)) = uuid_draws w
  /\ random_draws (snd (shuffle_from i x w)) = (random_draws w + i)%nat.
Proof.
  revert x w. induction i as [| i IH]; intros x w.
  - cbn. unfold same_state. repeat split; (done || lia).
  - cbn [shuffle_from]. unfold bind, randbelow. cbn [fst snd].
    match goal with
    | |- context [shuffle_from i ?y ?v] =>
        destruct (IH y v) as (Hp & (Hrt & Hdb & Hfp & Hf) & Hs & Hc & Hu & Hr)
    end.
    unfold same_state. rewrite Hp, Hrt, Hdb, Hfp, Hf, Hs, Hc, Hu, Hr.
    repeat split; first [done | apply swap_Permutation | cbn; lia].
Qed.

Lemma maybe_shuffle_spec {A} (b : bool) (x : list A) (w : World) :
  let r := (if b then random_shuffle x else ret x) w in
  fst r ≡ₚ x /\ (b = false -> fst r = x)
  /\ same_state w (snd r)
  /\ clock_reads (snd r) = clock_reads w
  /\ uuid_draws (snd r) = uuid_draws w.
Proof.
  destruct b; cbv zeta.
  - unfold random_shuffle.
    destruct (shuffle_from_spec (length x - 1) x w)
      as (? & (? & ? & ? & ?) & ? & ? & ? & ?).
    unfold same_state. by repeat split.
  - cbn. unfold same_state. by repeat split.
Qed.

Lemma get_filtered_questions_counters filters w :
  clock_reads (snd (_get_filtered_questions filters w)) = clock_reads w
  /\ uuid_draws (snd (_get_filtered_questions filters w)) = uuid_draws w.
Proof.
  unfold _get_filtered_questions. run.
  destruct (supabase w) as [db |] eqn:Hdb; cbn; branch; cbn; rewrite ?Hdb;
    done.
Qed.

(** What [create_session] leaves behind, by outcome. *)
Lemma create_session_outcome u n f tl w :
  let r := create_session u n f tl w in
  match fst r with
  | Uncaught _ => False
  | Failure e c =>
      c = false
      /\ supabase (snd r) = supabase w
      /\ fallback_sessions (snd r) = fallback_sessions w
      /\ (fst (_get_filtered_questions f w) = Raise e
          \/ fst (_get_filtered_questions f w) = Returned []
             /\ e = "No questions found matching the specified filters")
  | Success cs =>
      exists qs questions t1 t2,
        fst (_get_filtered_questions f w) = Returned qs
        /\ questions ≡ₚ qs
        /\ (shuffle_questions f = false -> questions = qs)
        /\ 0 < len questions
        /\ cs_question_ids cs = q_id <$> questions
        /\ cs_total_questions cs = len questions
        /\ cs_time_limit cs = tl
        /\ match cs_session cs with
           | RowSession row =>
               cs_fallback cs = false
               /\ (exists k, raises (rt w) k = false)
               /\ row = {| row_id := row_id row; row_user_id := u;
                           row_session_name := n; row_filters := f;
                           row_current_question_index := 0;
                           row_total_questions := len questions;
                           row_questions_answered := 0;
                           row_start_time := t1; row_last_activity := t2;
                           row_is_active := true |}
               /\ stored_sessions w !! row_id row = None
               /\ stored_sessions (snd r)
                  = <[row_id row := row]> (stored_sessions w)
               /\ fallback_sessions (snd r)
                  = <[row_id row :=
                        stub_session (row_id row) (q_id <$> questions)
                                     (question_bank_of questions) None]>
                      (fallback_sessions w)
           | MemSession view =>
               let entry :=
                 {| fs_id := uuid4 (rt w) (uuid_draws w);
                    fs_user_id := Some u; fs_session_name := Some n;
                    fs_filters := Some f;
                    fs_current_question_index := Some 0;
                    fs_total_questions := Some (len questions);
                    fs_questions_answered := Some 0;
                    fs_questions_correct := Some 0;
                    fs_questions_incorrect := Some 0;
                    fs_questions_skipped := Some 0;
                    fs_start_time := Some t1; fs_last_activity := Some t2;
                    fs_is_active := Some true; fs_status := Some ACTIVE;
                    fs_time_limit := tl;
                    fs_question_ids := Some (q_id <$> questions);
                    fs_question_bank := Some (question_bank_of questions);
                    fs_responses := Some ∅ |} in
               cs_fallback cs = true
               /\ view = public_view entry
               /\ supabase (snd r) = supabase w
               /\ fallback_sessions (snd r)
                  = <[fs_id entry := entry]> (fallback_sessions w)
           end
  end.
Proof.
  destruct (get_filtered_questions_same_state f w) as (Hrt & Hdb & _ & Hf).
  destruct (get_filtered_questions_counters f w) as (_ & Hu).
  cbv beta zeta delta [create_session bind].
  set (w1 := snd (_get_filtered_questions f w)) in *.
  destruct (fst (_get_filtered_questions f w)) as [qs | e] eqn:Hq;
    [| cbn; by repeat split; eauto].
  destruct qs as [| q0 qs']; [cbn; by repeat split; eauto |].
  set (qs := q0 :: qs') in *.
  destruct (maybe_shuffle_spec (shuffle_questions f) qs w1)
    as (Hperm & Hsame & (Hrt2 & Hdb2 & _ & Hf2) & _ & Hu2).
  cbv zeta in Hperm, Hsame, Hrt2, Hdb2, Hf2, Hu2.
  set (questions := fst ((if shuffle_questions f then random_shuffle qs
                          else ret qs) w1)) in *.
  set (w2 := snd ((if shuffle_questions f then random_shuffle qs
                   else ret qs) w1)) in *.
  assert (0 < len questions) as Hlen.
  { unfold len. rewrite (Permutation_length Hperm). cbn. lia. }
  assert (stored_sessions w = stored_sessions w2) as Hst
    by (unfold stored_sessions; by rewrite Hdb2, Hdb).
  rewrite Hst.
  rewrite <- Hrt, <- Hrt2, <- Hu, <- Hu2, <- Hdb, <- Hdb2, <- Hf, <- Hf2.
  clearbody w2 questions. clear Hst Hrt Hrt2 Hu Hu2 Hdb Hdb2 Hf Hf2 w1 Hq.
  unfold stored_sessions. run.
  destruct (supabase w2) as [db |] eqn:Hsb; cbn;
    [destruct (raises (rt w2) (store_calls w2)) eqn:Hr; cbn;
     [| rewrite ?Hsb; cbn;
        destruct (pyq_sessions db !! store_id (rt w2) (store_calls w2))
          eqn:Hrow; cbn] |];
    rewrite ?Hsb; cbn;
    exists qs, questions; do 2 eexists;
    repeat split; try done.
  by exists (store_calls w2).
Qed.

(** X1. A created session runs over the questions the filter resolved:
    its [question_ids] are a permutation of their ids, in the same order
    when [shuffle_questions] is off, and [total_questions] is their
    number, which is positive. *)
Theorem created_question_ids_are_the_filtered_ones
    (u n : string) (f : PYQSessionFilter) (tl : option Z) (w : World)
    (cs : CreatedSession) :
  fst (create_session u n f tl w) = Success cs ->
  exists qs,
    fst (_get_filtered_questions f w) = Returned qs
    /\ cs_question_ids cs ≡ₚ q_id <$> qs
    /\ (shuffle_questions f = false -> cs_question_ids cs = q_id <$> qs)
    /\ cs_total_questions cs = len (cs_question_ids cs)
    /\ 0 < cs_total_questions cs.
Proof.
  intros Hcs. pose proof (create_session_outcome u n f tl w) as H.
  cbv zeta in H. rewrite Hcs in H.
  destruct H as (qs & questions & t1 & t2 & Hq & Hp & Hsame & Hlen & Hids
                 & Htot & _).
  exists qs. rewrite Hids, Htot.
  split; [done | split; [by rewrite Hp | split; [| split; [| done]]]].
  - intros Hoff. by rewrite (Hsame Hoff).
  - unfold len. by rewrite length_fmap.
Qed.

Lemma created_question_ids_are_the_filtered_ones_witness :
  exists cs,
    fst (create_session "u" "n" Sample.shuffled None Sample.local)
    = Success cs
    /\ cs_question_ids cs = ["q2"; "q1"]
    /\ cs_question_ids cs ≡ₚ ["q1"; "q2"].
Proof.
  eexists. split; [vm_compute; reflexivity |]. split; [reflexivity |].
  destruct (created_question_ids_are_the_filtered_ones
              "u" "n" Sample.shuffled None Sample.local _
              ltac:(vm_compute; reflexivity)) as (qs & Hq & Hp & _).
  vm_compute in Hq. injection Hq as <-. exact Hp.
Defined.

(** X2. A creation that is not flagged as fallback went through the
    store: the store holds one new row, under an id it did not know, with
    the cursor at 0, no answer counted, the number of questions and the
    active flag; the fallback map holds under the same id an entry with
    the question ids and no responses; and the cursor of the new session
    is in range. *)
Theorem created_through_the_store
    (u n : string) (f : PYQSessionFilter) (tl : option Z) (w : World)
    (cs : CreatedSession) :
  fst (create_session u n f tl w) = Success cs ->
  cs_fallback cs = false ->
  let w' := snd (create_session u n f tl w) in
  exists row bank,
    cs_session cs = RowSession row
    /\ stored_sessions w !! row_id row = None
    /\ stored_sessions w' = <[row_id row := row]> (stored_sessions w)
    /\ row_user_id row = u /\ row_session_name row = n
    /\ row_current_question_index row = 0
    /\ row_questions_answered row = 0
    /\ row_total_questions row = len (cs_question_ids cs)
    /\ row_is_active row = true
    /\ fallback_sessions w'
       = <[row_id row :=
             stub_session (row_id row) (cs_question_ids cs) bank None]>
           (fallback_sessions w)
    /\ cursor_in_range (row_id row) w'.
Proof.
  intros Hcs Hfb w'. pose proof (create_session_outcome u n f tl w) as H.
  cbv zeta in H. rewrite Hcs in H. fold w' in H.
  destruct H as (qs & questions & t1 & t2 & Hq & Hp & Hsame & Hlen & Hids
                 & Htot & _ & H).
  destruct (cs_session cs) as [row | view];
    [| destruct H as (Hfb' & _); congruence].
  destruct H as (_ & _ & Hrow & Hnew & Hst & Hf).
  exists row, (question_bank_of questions). rewrite Hids.
  assert (len (q_id <$> questions) = len questions) as Hl
    by (unfold len; by rewrite length_fmap).
  pose proof (f_equal row_user_id Hrow) as Hu.
  pose proof (f_equal row_session_name Hrow) as Hn.
  pose proof (f_equal row_current_question_index Hrow) as Hc.
  pose proof (f_equal row_questions_answered Hrow) as Ha.
  pose proof (f_equal row_total_questions Hrow) as Ht.
  pose proof (f_equal row_is_active Hrow) as Hact.
  cbn in Hu, Hn, Hc, Ha, Ht, Hact. rewrite Hl.
  do 10 (split; [done |]).
  assert (len (fallback_question_ids (row_id row) w') = len questions) as Hq'.
  { unfold fallback_question_ids. by rewrite Hf, lookup_insert_eq. }
  split; cbv zeta; rewrite Hq'.
  - intros r. rewrite Hst, lookup_insert_eq. intros [= <-]. lia.
  - intros m. rewrite Hf, lookup_insert_eq. intros [= <-]. cbn. lia.
Qed.

Lemma created_through_the_store_witness :
  exists cs row,
    fst (create_session "u" "n" (Demo.of_subject "S1") None Demo.online)
    = Success cs
    /\ cs_fallback cs = false
    /\ cs_session cs = RowSession row
    /\ cursor_in_range (row_id row) Demo.two_questions.
Proof.
  eexists.
  destruct (created_through_the_store
              "u" "n" (Demo.of_subject "S1") None Demo.online _
              ltac:(vm_compute; reflexivity) eq_refl)
    as (row & bank & Hs & _ & _ & _ & _ & _ & _ & _ & _ & _ & Hin).
  exists row. split; [vm_compute; reflexivity |].
  split; [reflexivity | split; [exact Hs | exact Hin]].
Defined.

(** X3. While every call of the store raises, a creation over a
    non-empty filter result succeeds in the fallback map alone: the reply
    is flagged as fallback, the session id is the next UUID, and the entry
    stored under it starts at cursor 0, active, with all counters at 0 and
    no responses; the store is left as it was. *)
Theorem created_while_the_store_is_down
    (u n : string) (f : PYQSessionFilter) (tl : option Z) (w : World)
    (qs : list Question) :
  (forall k, raises (rt w) k = true) ->
  fst (_get_filtered_questions f w) = Returned qs ->
  qs <> [] ->
  let w' := snd (create_session u n f tl w) in
  let sid := uuid4 (rt w) (uuid_draws w) in
  exists cs entry,
    fst (create_session u n f tl w) = Success cs
    /\ cs_fallback cs = true
    /\ cs_session cs = MemSession (public_view entry)
    /\ fallback_sessions w' = <[sid := entry]> (fallback_sessions w)
    /\ supabase w' = supabase w
    /\ fs_id entry = sid
    /\ fs_question_ids entry = Some (cs_question_ids cs)
    /\ fs_current_question_index entry = Some 0
    /\ fs_total_questions entry = Some (len qs)
    /\ fs_questions_answered entry = Some 0
    /\ fs_questions_correct entry = Some 0
    /\ fs_questions_incorrect entry = Some 0
    /\ fs_responses entry = Some ∅
    /\ fs_is_active entry = Some true
    /\ fs_status entry = Some ACTIVE.
Proof.
  intros Hdown Hq Hne w' sid.
  pose proof (create_session_outcome u n f tl w) as H.
  cbv zeta in H. fold w' in H.
  destruct (fst (create_session u n f tl w)) as [cs | e c | x];
    [| | done].
  - destruct H as (qs' & questions & t1 & t2 & Hq' & Hp & _ & _ & Hids
                   & _ & _ & H).
    assert (qs' = qs) as -> by congruence.
    destruct (cs_session cs) as [row | view] eqn:Hsess.
    + destruct H as (_ & [k Hk] & _). rewrite Hdown in Hk. discriminate.
    + cbv zeta in H. destruct H as (Hfb & -> & Hdb & Hf).
      eexists cs, _. rewrite Hids.
      assert (len questions = len qs) as <-
        by (unfold len; by rewrite (Permutation_length Hp)).
      by repeat split.
  - destruct H as (_ & _ & _ & [He | [He _]]); congruence.
Qed.

Lemma created_while_the_store_is_down_witness :
  exists cs,
    fst (create_session "u" "n" Demo.any_question None Demo.offline)
    = Success cs
    /\ cs_fallback cs = true
    /\ dom (fallback_sessions Demo.degraded) = {["uuid-0"]}.
Proof.
  destruct (created_while_the_store_is_down
              "u" "n" Demo.any_question None Demo.offline
              [Demo.question "q1" "A"]
              (fun _ => eq_refl) eq_refl ltac:(discriminate))
    as (cs & entry & Hcs & Hfb & _ & Hf & _).
  exists cs. split; [exact Hcs | split; [exact Hfb |]].
  unfold Demo.degraded, Demo.after. rewrite Hf. by vm_compute.
Defined.

(** X4. [create_session] never lets an exception out, and whatever its
    outcome it leaves every store row and every fallback entry as it was,
    except those of one session id; a failed creation, also when the
    fallback provider raised, changes nothing at all. *)
Theorem create_session_touches_one_session
    (u n : string) (f : PYQSessionFilter) (tl : option Z) (w : World) :
  let r := create_session u n f tl w in
  (forall x, fst r <> Uncaught x)
  /\ (exists sid, forall k,
         k <> sid ->
         fallback_sessions (snd r) !! k = fallback_sessions w !! k
         /\ stored_sessions (snd r) !! k = stored_sessions w !! k)
  /\ (success (fst r) = false ->
      fallback_sessions (snd r) = fallback_sessions w
      /\ supabase (snd r) = supabase w).
Proof.
  intros r. pose proof (create_session_outcome u n f tl w) as H.
  cbv zeta in H. fold r in H.
  destruct (fst r) as [cs | e c | x]; [| | done].
  - destruct H as (qs & questions & t1 & t2 & _ & _ & _ & _ & _ & _ & _ & H).
    split; [done | split; [| done]].
    destruct (cs_session cs) as [row | view].
    + destruct H as (_ & _ & _ & _ & Hst & Hf).
      exists (row_id row). intros k Hk.
      by rewrite Hst, Hf, !lookup_insert_ne.
    + cbv zeta in H. destruct H as (_ & _ & Hdb & Hf).
      exists (uuid4 (rt w) (uuid_draws w)). intros k Hk.
      unfold stored_sessions. by rewrite Hdb, Hf, lookup_insert_ne.
  - destruct H as (_ & Hdb & Hf & _).
    split; [done | split; [| done]].
    exists "". intros k _. unfold stored_sessions. by rewrite Hdb, Hf.
Qed.

End CreationMore.

(* ===================================================================== *)
(** ** Filtering questions                                                *)
(* ===================================================================== *)

Section Filtering.

Lemma metadata_by_question_lookup_gen (data : list Metadata)
    (d : gmap string Metadata) k m :
  foldl (fun d m => <[md_question_id m := m]> d) d data !! k = Some m ->
  (m ∈ data /\ md_question_id m = k) \/ d !! k = Some m.
Proof.
  revert d. induction data as [| x data IH]; intros d; cbn; [by right |].
  intros [[Hin Hk] | Hd]%IH.
  - left. split; [by constructor | done].
  - rewrite lookup_insert in Hd. case_decide; simplify_eq.
    + left. split; [by constructor | done].
    + by right.
Qed.

Lemma metadata_by_question_lookup (data : list Metadata) k m :
  metadata_by_question data !! k = Some m ->
  m ∈ data /\ md_question_id m = k.
Proof.
  intros [H | H]%metadata_by_question_lookup_gen; [done |].
  by rewrite lookup_empty in H.
Qed.

Lemma list_filter_elem_of {A} (p : A -> bool) (l : list A) x :
  x ∈ List.filter p l <-> x ∈ l /\ p x = true.
Proof. rewrite !list_elem_of_In. apply List.filter_In. Qed.

(** What the store path of [_get_filtered_questions] returns when no
    provider stands behind it. *)
Lemma get_filtered_questions_store_only f w qs :
  fallback_provider w = None ->
  fst (_get_filtered_questions f w) = Returned qs ->
  qs = []
  \/ exists db,
       supabase w = Some db
       /\ (qs = hierarchy_result f db
           \/ metadata_filters_set f = true
              /\ qs = filter_by_metadata f
                        (metadata_by_question
                           (List.filter
                              (fun m => bool_decide
                                          (md_question_id m
                                             ∈ q_id <$> hierarchy_result f db))
                              (pyq_metadata db)))
                        (hierarchy_result f db)).
Proof.
  intros Hp. unfold _get_filtered_questions, hierarchy_result. run.
  destruct (supabase w) as [db |] eqn:Hdb; cbn; rewrite ?Hp;
    [| cbn; intros; simplify_eq; by left].
  destruct (raises (rt w) (store_calls w)); cbn; rewrite ?Hdb, ?Hp; cbn;
    [cbn; intros; simplify_eq; by left |].
  set (hier := List.filter (Store.hierarchy_match f) (questions db)).
  destruct (nonempty hier && metadata_filters_set f) eqn:Hm; cbn.
  - apply andb_true_iff in Hm as [_ Hm].
    destruct (raises (rt w) (S (store_calls w))); cbn; rewrite ?Hdb; cbn;
      case_match; world_simpl; rewrite ?Hp; cbn; intros; simplify_eq;
      eauto 8.
  - case_match; world_simpl; rewrite ?Hp; cbn; intros; simplify_eq; eauto 8.
Qed.

(** X5. Without a fallback provider, every question
    [_get_filtered_questions] returns is a row of the [questions] table
    that passes the hierarchy filter, either as it is or with one
    metadata row attached: a row of [pyq_metadata] about that question
    that passes the metadata filter. *)
Theorem filtered_questions_come_from_the_store
    (f : PYQSessionFilter) (w : World) (qs : list Question) (q : Question) :
  fallback_provider w = None ->
  fst (_get_filtered_questions f w) = Returned qs ->
  q ∈ qs ->
  exists db q0,
    supabase w = Some db /\ q0 ∈ questions db
    /\ Store.hierarchy_match f q0 = true
    /\ (q = q0
        \/ exists m,
             m ∈ pyq_metadata db /\ md_question_id m = q_id q0
             /\ metadata_match f m = true
             /\ q = with_pyq_metadata q0 (Some [m])).
Proof.
  intros Hp Hq Hin.
  destruct (get_filtered_questions_store_only f w qs Hp Hq)
    as [-> | (db & Hdb & [-> | [_ ->]])].
  - by apply not_elem_of_nil in Hin.
  - apply list_filter_elem_of in Hin as [Hin Hm]. by exists db, q; eauto.
  - unfold filter_by_metadata in Hin.
    apply list_elem_of_omap in Hin as (q0 & Hq0 & Hsel).
    apply list_filter_elem_of in Hq0 as [Hq0 Hh].
    destruct (metadata_by_question _ !! q_id q0) as [m |] eqn:Hm; [| done].
    destruct (metadata_match f m) eqn:Hmm; [| done].
    injection Hsel as <-.
    apply metadata_by_question_lookup in Hm as [Hm Hk].
    apply list_filter_elem_of in Hm as [Hm _].
    exists db, q0. repeat split; try done. right. by exists m.
Qed.

Lemma filtered_questions_come_from_the_store_witness :
  exists q0,
    q0 ∈ questions Sample.archive
    /\ fst (_get_filtered_questions (Sample.of_year 2020)
                                    Sample.archive_online)
       = Returned [with_pyq_metadata q0 (Some [Sample.paper "q1" 2020])].
Proof.
  destruct (filtered_questions_come_from_the_store
              (Sample.of_year 2020) Sample.archive_online
              [with_pyq_metadata (Demo.question "q1" "A")
                                 (Some [Sample.paper "q1" 2020])]
              (with_pyq_metadata (Demo.question "q1" "A")
                                 (Some [Sample.paper "q1" 2020]))
              eq_refl ltac:(vm_compute; reflexivity) ltac:(by constructor))
    as (db & q0 & Hdb & Hq0 & _).
  injection Hdb as <-.
  exists (Demo.question "q1" "A").
  split; [by constructor | by vm_compute].
Defined.

(** X6. When the hierarchy query answers and the metadata query raises,
    the metadata filter is dropped: [_get_filtered_questions] returns
    every question the hierarchy filter selected, whatever year, session,
    source, difficulty or type was asked for. *)
Theorem metadata_filter_dropped_when_its_query_raises
    (f : PYQSessionFilter) (w : World) (db : Database) :
  supabase w = Some db ->
  raises (rt w) (store_calls w) = false ->
  raises (rt w) (S (store_calls w)) = true ->
  hierarchy_result f db <> [] ->
  fst (_get_filtered_questions f w) = Returned (hierarchy_result f db).
Proof.
  intros Hdb Hup Hdown Hne.
  unfold _get_filtered_questions, hierarchy_result in *. run.
  rewrite Hdb. cbn. rewrite Hup. cbn. rewrite Hdb. cbn.
  set (hier := List.filter (Store.hierarchy_match f) (questions db)) in *.
  destruct hier as [| q hier]; [done |]. cbn.
  destruct (metadata_filters_set f); cbn; [| done].
  by rewrite Hdown.
Qed.

Lemma metadata_filter_dropped_when_its_query_raises_witness :
  fst (_get_filtered_questions (Sample.of_year 2020) Sample.archive_flaky)
  = Returned [Demo.question "q1" "A"; Demo.question "q2" "B"].
Proof.
  exact (metadata_filter_dropped_when_its_query_raises
           (Sample.of_year 2020) Sample.archive_flaky Sample.archive
           eq_refl eq_refl eq_refl ltac:(discriminate)).
Defined.

(** X7. The fallback provider is asked exactly when the store path yields
    no question: a non-empty store result is returned whatever the
    provider is, and otherwise the result is the provider's own answer,
    exception included, or the empty list without a provider. *)
Theorem provider_is_asked_when_the_store_gives_nothing
    (f : PYQSessionFilter) (w : World) :
  match fst (_get_filtered_questions f (with_provider None w)) with
  | Returned (q :: qs) =>
      fst (_get_filtered_questions f w) = Returned (q :: qs)
  | Returned [] =>
      fst (_get_filtered_questions f w)
      = match fallback_provider w with
        | Some provider => provider f
        | None => Returned []
        end
  | Raise _ => False
  end.
Proof.
  unfold _get_filtered_questions, with_provider. run.
  destruct (supabase w) as [db |] eqn:Hdb; cbn; [| by case_match].
  destruct (raises (rt w) (store_calls w)); cbn; rewrite ?Hdb; cbn;
    [by case_match |].
  set (hier := List.filter (Store.hierarchy_match f) (questions db)).
  destruct (nonempty hier && metadata_filters_set f); cbn;
    [destruct (raises (rt w) (S (store_calls w))); cbn; rewrite ?Hdb; cbn |];
    match goal with
    | |- context [nonempty ?l] => destruct l; cbn; try done; by case_match
    end.
Qed.

End Filtering.

(* ===================================================================== *)
(** ** The current question                                               *)
(* ===================================================================== *)

Section CurrentQuestion.

Lemma same_state_same_but_last_activity w w' :
  same_state w w' -> same_but_last_activity w w'.
Proof.
  intros (_ & Hdb & _ & Hf).
  unfold same_but_last_activity, stored_sessions. by rewrite Hdb, Hf.
Qed.

Lemma same_state_trans w1 w2 w3 :
  same_state w1 w2 -> same_state w2 w3 -> same_state w1 w3.
Proof.
  unfold same_state. intros (-> & -> & -> & ->) (-> & -> & -> & ->). done.
Qed.

(** X8. [get_current_question] writes nothing but a last-activity stamp:
    whatever its outcome, every session of the fallback map and every row
    of the store keeps every other field, no session appears or
    disappears, and the other tables are untouched. *)
Theorem get_current_question_only_stamps (w : World) (sid : string) :
  same_but_last_activity w (snd (get_current_question sid w)).
Proof.
  pose proof (find_session_same_state sid w) as Hsame.
  pose proof Hsame as (_ & _ & _ & Hf).
  cbv beta zeta delta [get_current_question bind].
  destruct (fst (find_session sid w)) as [s |] eqn:Hs;
    [| by apply same_state_same_but_last_activity].
  rewrite (session_question_ids_spec sid s w _ Hf)
    by (pose proof (find_session_found sid w s Hs); by destruct s).
  cbn [fst snd].
  destruct (negb _); [by apply same_state_same_but_last_activity |].
  destruct (_ <=? _); [by apply same_state_same_but_last_activity |].
  destruct (py_index _ _) as [qid |];
    [| by apply same_state_same_but_last_activity].
  pose proof (get_question_frame qid (snd (find_session sid w)))
    as (Hsame2 & _).
  cbv zeta in Hsame2.
  pose proof (same_state_trans _ _ _ Hsame Hsame2) as (_ & Hdb3 & _ & Hf3).
  destruct (fst (_get_question_with_metadata qid _)) as [q |];
    [| by apply same_state_same_but_last_activity, (same_state_trans _ _ _ Hsame)].
  set (W := snd (_get_question_with_metadata qid _)) in *.
  unfold same_but_last_activity, stored_sessions.
  rewrite <- Hdb3, <- Hf3. clearbody W. clear.
  destruct s as [r | m]; run.
  - destruct (raises (rt W) (store_calls W)); cbn;
      destruct (supabase W) as [db |] eqn:Hdb; cbn;
      try (destruct (raises (rt W) (S (store_calls W))); cbn);
      rewrite ?Hdb; cbn; repeat split; try done;
      intros k; rewrite lookup_alter; case_decide; subst; try done;
      by destruct (pyq_sessions db !! k).
  - repeat split; try done.
    intros k. rewrite lookup_alter. case_decide; subst; [| done].
    by destruct (fallback_sessions W !! k).
Qed.

Lemma list_filter_head {A} (p : A -> bool) (l : list A) x rest :
  List.filter p l = x :: rest -> x ∈ l /\ p x = true.
Proof.
  intros H. apply list_filter_elem_of. rewrite H. by constructor.
Qed.

(** A question that is looked up comes from the [questions] table and
    has the id asked for. *)
Lemma get_question_found qid w q :
  fst (_get_question_with_metadata qid w) = Some q ->
  exists db q0,
    supabase w = Some db /\ q0 ∈ questions db /\ q_id q0 = qid
    /\ q_id q = qid /\ q_correct_answer q = q_correct_answer q0.
Proof.
  unfold _get_question_with_metadata. run.
  destruct (supabase w) as [db |] eqn:Hdb; cbn; [| done].
  destruct (raises (rt w) (store_calls w)); cbn; rewrite ?Hdb; cbn; [done |].
  destruct (List.filter _ (questions db)) as [| q0 rest] eqn:Hsel;
    cbn; rewrite ?Hdb; [done |].
  apply list_filter_head in Hsel as [Hin Hid%bool_decide_eq_true].
  destruct (raises (rt w) (S (store_calls w))); cbn; rewrite ?Hdb; cbn;
    repeat case_match; intros [= <-]; exists db, q0; by repeat split.
Qed.

(** What a successful [get_current_question] gives back. *)
Lemma get_current_question_success sid w cq :
  fst (get_current_question sid w) = Success cq ->
  exists s qid,
    let qids := fallback_question_ids sid w in
    let i := current_question_index s in
    fst (find_session sid w) = Some s
    /\ 0 < len qids /\ i < len qids
    /\ py_index qids i = Some qid
    /\ fst (_get_question_with_metadata qid (snd (find_session sid w)))
       = Some (cq_question cq)
    /\ cq_navigation cq
       = {| has_previous := 0 <? i; has_next := i <? len qids - 1;
            is_last := i =? len qids - 1 |}
    /\ cq_fallback cq = is_fallback (source_of s)
    /\ match s with
       | RowSession _ =>
           exists db,
             supabase w = Some db
             /\ (cq_previous_response cq = None
                 \/ exists r, cq_previous_response cq = Some r
                              /\ r ∈ test_responses db
                              /\ r_session_id r = sid
                              /\ r_question_id r = qid)
       | MemSession m =>
           cq_previous_response cq = default ∅ (fs_responses m) !! qid
       end.
Proof.
  pose proof (find_session_same_state sid w) as Hsame.
  pose proof Hsame as (_ & _ & _ & Hf).
  cbv beta zeta delta [get_current_question bind].
  destruct (fst (find_session sid w)) as [s |] eqn:Hs; [| done].
  rewrite (session_question_ids_spec sid s w _ Hf)
    by (pose proof (find_session_found sid w s Hs); by destruct s).
  cbn [fst snd].
  destruct (nonempty (fallback_question_ids sid w)) eqn:Hne; [| done].
  cbn [negb].
  destruct (len _ <=? current_question_index s) eqn:Hle; [done |].
  destruct (py_index _ _) as [qid |] eqn:Hidx; [| done].
  pose proof (get_question_frame qid (snd (find_session sid w)))
    as (Hsame2 & _).
  cbv zeta in Hsame2.
  pose proof (same_state_trans _ _ _ Hsame Hsame2) as (_ & Hdb3 & _ & _).
  destruct (fst (_get_question_with_metadata qid _)) as [q |] eqn:Hq;
    [| done].
  set (W := snd (_get_question_with_metadata qid _)) in *.
  cbv beta iota delta [ret]. cbn [fst snd]. intros [= <-].
  exists s, qid. cbn.
  split; [done | split; [by apply nonempty_len | split; [lia |]]].
  split; [done | split; [done | split; [done | split; [done |]]]].
  destruct s as [r | m]; [| done].
  pose proof (find_session_found sid w _ Hs) as Hrow.
  unfold stored_sessions in Hrow.
  destruct (supabase w) as [db |] eqn:Hdb; [| by rewrite lookup_empty in Hrow].
  exists db. split; [done |].
  clearbody W. clear -Hdb3. unfold store_call, Store.select_responses.
  cbn [fst snd]. rewrite Hdb3.
  destruct (raises (rt W) (store_calls W)); cbn; [by left |].
  destruct (List.filter _ (test_responses db)) as [| x rest] eqn:Hsel;
    cbn; [by left |].
  apply list_filter_head in Hsel as [Hin Hp].
  apply andb_true_iff in Hp as [Hs%bool_decide_eq_true Hq%bool_decide_eq_true].
  right. by exists x.
Qed.

(** X9. The navigation flags of [get_current_question] tell what
    navigation would do in the same state: [has_next] is whether
    [navigate_to_question] "next" succeeds, [has_previous] whether
    "previous" succeeds, and [is_last] is the negation of [has_next]. *)
Theorem navigation_flags_predict_navigation
    (w : World) (sid : string) (cq : CurrentQuestion) :
  fst (get_current_question sid w) = Success cq ->
  has_next (cq_navigation cq)
  = success (fst (navigate_to_question sid "next" w))
  /\ has_previous (cq_navigation cq)
     = success (fst (navigate_to_question sid "previous" w))
  /\ is_last (cq_navigation cq) = negb (has_next (cq_navigation cq)).
Proof.
  intros Hcq.
  destruct (get_current_question_success sid w cq Hcq)
    as (s & qid & Hs & Hn & Hi & _ & _ & -> & _).
  rewrite !navigate_unfold, Hs. cbv zeta.
  apply nonempty_len in Hn as Hne. rewrite Hne. cbn [negb].
  unfold step_cursor.
  rewrite (bool_decide_eq_true_2 ("next" = "next")) by done.
  rewrite (bool_decide_eq_false_2 ("previous" = "next")) by done.
  rewrite (bool_decide_eq_true_2 ("previous" = "previous")) by done.
  cbn [has_next has_previous is_last].
  set (i := current_question_index s) in *.
  set (n := len (fallback_question_ids sid w)) in *.
  repeat split.
  - destruct (n - 1 <=? i) eqn:H1; cbn; lia.
  - destruct (i <=? 0) eqn:H1; cbn; lia.
  - lia.
Qed.

Lemma navigation_flags_predict_navigation_witness :
  exists cq,
    fst (get_current_question "row-1" Demo.half_done) = Success cq
    /\ has_next (cq_navigation cq) = true
    /\ success (fst (navigate_to_question "row-1" "next" Demo.half_done))
       = true.
Proof.
  eexists. split; [vm_compute; reflexivity |]. split; [reflexivity |].
  destruct (navigation_flags_predict_navigation
              Demo.half_done "row-1" _ ltac:(vm_compute; reflexivity))
    as (Hnext & _).
  by rewrite <- Hnext.
Defined.

(** X10. The question [get_current_question] gives back is the one at the
    cursor: its id is the element of the session's [question_ids] at the
    cursor position (counted from the end for a negative cursor), the
    cursor is below the number of questions, and the question is a row of
    the [questions] table. *)
Theorem current_question_is_at_the_cursor
    (w : World) (sid : string) (cq : CurrentQuestion) :
  fst (get_current_question sid w) = Success cq ->
  exists s db q0,
    fst (find_session sid w) = Some s
    /\ current_question_index s < len (fallback_question_ids sid w)
    /\ py_index (fallback_question_ids sid w) (current_question_index s)
       = Some (q_id (cq_question cq))
    /\ (0 <= current_question_index s ->
        fallback_question_ids sid w !! Z.to_nat (current_question_index s)
        = Some (q_id (cq_question cq)))
    /\ supabase w = Some db /\ q0 ∈ questions db
    /\ q_id q0 = q_id (cq_question cq)
    /\ q_correct_answer q0 = q_correct_answer (cq_question cq).
Proof.
  intros Hcq.
  destruct (get_current_question_success sid w cq Hcq)
    as (s & qid & Hs & _ & Hi & Hidx & Hq & _).
  destruct (get_question_found _ _ _ Hq) as (db & q0 & Hdb & Hin & Hq0 & Hid & Hca).
  destruct (find_session_same_state sid w) as (_ & Hdb' & _).
  rewrite Hdb' in Hdb.
  exists s, db, q0. rewrite Hid.
  repeat split; try done.
  intros H0. unfold py_index in Hidx.
  by rewrite (proj2 (Z.leb_le _ _) H0) in Hidx.
Qed.

Lemma current_question_is_at_the_cursor_witness :
  exists cq,
    fst (get_current_question "row-1" Demo.half_done) = Success cq
    /\ fallback_question_ids "row-1" Demo.half_done !! 0%nat
       = Some (q_id (cq_question cq)).
Proof.
  eexists. split; [vm_compute; reflexivity |].
  destruct (current_question_is_at_the_cursor
              Demo.half_done "row-1" _ ltac:(vm_compute; reflexivity))
    as (s & db & q0 & Hs & _ & _ & Hat & _).
  vm_compute in Hs. injection Hs as <-.
  exact (Hat ltac:(vm_compute; discriminate)).
Defined.

End CurrentQuestion.

(* ===================================================================== *)
(** ** More on answer submission                                          *)
(* ===================================================================== *)

Section SubmissionMore.

Lemma maybe_update_stats_store sid w s (b : bool) :
  fallback_sessions w !! sid = Some s ->
  let w' := snd ((if b then _update_session_stats sid else ret tt) w) in
  (questions <$> supabase w') = (questions <$> supabase w)
  /\ (pyq_metadata <$> supabase w') = (pyq_metadata <$> supabase w)
  /\ (test_responses <$> supabase w') = (test_responses <$> supabase w)
  /\ forall k,
       stored_sessions w' !! k = stored_sessions w !! k
       \/ k = sid
          /\ exists t',
               stored_sessions w' !! k
               = row_answered (Z.of_nat (size (default ∅ (fs_responses s))))
                              t'
                   <$> stored_sessions w !! k.
Proof.
  intros Hs. destruct b; cbv zeta; [| by repeat split; try left].
  unfold _update_session_stats, stored_sessions. run. rewrite Hs. cbn.
  destruct (supabase w) as [db |] eqn:Hdb; cbn;
    [destruct (raises (rt w) (store_calls w)); cbn |];
    rewrite ?Hdb; cbn; repeat split; try (intros k; by left).
  intros k. rewrite lookup_alter. case_decide; subst; [| by left].
  right. split; [done |]. by eexists.
Qed.

(** What [submit_answer] does to the durable store. *)
Lemma submit_answer_store sid qid a t w :
  let w' := snd (submit_answer sid qid a t w) in
  (questions <$> supabase w') = (questions <$> supabase w)
  /\ (pyq_metadata <$> supabase w') = (pyq_metadata <$> supabase w)
  /\ (test_responses <$> supabase w') = (test_responses <$> supabase w)
  /\ forall k,
       stored_sessions w' !! k = stored_sessions w !! k
       \/ k = sid
          /\ exists n t',
               stored_sessions w' !! k
               = row_answered n t' <$> stored_sessions w !! k
               /\ (fallback_sessions w' !! sid ≫= fs_questions_answered)
                  = Some n.
Proof.
  destruct (get_question_frame qid w) as ((_ & Hdb & _ & _) & _ & _).
  cbv beta zeta delta [submit_answer bind].
  set (w1 := snd (_get_question_with_metadata qid w)) in *.
  assert (stored_sessions w = stored_sessions w1) as ->
    by (unfold stored_sessions; by rewrite Hdb).
  rewrite <- Hdb. clearbody w1. clear Hdb.
  set (looked_up := fst (_get_question_with_metadata qid w)).
  clearbody looked_up.
  unfold get_fallback at 1. cbn [fst snd].
  set (resolved := match looked_up with Some _ => _ | None => _ end).
  clearbody resolved.
  destruct resolved as [q |]; [| cbn; by repeat split; try left].
  destruct (fallback_sessions w1 !! sid) as [s |] eqn:Hs;
    cbn [default mbind option_bind];
    [destruct (default ∅ (fs_responses s) !! qid) as [e |] eqn:He |];
    run; rewrite ?Hs; cbn [default mbind option_bind fs_responses stub_session];
    cbn [from_option id]; rewrite ?He, ?lookup_empty; world_simpl.
  all:
    match goal with
    | Hs : fallback_sessions _ !! _ = _
      |- context [(if ?b then _update_session_stats ?i else ?r) ?W] =>
        let H := fresh in
        eassert (fallback_sessions W !! i = Some _) as H
          by (world_simpl;
              rewrite ?lookup_alter_eq, ?lookup_insert_eq, ?Hs; reflexivity);
        destruct (maybe_update_stats_store i W _ b H)
          as (Hq & Hm & Ht & Hrows);
        destruct (maybe_update_stats i W _ b H)
          as (_ & _ & _ & s' & Hf' & Hs'); clear H
    end;
    cbv beta zeta delta [ret] in Hq, Hm, Ht, Hrows, Hf';
    unfold stored_sessions in Hrows |- *; world_simpl;
    (split; [done |]); (split; [done |]); (split; [done |]);
    intros k; destruct (Hrows k) as [Hk | [-> [t' Hk]]]; [by left | right];
    (split; [done |]); do 2 eexists; (split; [exact Hk |]);
    rewrite Hf', lookup_alter_eq, lookup_insert_eq; reflexivity.
Qed.

(** X11. A submission is rejected exactly when its question resolves
    neither in the store nor in the question bank of the session; the
    rejection is "Question not found" and leaves the store and the
    fallback map exactly as they were: no session entry is created and
    nothing is recorded. *)
Theorem rejected_submission_changes_nothing
    (w : World) (sid qid a : string) (t : Z) :
  let r := submit_answer sid qid a t w in
  (success (fst r) = false <-> resolve_question sid qid w = None)
  /\ (success (fst r) = false ->
      fst r = Failure "Question not found" false
      /\ fallback_sessions (snd r) = fallback_sessions w
      /\ supabase (snd r) = supabase w).
Proof.
  intros r. pose proof (submit_answer_spec sid qid a t w) as H.
  cbv zeta in H. fold r in H.
  destruct (fst r) as [g | e c | x]; [| | done]; cbn.
  - destruct H as (q & tlast & Hres & _). rewrite Hres.
    split; [split |]; done.
  - destruct H as (-> & -> & Hres & Hf & Hdb). by repeat split.
Qed.

Lemma rejected_submission_changes_nothing_witness :
  fst (submit_answer "s" "nowhere" "a" 1 Demo.online)
  = Failure "Question not found" false
  /\ fallback_sessions (snd (submit_answer "s" "nowhere" "a" 1 Demo.online))
     = ∅.
Proof.
  destruct (rejected_submission_changes_nothing
              Demo.online "s" "nowhere" "a" 1) as (_ & H).
  destruct (H eq_refl) as (Hr & Hf & _).
  split; [exact Hr | exact Hf].
Defined.

(** X12. An accepted submission writes only the progress of its own
    session. In the fallback map every other entry is untouched, and an
    entry that existed keeps every key but its responses, its three
    counters and its last activity, in particular its question ids and
    its cursor. In the store the [questions], [pyq_metadata] and
    [test_responses] tables are untouched, no row appears, and only the
    row of the session may change, in [questions_answered] and
    [last_activity], to the number of answers the fallback entry
    counts. *)
Theorem accepted_submission_writes_only_progress
    (w : World) (sid qid a : string) (t : Z) (g : Grade) :
  fst (submit_answer sid qid a t w) = Success g ->
  let w' := snd (submit_answer sid qid a t w) in
  (forall k, k <> sid ->
             fallback_sessions w' !! k = fallback_sessions w !! k
             /\ stored_sessions w' !! k = stored_sessions w !! k)
  /\ (forall s,
         fallback_sessions w !! sid = Some s ->
         exists s',
           fallback_sessions w' !! sid = Some s'
           /\ set_stats 0 0 0 "" (set_responses ∅ s')
              = set_stats 0 0 0 "" (set_responses ∅ s)
           /\ fs_question_ids s' = fs_question_ids s
           /\ fs_current_question_index s' = fs_current_question_index s)
  /\ (questions <$> supabase w') = (questions <$> supabase w)
  /\ (pyq_metadata <$> supabase w') = (pyq_metadata <$> supabase w)
  /\ (test_responses <$> supabase w') = (test_responses <$> supabase w)
  /\ (stored_sessions w' !! sid = stored_sessions w !! sid
      \/ exists n t',
           stored_sessions w' !! sid
           = row_answered n t' <$> stored_sessions w !! sid
           /\ (fallback_sessions w' !! sid ≫= fs_questions_answered)
              = Some n
           /\ n = Z.of_nat (size (recorded_responses sid w'))).
Proof.
  intros Hg w'. pose proof (submit_answer_spec sid qid a t w) as H.
  cbv zeta in H. rewrite Hg in H. fold w' in H.
  destruct H as (q & tlast & _ & _ & Hf & _ & _).
  destruct (submit_answer_store sid qid a t w) as (Hq & Hm & Ht & Hrows).
  fold w' in Hq, Hm, Ht, Hrows.
  split; [| split; [| split; [done | split; [done | split; [done |]]]]].
  - intros k Hk. split; [by rewrite Hf, lookup_insert_ne |].
    by destruct (Hrows k) as [Hsame | [-> _]].
  - intros s Hs. eexists. rewrite Hf, lookup_insert_eq.
    split; [done |]. unfold fallback_entry. by rewrite Hs.
  - destruct (Hrows sid) as [Hsame | [_ (n & t' & Hrow & Hn)]]; [by left |].
    right. exists n, t'. split; [done | split; [done |]].
    unfold recorded_responses. rewrite Hf, lookup_insert_eq in Hn |- *.
    cbn in Hn |- *. by injection Hn as <-.
Qed.

Lemma accepted_submission_writes_only_progress_witness :
  (fallback_sessions Demo.half_done !! "row-1" ≫= fs_question_ids)
  = Some ["q1"; "q2"]
  /\ (row_questions_answered <$> stored_sessions Demo.half_done !! "row-1")
     = Some 1.
Proof.
  destruct (accepted_submission_writes_only_progress
              Demo.two_questions "row-1" "q1" "A" 4 _
              ltac:(vm_compute; reflexivity))
    as (_ & Hentry & _ & _ & _ & Hrow).
  destruct (Hentry _ ltac:(vm_compute; reflexivity))
    as (s' & Hs' & _ & Hids & _).
  split.
  - change Demo.half_done
      with (snd (submit_answer "row-1" "q1" "A" 4 Demo.two_questions)).
    rewrite Hs'. cbn. by rewrite Hids.
  - by vm_compute.
Defined.

(** X13. Progress after a submission: [get_session_progress], asked
    right after an accepted answer to question [qid], counts the
    responses to the other questions plus one, and counts that one
    response as correct or incorrect by the grade just given; an earlier
    response to [qid] is not counted any more. *)
Theorem submission_then_progress
    (w : World) (sid qid a : string) (t : Z) (g : Grade)
    (rep : ProgressReport) :
  fst (submit_answer sid qid a t w) = Success g ->
  fst (get_session_progress sid (snd (submit_answer sid qid a t w)))
  = Success rep ->
  let others := delete qid (recorded_responses sid w) in
  pr_questions_answered (rep_progress rep) = Z.of_nat (size others) + 1
  /\ pr_questions_correct (rep_progress rep)
     = count_responses r_is_correct others
       + (if g_is_correct g then 1 else 0)
  /\ pr_questions_incorrect (rep_progress rep)
     = count_responses is_incorrect others
       + (if g_is_correct g then 0 else 1).
Proof.
  intros Hg Hrep others.
  pose proof (submit_answer_spec sid qid a t w) as H.
  cbv zeta in H. rewrite Hg in H.
  destruct H as (q & tlast & _ & -> & Hf & _ & _).
  destruct (get_session_progress_report _ _ _ Hrep) as (s & _ & -> & _).
  cbn [pr_questions_answered pr_questions_correct pr_questions_incorrect
       g_is_correct].
  unfold recorded_responses at 1 2 3. rewrite Hf, lookup_insert_eq.
  cbn [mbind option_bind fs_responses set_stats set_responses default
       from_option id].
  fold (recorded_responses sid w).
  set (response := {| r_user_answer := a |}).
  change (len (List.filter r_is_correct (values ?R)))
    with (count_responses r_is_correct R).
  change (len (List.filter is_incorrect (values ?R)))
    with (count_responses is_incorrect R).
  rewrite !count_responses_insert. fold others.
  split; [| split].
  - unfold len, values. rewrite length_fmap, length_map_to_list.
    rewrite <- insert_delete_eq, map_size_insert_None
      by apply lookup_delete_eq.
    fold others. lia.
  - subst response. cbn. lia.
  - subst response. unfold is_incorrect at 1. cbn.
    destruct (_check_answer _ _); cbn; lia.
Qed.

Lemma submission_then_progress_witness :
  exists rep,
    fst (get_session_progress "row-1" Demo.half_done) = Success rep
    /\ pr_questions_answered (rep_progress rep) = 1
    /\ pr_questions_correct (rep_progress rep) = 1.
Proof.
  eexists. split; [vm_compute; reflexivity |].
  destruct (submission_then_progress
              Demo.two_questions "row-1" "q1" "A" 4 _ _
              ltac:(vm_compute; reflexivity)
              ltac:(vm_compute; reflexivity)) as (Ha & Hc & _).
  split; [exact Ha | exact Hc].
Defined.

(** X14. What was submitted is shown back: when a session is read from
    the fallback map, [get_current_question], asked right after an
    accepted answer to the question at the cursor, gives as
    [previous_response] the record of that answer, with its response id,
    grade, time taken and time stamp. *)
Theorem submitted_answer_is_the_previous_response
    (w : World) (sid qid a : string) (t : Z) (g : Grade)
    (cq : CurrentQuestion) :
  fst (submit_answer sid qid a t w) = Success g ->
  fst (get_current_question sid (snd (submit_answer sid qid a t w)))
  = Success cq ->
  cq_fallback cq = true ->
  q_id (cq_question cq) = qid ->
  cq_previous_response cq
  = Some {| r_id := g_response_id g; r_session_id := sid;
            r_question_id := qid; r_user_answer := a;
            r_is_correct := g_is_correct g; r_time_taken := t;
            r_response_time := stamp w |}.
Proof.
  intros Hg Hcq Hfb Hid.
  pose proof (submit_answer_spec sid qid a t w) as H.
  cbv zeta in H. rewrite Hg in H.
  destruct H as (q & tlast & _ & -> & Hf & _ & _).
  destruct (get_current_question_success _ _ _ Hcq)
    as (s & qid' & Hs & _ & _ & _ & Hq & _ & Hsrc & Hprev).
  destruct (get_question_found _ _ _ Hq) as (_ & _ & _ & _ & _ & Hid' & _).
  assert (qid' = qid) as -> by congruence.
  destruct s as [r | m]; [by rewrite Hfb in Hsrc |].
  pose proof (find_session_found _ _ _ Hs) as Hm. cbn in Hm.
  rewrite Hf, lookup_insert_eq in Hm. injection Hm as <-.
  rewrite Hprev. cbn. by rewrite lookup_insert_eq.
Qed.

Lemma submitted_answer_is_the_previous_response_witness :
  exists cq,
    fst (get_current_question "uuid-0" Sample.recovered_answered)
    = Success cq
    /\ cq_fallback cq = true
    /\ (r_user_answer <$> cq_previous_response cq) = Some "a".
Proof.
  eexists. split; [vm_compute; reflexivity |]. split; [reflexivity |].
  rewrite (submitted_answer_is_the_previous_response
             Sample.recovered "uuid-0" "q1" "a" 3 _ _
             ltac:(vm_compute; reflexivity) ltac:(vm_compute; reflexivity)
             eq_refl eq_refl).
  reflexivity.
Defined.

(** X15. For a session read from the store, [previous_response] comes
    from the [test_responses] table alone, which [submit_answer] never
    writes: when that table held no response of the session before an
    accepted submission, [get_current_question] asked right after it
    shows no previous response. *)
Theorem store_session_shows_no_submitted_answer
    (w : World) (sid qid a : string) (t : Z) (g : Grade)
    (cq : CurrentQuestion) :
  fst (submit_answer sid qid a t w) = Success g ->
  fst (get_current_question sid (snd (submit_answer sid qid a t w)))
  = Success cq ->
  cq_fallback cq = false ->
  (forall db r, supabase w = Some db -> r ∈ test_responses db ->
                r_session_id r <> sid) ->
  cq_previous_response cq = None.
Proof.
  intros Hg Hcq Hfb Hnone.
  destruct (submit_answer_store sid qid a t w) as (_ & _ & Ht & _).
  destruct (get_current_question_success _ _ _ Hcq)
    as (s & qid' & _ & _ & _ & _ & _ & _ & Hsrc & Hprev).
  destruct s as [r | m]; [| by rewrite Hfb in Hsrc].
  destruct Hprev as (db' & Hdb' & [Hp | (x & _ & Hin & Hsid & _)]); [done |].
  rewrite Hdb' in Ht.
  destruct (supabase w) as [db |] eqn:Hdb; [| done].
  cbn in Ht. injection Ht as Ht. rewrite Ht in Hin.
  by destruct (Hnone db x eq_refl Hin).
Qed.

Lemma store_session_shows_no_submitted_answer_witness :
  exists cq,
    fst (get_current_question "row-1" Demo.half_done) = Success cq
    /\ cq_previous_response cq = None.
Proof.
  eexists. split; [vm_compute; reflexivity |].
  apply (store_session_shows_no_submitted_answer
           Demo.two_questions "row-1" "q1" "A" 4
           {| g_is_correct := true; g_correct_answer := Some "A";
              g_explanation := ""; g_response_id := "uuid-0";
              g_fallback := true |}).
  - vm_compute; reflexivity.
  - vm_compute; reflexivity.
  - reflexivity.
  - intros db r Hdb Hin. vm_compute in Hdb. injection Hdb as <-.
    by apply not_elem_of_nil in Hin.
Defined.

End SubmissionMore.

(* ===================================================================== *)
(** ** More on navigation, pause and resume                               *)
(* ===================================================================== *)

Section NavigationMore.

Lemma store_unreachable_same_state w w' :
  same_state w w' -> store_unreachable w -> store_unreachable w'.
Proof.
  intros (Hrt & Hdb & _) [H | H]; [left | right]; by rewrite ?Hdb, ?Hrt.
Qed.

Lemma find_session_unreachable sid w :
  store_unreachable w ->
  fst (find_session sid w) = MemSession <$> fallback_sessions w !! sid.
Proof.
  intros Hdown. unfold find_session. run.
  destruct Hdown as [Hno | Hdown].
  - by rewrite Hno.
  - destruct (supabase w); cbn; [| done]. by rewrite Hdown.
Qed.

Lemma store_cursor_unreachable sid m i w :
  store_unreachable w -> store_unreachable (snd (store_cursor sid (MemSession m) i w)).
Proof.
  intros [H | H]; [left | right]; unfold store_cursor; run; done.
Qed.

(** A navigation of a session the fallback map holds, while the store
    cannot be reached. *)
Lemma navigate_unreachable sid d w m :
  store_unreachable w ->
  fallback_sessions w !! sid = Some m ->
  question_ids_of m <> [] ->
  let i := default 0 (fs_current_question_index m) in
  match step_cursor d i (len (question_ids_of m)) with
  | inr e =>
      fst (navigate_to_question sid d w) = Failure e false
  | inl j =>
      fst (navigate_to_question sid d w)
      = Success {| mv_current_index := j; mv_fallback := true |}
      /\ store_unreachable (snd (navigate_to_question sid d w))
      /\ exists t,
           fallback_sessions (snd (navigate_to_question sid d w))
           = <[sid := set_last_activity t (set_current_question_index j m)]>
               (fallback_sessions w)
  end.
Proof.
  intros Hdown Hm Hne i.
  pose proof (find_session_same_state sid w) as Hsame.
  pose proof Hsame as (_ & _ & _ & Hf).
  rewrite navigate_unfold, (find_session_unreachable sid w Hdown), Hm.
  cbn [fmap option_fmap option_map]. cbv zeta.
  unfold fallback_question_ids. rewrite Hm.
  destruct (question_ids_of m) as [| q qs] eqn:Hq; [done |].
  cbn [nonempty negb current_question_index]. fold i.
  destruct (step_cursor d i (len (q :: qs))) as [j | e]; [| done].
  cbn [fst snd source_of is_fallback].
  split; [done | split].
  - by apply store_cursor_unreachable, (store_unreachable_same_state w).
  - destruct (store_cursor_fallback sid m j (snd (find_session sid w)))
      as (-> & _).
    rewrite Hf, (alter_alt_Some _ _ _ _ Hm). by eexists.
Qed.

(** X16. Next then previous is the identity on the cursor. For a session
    of the fallback map, while the store cannot be reached, with a cursor
    [i >= 0] that is not on the last question: "next" moves to [i + 1],
    "previous" then moves back to [i], both replies are flagged as
    fallback, and the entry ends with cursor [i] and its question ids
    unchanged. *)
Theorem next_then_previous_returns
    (w : World) (sid : string) (m : FallbackSession) :
  store_unreachable w ->
  fallback_sessions w !! sid = Some m ->
  let i := default 0 (fs_current_question_index m) in
  0 <= i ->
  i + 1 < len (question_ids_of m) ->
  let w1 := snd (navigate_to_question sid "next" w) in
  let w2 := snd (navigate_to_question sid "previous" w1) in
  fst (navigate_to_question sid "next" w)
  = Success {| mv_current_index := i + 1; mv_fallback := true |}
  /\ fst (navigate_to_question sid "previous" w1)
     = Success {| mv_current_index := i; mv_fallback := true |}
  /\ fallback_cursor sid w1 = Some (i + 1)
  /\ fallback_cursor sid w2 = Some i
  /\ fallback_question_ids sid w2 = question_ids_of m.
Proof.
  intros Hdown Hm i Hi Hn w1 w2.
  assert (question_ids_of m <> []) as Hne
    by (intros Hq; rewrite Hq in Hn; unfold len in Hn; cbn in Hn; lia).
  pose proof (navigate_unreachable sid "next" w m Hdown Hm Hne) as H1.
  cbv zeta in H1. fold i in H1. unfold step_cursor in H1.
  rewrite (bool_decide_eq_true_2 ("next" = "next")) in H1 by done.
  rewrite (proj2 (Z.leb_gt _ _)) in H1 by lia.
  destruct H1 as (Hr1 & Hdown1 & t1 & Hf1). fold w1 in Hdown1, Hf1.
  set (m1 := set_last_activity t1 (set_current_question_index (i + 1) m))
    in *.
  assert (fallback_sessions w1 !! sid = Some m1) as Hm1
    by (by rewrite Hf1, lookup_insert_eq).
  pose proof (navigate_unreachable sid "previous" w1 m1 Hdown1 Hm1 Hne) as H2.
  cbv zeta in H2. unfold step_cursor in H2.
  rewrite (bool_decide_eq_false_2 ("previous" = "next")) in H2 by done.
  rewrite (bool_decide_eq_true_2 ("previous" = "previous")) in H2 by done.
  cbn [m1 default from_option id fs_current_question_index
       set_last_activity set_current_question_index] in H2.
  rewrite (proj2 (Z.leb_gt _ _)) in H2 by lia.
  replace (i + 1 - 1) with i in H2 by lia.
  destruct H2 as (Hr2 & _ & t2 & Hf2). fold w2 in Hf2.
  unfold fallback_cursor, fallback_question_ids.
  rewrite Hf2, Hm1, !lookup_insert_eq.
  by repeat split.
Qed.

Lemma next_then_previous_returns_witness :
  fst (navigate_to_question "uuid-0" "next" Sample.local_session)
  = Success {| mv_current_index := 1; mv_fallback := true |}
  /\ fallback_cursor "uuid-0"
       (snd (navigate_to_question "uuid-0" "previous"
               (snd (navigate_to_question "uuid-0" "next"
                       Sample.local_session))))
     = Some 0.
Proof.
  destruct (next_then_previous_returns
              Sample.local_session "uuid-0" _
              (or_introl eq_refl) ltac:(vm_compute; reflexivity)
              ltac:(vm_compute; discriminate) ltac:(vm_compute; reflexivity))
    as (H1 & _ & _ & H2 & _).
  split; [exact H1 | exact H2].
Defined.

Lemma find_session_row sid w db r :
  supabase w = Some db ->
  raises (rt w) (store_calls w) = false ->
  pyq_sessions db !! sid = Some r ->
  find_session sid w
  = (Some (RowSession r), set_store (S (store_calls w)) (Some db) w).
Proof.
  intros Hdb Hup Hr. unfold find_session. run.
  rewrite Hdb. cbn. rewrite Hup. cbn. rewrite Hdb. cbn. by rewrite Hr.
Qed.

(** X17. A jump on a session read from the store reports success even
    when the write of the cursor raises. With a row for the session, a
    first store call that answers and a target within the question list,
    [jump_to_question] replies with the target and without the fallback
    flag; the row then holds the target if the update call answered, and
    is unchanged if it raised; the cursor of the fallback entry is never
    written. *)
Theorem jump_reports_success_when_the_update_raises
    (w : World) (sid : string) (i : Z) (db : Database) (r : SessionRow) :
  supabase w = Some db ->
  raises (rt w) (store_calls w) = false ->
  pyq_sessions db !! sid = Some r ->
  0 <= i < len (fallback_question_ids sid w) ->
  let w' := snd (jump_to_question sid i w) in
  fst (jump_to_question sid i w)
  = Success {| mv_current_index := i; mv_fallback := false |}
  /\ fallback_sessions w' = fallback_sessions w
  /\ (raises (rt w) (S (store_calls w)) = true -> supabase w' = Some db)
  /\ (raises (rt w) (S (store_calls w)) = false ->
      exists t, stored_sessions w' !! sid = Some (row_move i t r)
                /\ row_current_question_index (row_move i t r) = i).
Proof.
  intros Hdb Hup Hr Hi w'. subst w'.
  rewrite jump_unfold, (find_session_row sid w db r Hdb Hup Hr).
  cbv zeta. cbn [fst snd].
  assert (nonempty (fallback_question_ids sid w) = true) as ->
    by (apply nonempty_len; lia).
  cbn [negb].
  assert ((i <? 0) || (len (fallback_question_ids sid w) <=? i) = false)
    as -> by (apply orb_false_iff; lia).
  cbn [fst snd source_of is_fallback].
  unfold store_cursor, stored_sessions. run.
  destruct (raises (rt w) (S (store_calls w))); cbn;
    repeat split; try done.
  intros _. eexists. by rewrite lookup_alter_eq, Hr.
Qed.

Lemma jump_reports_success_when_the_update_raises_witness :
  fst (jump_to_question "row-1" 1 Sample.two_questions_flaky)
  = Success {| mv_current_index := 1; mv_fallback := false |}
  /\ (row_current_question_index
        <$> stored_sessions
              (snd (jump_to_question "row-1" 1 Sample.two_questions_flaky))
            !! "row-1") = Some 0.
Proof.
  destruct (jump_reports_success_when_the_update_raises
              Sample.two_questions_flaky "row-1" 1 _ _
              eq_refl eq_refl ltac:(vm_compute; reflexivity)
              ltac:(vm_compute; split; discriminate || reflexivity))
    as (Hr & _ & Hraised & _).
  split; [exact Hr |].
  unfold stored_sessions. rewrite (Hraised eq_refl). by vm_compute.
Defined.

Lemma set_active_unreachable sid a st msg w :
  store_unreachable w ->
  let r := set_active sid a st msg w in
  store_unreachable (snd r)
  /\ match fallback_sessions w !! sid with
     | None =>
         fst r = Failure "Session not found" false
         /\ fallback_sessions (snd r) = fallback_sessions w
     | Some m =>
         fst r = Success {| ack_message := msg; ack_fallback := true |}
         /\ exists t,
              fallback_sessions (snd r)
              = <[sid := set_last_activity t (set_activity_status a st m)]>
                  (fallback_sessions w)
     end.
Proof.
  intros Hdown. unfold set_active, store_unreachable. run.
  destruct Hdown as [Hno | Hdown].
  - rewrite !Hno. cbn.
    destruct (fallback_sessions w !! sid) as [m |] eqn:Hm; cbn;
      rewrite ?Hno; (split; [by left |]); [| done].
    split; [done |]. rewrite (alter_alt_Some _ _ _ _ Hm). by eexists.
  - destruct (supabase w) as [db |] eqn:Hdb; cbn; rewrite ?Hdown; cbn;
      destruct (fallback_sessions w !! sid) as [m |] eqn:Hm; cbn;
      (split; [by right |]); try done;
      (split; [done |]); rewrite (alter_alt_Some _ _ _ _ Hm); by eexists.
Qed.

(** X18. Pause then resume, while the store cannot be reached. For a
    session of the fallback map, [pause_session] succeeds with the
    fallback flag and leaves the entry inactive with status PAUSED;
    [resume_session] then succeeds and leaves it active with status
    ACTIVE; its question ids, cursor and responses are as before. For a
    session id the fallback map does not hold, both fail with "Session
    not found". *)
Theorem pause_then_resume_in_fallback (w : World) (sid : string) :
  store_unreachable w ->
  let w1 := snd (pause_session sid w) in
  let w2 := snd (resume_session sid w1) in
  match fallback_sessions w !! sid with
  | None =>
      fst (pause_session sid w) = Failure "Session not found" false
      /\ fst (resume_session sid w) = Failure "Session not found" false
  | Some m =>
      fst (pause_session sid w)
      = Success {| ack_message := "Session paused"; ack_fallback := true |}
      /\ fst (resume_session sid w1)
         = Success {| ack_message := "Session resumed";
                      ack_fallback := true |}
      /\ exists m1 m2,
           fallback_sessions w1 !! sid = Some m1
           /\ fs_is_active m1 = Some false /\ fs_status m1 = Some PAUSED
           /\ fallback_sessions w2 !! sid = Some m2
           /\ fs_is_active m2 = Some true /\ fs_status m2 = Some ACTIVE
           /\ without_activity m2 = without_activity m
  end.
Proof.
  intros Hdown w1 w2.
  pose proof (set_active_unreachable sid false PAUSED "Session paused" w Hdown)
    as (Hdown1 & H1).
  pose proof (set_active_unreachable sid true ACTIVE "Session resumed" w Hdown)
    as (_ & H0).
  cbv zeta in Hdown1, H1, H0.
  fold (pause_session sid w) in Hdown1, H1.
  fold (resume_session sid w) in H0. fold w1 in Hdown1, H1.
  destruct (fallback_sessions w !! sid) as [m |] eqn:Hm.
  - destruct H1 as (Hr1 & t1 & Hf1).
    pose proof (set_active_unreachable sid true ACTIVE "Session resumed"
                  w1 Hdown1) as (_ & H2).
    cbv zeta in H2. fold (resume_session sid w1) in H2. fold w2 in H2.
    rewrite Hf1, lookup_insert_eq in H2. destruct H2 as (Hr2 & t2 & Hf2).
    split; [done | split; [done |]].
    eexists _, _. rewrite Hf1, Hf2, !lookup_insert_eq.
    by repeat split.
  - by destruct H1, H0.
Qed.

Lemma pause_then_resume_in_fallback_witness :
  fst (pause_session "uuid-0" Sample.local_session)
  = Success {| ack_message := "Session paused"; ack_fallback := true |}
  /\ fst (pause_session "nobody" Sample.local_session)
     = Failure "Session not found" false.
Proof.
  pose proof (pause_then_resume_in_fallback
                Sample.local_session "uuid-0" (or_introl eq_refl)) as H1.
  pose proof (pause_then_resume_in_fallback
                Sample.local_session "nobody" (or_introl eq_refl)) as H2.
  cbv zeta in H1, H2.
  split; [exact (proj1 H1) | exact (proj1 H2)].
Defined.

(** X19. With a store that answers, [pause_session] and [resume_session]
    report success for any session id, known or not: they send one
    update, which changes no row when the store has none for that id,
    and they never look at or write the fallback map, so a fallback copy
    of the session keeps its old [is_active] and [status]. *)
Theorem pause_succeeds_for_any_id_when_the_store_answers
    (w : World) (sid : string) (db : Database) :
  supabase w = Some db ->
  raises (rt w) (store_calls w) = false ->
  let w1 := snd (pause_session sid w) in
  let w2 := snd (resume_session sid w) in
  fst (pause_session sid w)
  = Success {| ack_message := "Session paused"; ack_fallback := false |}
  /\ fst (resume_session sid w)
     = Success {| ack_message := "Session resumed"; ack_fallback := false |}
  /\ fallback_sessions w1 = fallback_sessions w
  /\ fallback_sessions w2 = fallback_sessions w
  /\ (row_is_active <$> stored_sessions w1 !! sid)
     = (fun _ => false) <$> pyq_sessions db !! sid
  /\ (row_is_active <$> stored_sessions w2 !! sid)
     = (fun _ => true) <$> pyq_sessions db !! sid
  /\ (pyq_sessions db !! sid = None ->
      supabase w1 = Some db /\ supabase w2 = Some db).
Proof.
  intros Hdb Hup w1 w2. subst w1 w2.
  unfold pause_session, resume_session, set_active, stored_sessions. run.
  rewrite Hdb. cbn. rewrite Hup. cbn. rewrite Hdb. cbn.
  assert (forall f : SessionRow -> SessionRow,
             pyq_sessions db !! sid = None ->
             with_sessions (alter f sid (pyq_sessions db)) db = db) as Hid.
  { intros f Hnone. unfold with_sessions. destruct db as [rows qs ms ts].
    cbn in *. f_equal. apply map_eq. intros k.
    rewrite lookup_alter. case_decide; subst; [by rewrite Hnone | done]. }
  do 4 (split; [done |]).
  split; [| split].
  - rewrite lookup_alter_eq. by destruct (pyq_sessions db !! sid).
  - rewrite lookup_alter_eq. by destruct (pyq_sessions db !! sid).
  - intros Hnone. by rewrite !Hid.
Qed.

Lemma pause_succeeds_for_any_id_when_the_store_answers_witness :
  fst (pause_session "nobody" Demo.online)
  = Success {| ack_message := "Session paused"; ack_fallback := false |}
  /\ supabase (snd (pause_session "nobody" Demo.online))
     = Some Demo.catalogue.
Proof.
  destruct (pause_succeeds_for_any_id_when_the_store_answers
              Demo.online "nobody" Demo.catalogue eq_refl eq_refl)
    as (Hr & _ & _ & _ & _ & _ & Hsame).
  split; [exact Hr | exact (proj1 (Hsame eq_refl))].
Defined.

End NavigationMore.

(* ===================================================================== *)
(** ** More on progress                                                   *)
(* ===================================================================== *)

Section ProgressMore.

Lemma calculate_session_duration_same_state start w :
  same_state w (snd (_calculate_session_duration start w)).
Proof.
  unfold same_state, _calculate_session_duration, try_session_duration.
  destruct start as [[| c s] |]; try done.
  unfold bind, ret. cbn [fst snd].
  destruct (fromisoformat (rt w) (String c s)) as [d |]; [| done].
  by destruct (tzinfo d).
Qed.

(** X20. [get_session_progress] only reads: whatever its outcome, the
    store, the fallback map, the provider and the environment are the
    same afterwards. *)
Theorem get_session_progress_only_reads (w : World) (sid : string) :
  same_state w (snd (get_session_progress sid w)).
Proof.
  pose proof (find_session_same_state sid w) as Hsame.
  cbv beta zeta delta [get_session_progress bind].
  destruct (fst (find_session sid w)) as [s |]; [| done].
  unfold get_fallback. cbn [fst snd].
  apply (same_state_trans _ _ _ Hsame).
  match goal with
  | |- same_state ?W (snd (ret _ (snd (_calculate_session_duration ?st ?V)))) =>
      assert (same_state W V) as HV
  end.
  { unfold same_state, _get_session_question_ids, bind, get_fallback, ret.
    by destruct s. }
  cbv beta iota delta [ret]. cbn [snd].
  apply (same_state_trans _ _ _ HV), calculate_session_duration_same_state.
Qed.

(** The whole report of [get_session_progress]. *)
Lemma get_session_progress_full sid w rep :
  fst (get_session_progress sid w) = Success rep ->
  exists s,
    fst (find_session sid w) = Some s
    /\ let responses := values (recorded_responses sid w) in
       rep_question_status rep
       = status_of responses <$> fallback_question_ids sid w
       /\ ts_total_time_seconds (rep_time_stats rep)
          = sum_time_taken responses
       /\ ts_average_time_per_question (rep_time_stats rep)
          = (if len responses =? 0 then 0%Q
             else (inject_Z (sum_time_taken responses)
                   / inject_Z (len responses))%Q)
       /\ rep_is_completed rep
          = (pr_questions_answered (rep_progress rep)
             =? pr_total_questions (rep_progress rep))
       /\ rep_session_id rep = sid.
Proof.
  destruct (find_session_same_state sid w) as (_ & _ & _ & Hf).
  cbv beta zeta delta [get_session_progress bind].
  destruct (fst (find_session sid w)) as [s |] eqn:Hs; [| done].
  pose proof (find_session_found sid w s Hs) as Hfound.
  unfold get_fallback. cbn [fst snd]. rewrite Hf.
  assert (fst (match s with
               | RowSession _ => _get_session_question_ids sid
               | MemSession _ =>
                   ret (default [] (fallback_sessions w !! sid
                                      ≫= fs_question_ids))
               end (snd (find_session sid w)))
          = fallback_question_ids sid w) as ->.
  { unfold fallback_question_ids, _get_session_question_ids, bind,
      get_fallback, ret.
    destruct s as [r | m]; cbn [fst snd]; [by rewrite Hf |].
    by rewrite Hfound. }
  cbv beta iota delta [ret]. cbn [fst snd].
  intros [= <-]. exists s. split; [done |]. by cbn.
Qed.

Lemma status_of_well_keyed (R : gmap string Response) q :
  well_keyed R ->
  status_of (values R) q
  = match R !! q with
    | Some r => if r_is_correct r then CORRECT else INCORRECT
    | None => NOT_ATTEMPTED
    end.
Proof.
  intros Hk. unfold status_of.
  destruct (List.find _ (values R)) as [x |] eqn:Hfind.
  - apply List.find_some in Hfind as [Hin Hq%bool_decide_eq_true].
    apply list_elem_of_In in Hin. unfold values in Hin.
    apply list_elem_of_fmap in Hin as ([k y] & -> & Hin).
    apply elem_of_map_to_list in Hin. cbn in *.
    rewrite <- Hq, (Hk _ _ Hin). by rewrite Hin.
  - destruct (R !! q) as [r |] eqn:Hr; [| done].
    assert (In r (values R)) as Hin.
    { apply list_elem_of_In. unfold values. apply list_elem_of_fmap.
      exists (q, r). split; [done |]. by apply elem_of_map_to_list. }
    pose proof (List.find_none _ _ Hfind r Hin) as Hno. cbn in Hno.
    apply bool_decide_eq_false in Hno. by rewrite (Hk _ _ Hr) in Hno.
Qed.

(** X21. The counts of a progress report add up: correct plus incorrect
    is the number answered, remaining plus answered is the total, neither
    count is negative, the total time is the sum of the times taken, and
    the status map has one entry per question id of the session. *)
Theorem progress_counts_add_up
    (w : World) (sid : string) (rep : ProgressReport) :
  fst (get_session_progress sid w) = Success rep ->
  let p := rep_progress rep in
  pr_questions_correct p + pr_questions_incorrect p = pr_questions_answered p
  /\ pr_questions_remaining p + pr_questions_answered p = pr_total_questions p
  /\ 0 <= pr_questions_correct p /\ 0 <= pr_questions_incorrect p
  /\ ts_total_time_seconds (rep_time_stats rep)
     = sum_time_taken (values (recorded_responses sid w))
  /\ length (rep_question_status rep)
     = length (fallback_question_ids sid w).
Proof.
  intros Hrep p.
  destruct (get_session_progress_report sid w rep Hrep) as (s & _ & Hp & _).
  destruct (get_session_progress_full sid w rep Hrep)
    as (s' & _ & Hst & Htot & _).
  cbv zeta in Hp, Hst, Htot. subst p. rewrite Hp, Hst, Htot. cbn.
  set (responses := values (recorded_responses sid w)).
  assert (len (List.filter r_is_correct responses)
          + len (List.filter is_incorrect responses) = len responses) as Hsum.
  { unfold len, is_incorrect. induction responses as [| r l IH]; [done |].
    cbn. destruct (r_is_correct r); cbn [negb length]; lia. }
  split; [done | split; [lia | split; [unfold len; lia | split;
    [unfold len; lia | split; [done |]]]]].
  by rewrite length_fmap.
Qed.

Lemma progress_counts_add_up_witness :
  exists rep,
    fst (get_session_progress "row-1" Demo.overanswered) = Success rep
    /\ pr_questions_correct (rep_progress rep)
       + pr_questions_incorrect (rep_progress rep) = 2
    /\ ts_total_time_seconds (rep_time_stats rep) = 10.
Proof.
  eexists. split; [vm_compute; reflexivity |].
  destruct (progress_counts_add_up Demo.overanswered "row-1" _
              ltac:(vm_compute; reflexivity)) as (Hsum & _ & _ & _ & Ht & _).
  split; [exact Hsum |]. rewrite Ht. by vm_compute.
Defined.

(** X22. The status map follows the response map. When every response of
    the session is stored under its own question id, the status at each
    position of [question_ids] is NOT_ATTEMPTED when the question at that
    position has no response, and else CORRECT or INCORRECT by the grade
    of its response; it is never ATTEMPTED or SKIPPED, and it does not
    depend on the order in which the responses are listed. *)
Theorem question_status_follows_responses
    (w : World) (sid : string) (rep : ProgressReport) (pos : nat)
    (q : string) :
  fst (get_session_progress sid w) = Success rep ->
  well_keyed (recorded_responses sid w) ->
  fallback_question_ids sid w !! pos = Some q ->
  rep_question_status rep !! pos
  = Some match recorded_responses sid w !! q with
         | Some r => if r_is_correct r then CORRECT else INCORRECT
         | None => NOT_ATTEMPTED
         end.
Proof.
  intros Hrep Hk Hq.
  destruct (get_session_progress_full sid w rep Hrep) as (s & _ & -> & _).
  rewrite list_lookup_fmap, Hq. cbn. f_equal.
  by apply status_of_well_keyed.
Qed.

Lemma question_status_follows_responses_witness :
  exists rep,
    fst (get_session_progress "row-1" Demo.half_done) = Success rep
    /\ rep_question_status rep !! 1%nat = Some NOT_ATTEMPTED.
Proof.
  eexists. split; [vm_compute; reflexivity |].
  rewrite (question_status_follows_responses
             Demo.half_done "row-1" _ 1 "q2"
             ltac:(vm_compute; reflexivity)).
  - by vm_compute.
  - change Demo.half_done
      with (snd (submit_answer "row-1" "q1" "A" 4 Demo.two_questions)).
    apply submit_answer_well_keyed. intros k r Hr. by vm_compute in Hr.
  - by vm_compute.
Defined.

End ProgressMore.

(* ===================================================================== *)
(** ** Listing the sessions of a user                                     *)
(* ===================================================================== *)

Section Listing.

Lemma elem_of_map_values {A} (m : gmap string A) (x : A) :
  x ∈ (map_to_list m).*2 <-> exists k, m !! k = Some x.
Proof.
  rewrite list_elem_of_fmap. split.
  - intros ([k y] & -> & Hin). exists k. by apply elem_of_map_to_list.
  - intros (k & Hk). exists (k, x). split; [done |].
    by apply elem_of_map_to_list.
Qed.

Lemma store_summary_spec row w :
  let r := store_summary row w in
  same_state w (snd r)
  /\ exists n,
       fst r = enhanced (RowSession row) n (row_total_questions row) None
       /\ (n = 0
           \/ exists db, supabase w = Some db
                         /\ n = stored_answers (row_id row) db).
Proof.
  unfold store_summary, same_state, stored_answers, count_session_responses.
  run.
  destruct (raises (rt w) (store_calls w)); cbn;
    [| destruct (supabase w) as [db |] eqn:Hdb; cbn].
  - split; [done |]. eexists. split; [done |]. by left.
  - split; [by rewrite ?Hdb |]. eexists. split; [done |]. right. by exists db.
  - split; [by rewrite ?Hdb |]. eexists. split; [done |]. by left.
Qed.

(** One summary per row, in the order of the rows. *)
Lemma for_each_store_summary rows w :
  let r := for_each store_summary rows w in
  same_state w (snd r)
  /\ ss_session <$> fst r = RowSession <$> rows
  /\ Forall
       (fun e =>
          exists row n,
            e = enhanced (RowSession row) n (row_total_questions row) None
            /\ (n = 0
                \/ exists db, supabase w = Some db
                              /\ n = stored_answers (row_id row) db))
       (fst r).
Proof.
  revert w. induction rows as [| row rows IH]; intros w.
  - cbn. by repeat split.
  - change (for_each store_summary (row :: rows) w)
      with (let r1 := store_summary row w in
            let r2 := for_each store_summary rows (snd r1) in
            (fst r1 :: fst r2, snd r2)).
    cbv zeta. cbn [fst snd].
    destruct (store_summary_spec row w) as (Hsame & n & Hn & Hcount).
    destruct (IH (snd (store_summary row w))) as (Hsame' & Hrows & Hall).
    cbv zeta in Hsame, Hn, Hsame', Hrows, Hall.
    split; [by apply (same_state_trans _ _ _ Hsame) |].
    split; [rewrite fmap_cons, Hrows, Hn; done |].
    constructor; [by exists row, n |].
    destruct Hsame as (_ & Hdb & _).
    eapply Forall_impl; [exact Hall |]. intros e (r & m & He & Hm).
    exists r, m. split; [done |]. by rewrite <- Hdb.
Qed.

(** The summary of a fallback entry depends on the fallback map only. *)
Lemma for_each_fallback_summary entries w :
  for_each fallback_summary entries w
  = ((fun s => fst (fallback_summary s w)) <$> entries, w).
Proof.
  induction entries as [| s entries IH]; [done |].
  change (for_each fallback_summary (s :: entries) w)
    with (let r1 := fallback_summary s w in
          let r2 := for_each fallback_summary entries (snd r1) in
          (fst r1 :: fst r2, snd r2)).
  cbv zeta.
  assert (snd (fallback_summary s w) = w) as -> by done.
  by rewrite IH.
Qed.

Lemma fallback_summary_same_sessions s w w' :
  fallback_sessions w' = fallback_sessions w ->
  fst (fallback_summary s w') = fst (fallback_summary s w).
Proof.
  intros Hf. unfold fallback_summary, bind, get_fallback, ret. cbn.
  by rewrite Hf.
Qed.

(** The two outcomes of [get_user_sessions]. *)
Lemma get_user_sessions_spec u st w :
  same_state w (snd (get_user_sessions u st w))
  /\ exists l,
       fst (get_user_sessions u st w) = Success l
       /\ (sl_fallback l = false
           /\ (exists db rows,
                 supabase w = Some db
                 /\ raises (rt w) (store_calls w) = false
                 /\ user_rows u
                      (if bool_decide (st = "all") then None
                       else Some (bool_decide (st = "active"))) db
                    = rows
                 /\ rows <> []
                 /\ ss_session <$> sl_sessions l = RowSession <$> rows
                 /\ Forall
                      (fun e =>
                         exists row n,
                           e = enhanced (RowSession row) n
                                 (row_total_questions row) None
                           /\ (n = 0 \/ n = stored_answers (row_id row) db))
                      (sl_sessions l))
           \/ sl_fallback l = true
              /\ ~ (exists db,
                      supabase w = Some db
                      /\ raises (rt w) (store_calls w) = false
                      /\ user_rows u
                           (if bool_decide (st = "all") then None
                            else Some (bool_decide (st = "active"))) db
                         <> [])
              /\ sl_sessions l
                 = (fun s => fst (fallback_summary s w))
                     <$> (public_view
                            <$> List.filter (listed_in_fallback u st)
                                  (map_to_list (fallback_sessions w)).*2)).
Proof.
  cbv beta zeta delta [get_user_sessions bind has_supabase].
  cbn [fst snd].
  set (active := if bool_decide (st = "all") then None
                 else Some (bool_decide (st = "active"))).
  match goal with
  | |- context [nonempty (fst ?x)] => set (looked := x)
  end.
  assert (same_state w (snd looked)
          /\ (fst looked = []
              /\ ~ (exists db,
                      supabase w = Some db
                      /\ raises (rt w) (store_calls w) = false
                      /\ user_rows u active db <> [])
              \/ exists db,
                   supabase w = Some db
                   /\ raises (rt w) (store_calls w) = false
                   /\ user_rows u active db = fst looked
                   /\ fst looked <> [])) as (Hsame & Hlooked).
  { subst looked. unfold same_state, select_user_sessions, user_rows. run.
    destruct (supabase w) as [db |] eqn:Hdb; cbn;
      [destruct (raises (rt w) (store_calls w)) eqn:Hr; cbn |].
    - split; [by rewrite Hdb |]. left. split; [done |].
      by intros (? & _ & ? & _).
    - rewrite ?Hdb. cbn. split; [by rewrite ?Hdb |].
      match goal with
      | |- context [List.filter ?p ?x] =>
          destruct (List.filter p x) as [| r rows] eqn:Hrows
      end.
      + left. split; [done |]. intros (db' & [= <-] & _ & Hne).
        cbn in Hne. by rewrite Hrows in Hne.
      + right. exists db. by rewrite Hrows.
    - split; [done |]. left. split; [done |]. by intros (? & ? & _). }
  clearbody looked. destruct looked as [sessions w1]. cbn [fst snd] in *.
  destruct Hlooked as [[-> Hnone] | (db & Hdb & Hr & Hrows & Hne)].
  - cbn [nonempty]. unfold fallback_values. cbn [fst snd].
    rewrite for_each_fallback_summary. cbn [fst snd ret].
    split; [done |]. eexists. split; [done |]. right. cbn.
    split; [done |]. split; [done |].
    destruct Hsame as (_ & _ & _ & Hf). rewrite Hf.
    apply list_fmap_ext. intros _ s _.
    by apply fallback_summary_same_sessions.
  - destruct sessions as [| row rows]; [done |]. cbn [nonempty].
    destruct (for_each_store_summary (row :: rows) w1)
      as (Hsame' & Hsess & Hall).
    cbv zeta in Hsame', Hsess, Hall. cbv beta iota delta [ret]. cbn [fst snd].
    split; [by apply (same_state_trans _ _ _ Hsame) |].
    eexists. split; [done |]. left. cbn. split; [done |].
    exists db, (row :: rows). do 5 (split; [done |]).
    destruct Hsame as (_ & Hdb' & _). rewrite Hdb in Hdb'.
    eapply Forall_impl; [exact Hall |].
    intros e (r & m & He & [Hm | (db' & Hdb'' & Hm)]);
      exists r, m; (split; [done |]); [by left | right].
    rewrite Hdb' in Hdb''. by simplify_eq.
Qed.

(** X23. [get_user_sessions] has no failure reply and it only reads:
    whatever it lists, the store, the fallback map, the provider and the
    environment are the same afterwards. *)
Theorem user_sessions_listing_only_reads (w : World) (u st : string) :
  (exists l, fst (get_user_sessions u st w) = Success l)
  /\ same_state w (snd (get_user_sessions u st w)).
Proof.
  destruct (get_user_sessions_spec u st w) as (Hsame & l & Hl & _).
  split; [by exists l | done].
Qed.




Lemma submit_answer_test_responses sid qid a t w :
  (test_responses <$> supabase (snd (submit_answer sid qid a t w)))
  = (test_responses <$> supabase w).
Proof. by destruct (submit_answer_store sid qid a t w) as (_ & _ & ? & _). Qed.

(** X25. The listing does not see submitted answers. [submit_answer]
    writes no [test_responses] row, so with a store whose
    [test_responses] table is empty, every entry of a listing read from
    the store after a submission still has 0 answers and 0 percent of
    progress, and is complete only if its session has no question. *)
Theorem store_listing_ignores_submitted_answers
    (w : World) (db : Database) (sid qid a : string) (t : Z)
    (u st : string) (l : SessionList) (e : SessionSummary) :
  supabase w = Some db ->
  test_responses db = [] ->
  fst (get_user_sessions u st (snd (submit_answer sid qid a t w)))
  = Success l ->
  sl_fallback l = false ->
  e ∈ sl_sessions l ->
  ss_questions_answered e = 0
  /\ (ss_progress_percentage e == 0)%Q
  /\ (ss_is_completed e = true ->
      exists r, ss_session e = RowSession r /\ row_total_questions r = 0).
Proof.
  intros Hdb Hnone Hl Hflag He.
  pose proof (submit_answer_test_responses sid qid a t w) as Hsame.
  set (w' := snd (submit_answer sid qid a t w)) in *. clearbody w'.
  destruct (get_user_sessions_spec u st w') as (_ & l' & Hl' & Hcases).
  rewrite Hl in Hl'. injection Hl' as <-.
  destruct Hcases as [(_ & db' & rows & Hdb' & _ & _ & _ & _ & Hall)
                     | (Hflag' & _)]; [| congruence].
  rewrite Hdb, Hdb' in Hsame. cbn in Hsame. injection Hsame as Hsame.
  rewrite Hnone in Hsame.
  rewrite Forall_forall in Hall.
  destruct (Hall e He) as (r & n & -> & Hn).
  assert (n = 0) as ->.
  { destruct Hn as [-> | ->]; [done |].
    unfold stored_answers. by rewrite Hsame. }
  cbn. split; [done |]. split.
  - destruct (row_total_questions r =? 0); [done |].
    unfold percentage, Qdiv. ring.
  - intros Hc. exists r. split; [done |].
    by destruct (row_total_questions r).
Qed.

Lemma store_listing_ignores_submitted_answers_witness :
  exists l e r,
    fst (get_user_sessions "u" "all"
           (snd (submit_answer "row-1" "q1" "A" 4 Demo.two_questions)))
    = Success l
    /\ e ∈ sl_sessions l
    /\ ss_session e = RowSession r
    /\ row_questions_answered r = 1
    /\ ss_questions_answered e = 0.
Proof.
  eexists. eexists. eexists.
  split; [vm_compute; reflexivity |].
  split; [apply list_elem_of_here |].
  split; [reflexivity |]. split; [by vm_compute |].
  eapply (store_listing_ignores_submitted_answers
            Demo.two_questions _ "row-1" "q1" "A" 4 "u" "all").
  - by vm_compute.
  - by vm_compute.
  - vm_compute. reflexivity.
  - reflexivity.
  - apply list_elem_of_here.
Defined.

Lemma get_user_sessions_unreachable u st w :
  store_unreachable w ->
  exists l, fst (get_user_sessions u st w) = Success l
            /\ sl_fallback l = true.
Proof.
  intros Hdown.
  destruct (get_user_sessions_spec u st w) as (_ & l & Hl & Hcases).
  exists l. split; [done |].
  destruct Hcases as [(_ & db & rows & Hdb & Hr & _) | (? & _)]; [| done].
  destruct Hdown as [Hnone | Hraises]; [congruence |].
  by rewrite Hraises in Hr.
Qed.

(** X26. A listing read from the fallback map knows two statuses only:
    for a status other than "all" and "active" it is empty, whatever the
    fallback map holds. In particular, while the store cannot be reached,
    asking for the "paused" sessions of a user lists nothing. *)
Theorem fallback_listing_knows_two_statuses
    (w : World) (u st : string) :
  st <> "all" ->
  st <> "active" ->
  (forall l,
     fst (get_user_sessions u st w) = Success l ->
     sl_fallback l = true -> sl_sessions l = [])
  /\ (store_unreachable w ->
      fst (get_user_sessions u st w)
      = Success {| sl_sessions := []; sl_fallback := true |}).
Proof.
  intros Hall Hactive.
  assert (forall l,
            fst (get_user_sessions u st w) = Success l ->
            sl_fallback l = true -> sl_sessions l = []) as Hempty.
  { intros l Hl Hflag.
    destruct (get_user_sessions_spec u st w) as (_ & l' & Hl' & Hcases).
    rewrite Hl in Hl'. injection Hl' as <-.
    destruct Hcases as [(Hflag' & _) | (_ & _ & ->)]; [congruence |].
    rewrite list_filter_none; [done |].
    intros s _. unfold listed_in_fallback.
    rewrite (bool_decide_eq_false_2 _ Hall).
    rewrite (bool_decide_eq_false_2 _ Hactive).
    by rewrite andb_false_r. }
  split; [done |]. intros Hdown.
  destruct (get_user_sessions_unreachable u st w Hdown) as (l & Hl & Hflag).
  rewrite Hl. f_equal. specialize (Hempty l Hl Hflag).
  destruct l. cbn in *. by subst.
Qed.

Lemma fallback_listing_knows_two_statuses_witness :
  let paused := snd (pause_session "uuid-0" Sample.local_session) in
  (fs_status <$> fallback_sessions paused !! "uuid-0") = Some (Some PAUSED)
  /\ fst (get_user_sessions "u" "paused" paused)
     = Success {| sl_sessions := []; sl_fallback := true |}.
Proof.
  split; [by vm_compute |].
  apply (fallback_listing_knows_two_statuses _ "u" "paused");
    [discriminate | discriminate | by left].
Defined.

(** X27. A listing flagged as fallback is read from the fallback map:
    each entry is an entry of the map that carries the user id, shown
    without its responses and its question bank, and, when it is stored
    under its own id, with the number of answers it records. Every entry
    of the user is listed for "all", and every active one for
    "active". An entry without a user id, as the one kept for a session
    of the store, is never listed. *)
Theorem fallback_listing_is_the_users_entries
    (w : World) (u st : string) (l : SessionList) :
  fst (get_user_sessions u st w) = Success l ->
  sl_fallback l = true ->
  (forall e,
     e ∈ sl_sessions l ->
     exists k s,
       fallback_sessions w !! k = Some s
       /\ fs_user_id s = Some u
       /\ ss_session e = MemSession (public_view s)
       /\ ss_fallback e = Some true
       /\ (fallback_sessions w !! fs_id s = Some s ->
           ss_questions_answered e = default 0 (fs_questions_answered s)
           /\ ss_is_completed e
              = (default 0 (fs_questions_answered s)
                 =? default (len (question_ids_of s))
                      (fs_total_questions s))))
  /\ (forall k s,
        fallback_sessions w !! k = Some s ->
        fs_user_id s = Some u ->
        st = "all" \/ st = "active" /\ fs_is_active s = Some true ->
        MemSession (public_view s) ∈ ss_session <$> sl_sessions l).
Proof.
  intros Hl Hflag.
  destruct (get_user_sessions_spec u st w) as (_ & l' & Hl' & Hcases).
  rewrite Hl in Hl'. injection Hl' as <-.
  destruct Hcases as [(Hflag' & _) | (_ & _ & ->)]; [congruence |].
  split.
  - intros e He.
    apply list_elem_of_fmap in He as (v & -> & Hv).
    apply list_elem_of_fmap in Hv as (s & -> & Hs).
    apply list_elem_of_In, List.filter_In in Hs as [Hin Hlisted].
    apply list_elem_of_In, elem_of_map_values in Hin as (k & Hk).
    unfold listed_in_fallback in Hlisted.
    apply andb_true_iff in Hlisted as [Hu%bool_decide_eq_true _].
    exists k, s. do 2 (split; [done |]).
    unfold fallback_summary, bind, get_fallback, ret. cbn.
    do 2 (split; [done |]). intros Hown. by rewrite Hown.
  - intros k s Hk Hu Hst.
    rewrite <- list_fmap_compose.
    apply list_elem_of_fmap. exists (public_view s). split; [done |].
    apply list_elem_of_fmap. exists s. split; [done |].
    apply list_elem_of_In, List.filter_In. split.
    + apply list_elem_of_In, elem_of_map_values. by exists k.
    + unfold listed_in_fallback.
      rewrite (bool_decide_eq_true_2 _ Hu). cbn.
      destruct Hst as [-> | [-> ->]]; [done |].
      by rewrite (bool_decide_eq_false_2 ("active" = "all")).
Qed.

Lemma fallback_listing_is_the_users_entries_witness :
  exists l e,
    fst (get_user_sessions "u" "all" Sample.recovered_answered) = Success l
    /\ sl_sessions l = [e]
    /\ ss_questions_answered e = 1.
Proof.
  eexists. eexists. split; [vm_compute; reflexivity |].
  split; [reflexivity |].
  destruct (fallback_listing_is_the_users_entries
              Sample.recovered_answered "u" "all" _
              ltac:(vm_compute; reflexivity) ltac:(reflexivity))
    as (Hentries & _).
  by vm_compute.
Defined.

End Listing.

(* ===================================================================== *)
(** ** Sessions of the store without a fallback entry                     *)
(* ===================================================================== *)

Section LostEntry.

(** X28. The question ids of a session live in the fallback map only.
    For a session whose row the store gives back while the fallback map
    has no entry for it (a service that was restarted, or another
    instance of it), [get_current_question], [navigate_to_question] and
    [jump_to_question] all fail with "No questions found for this
    session" and change nothing, and [get_session_progress] reports no
    answer, an empty status map and the total of the row. *)
Theorem stored_session_without_entry_has_no_questions
    (w : World) (db : Database) (sid : string) (r : SessionRow) :
  supabase w = Some db ->
  raises (rt w) (store_calls w) = false ->
  pyq_sessions db !! sid = Some r ->
  fallback_sessions w !! sid = None ->
  fst (get_current_question sid w)
  = Failure "No questions found for this session" false
  /\ same_state w (snd (get_current_question sid w))
  /\ (forall d,
        fst (navigate_to_question sid d w)
        = Failure "No questions found for this session" false
        /\ same_state w (snd (navigate_to_question sid d w)))
  /\ (forall i,
        fst (jump_to_question sid i w)
        = Failure "No questions found for this session" false
        /\ same_state w (snd (jump_to_question sid i w)))
  /\ exists rep,
       fst (get_session_progress sid w) = Success rep
       /\ rep_question_status rep = []
       /\ pr_questions_answered (rep_progress rep) = 0
       /\ pr_total_questions (rep_progress rep) = row_total_questions r
       /\ rep_fallback rep = false.
Proof.
  intros Hdb Hup Hr Hnone.
  pose proof (find_session_row sid w db r Hdb Hup Hr) as Hfind.
  assert (fallback_question_ids sid w = []) as Hq
    by (unfold fallback_question_ids; by rewrite Hnone).
  assert (same_state w (set_store (S (store_calls w)) (Some db) w)) as Hsame
    by (unfold same_state; by rewrite Hdb).
  split; [| split; [| split; [| split]]].
  - unfold get_current_question, bind. rewrite Hfind. cbn [fst snd].
    unfold session_question_ids, _get_session_question_ids, bind,
      get_fallback, ret. cbn. by rewrite Hnone.
  - unfold get_current_question, bind. rewrite Hfind. cbn [fst snd].
    unfold session_question_ids, _get_session_question_ids, bind,
      get_fallback, ret. cbn. by rewrite Hnone.
  - intros d. rewrite navigate_unfold, Hfind, Hq. by cbn.
  - intros i. rewrite jump_unfold, Hfind, Hq. by cbn.
  - unfold get_session_progress, bind. rewrite Hfind. cbn [fst snd].
    unfold _get_session_question_ids, bind, get_fallback, ret. cbn.
    rewrite Hnone. cbn. eexists. split; [done |]. cbn.
    unfold values. by rewrite map_to_list_empty.
Qed.

Lemma stored_session_without_entry_has_no_questions_witness :
  fst (get_current_question "row-1" Sample.restarted)
  = Failure "No questions found for this session" false.
Proof.
  eapply (stored_session_without_entry_has_no_questions
            Sample.restarted _ "row-1");
    by vm_compute.
Defined.

End LostEntry.

(* ===================================================================== *)
(** ** Creation then listing, and jumps                                   *)
(* ===================================================================== *)

Section RoundTrips.

(** A creation while the store cannot be reached. *)
Lemma create_session_unreachable u n f tl w cs :
  store_unreachable w ->
  fst (create_session u n f tl w) = Success cs ->
  let w' := snd (create_session u n f tl w) in
  store_unreachable w'
  /\ exists entry,
       cs_session cs = MemSession (public_view entry)
       /\ fallback_sessions w'
          = <[fs_id entry := entry]> (fallback_sessions w)
       /\ fs_user_id entry = Some u
       /\ fs_is_active entry = Some true
       /\ fs_questions_answered entry = Some 0
       /\ fs_total_questions entry = Some (cs_total_questions cs)
       /\ 0 < cs_total_questions cs.
Proof.
  intros Hdown.
  destruct (get_filtered_questions_same_state f w) as (Hrt & Hdb & _ & Hf).
  cbv beta zeta delta [create_session bind].
  set (w1 := snd (_get_filtered_questions f w)) in *.
  destruct (fst (_get_filtered_questions f w)) as [qs | e]; [| done].
  destruct qs as [| q0 qs']; [done |].
  set (qs := q0 :: qs') in *.
  destruct (maybe_shuffle_spec (shuffle_questions f) qs w1)
    as (Hperm & _ & (Hrt2 & Hdb2 & _ & Hf2) & _ & _).
  cbv zeta in Hperm, Hrt2, Hdb2, Hf2.
  set (questions := fst ((if shuffle_questions f then random_shuffle qs
                          else ret qs) w1)) in *.
  set (w2 := snd ((if shuffle_questions f then random_shuffle qs
                   else ret qs) w1)) in *.
  assert (0 < len questions) as Hlen.
  { unfold len. rewrite (Permutation_length Hperm). cbn. lia. }
  assert (store_unreachable w2) as Hdown2.
  { destruct Hdown as [H | H]; [left | right];
      by rewrite ?Hdb2, ?Hdb, ?Hrt2, ?Hrt. }
  rewrite <- Hf, <- Hf2.
  clearbody w2 questions. clear Hrt Hrt2 Hdb Hdb2 Hf Hf2 w1 Hdown.
  unfold store_unreachable in *. run.
  destruct Hdown2 as [Hnone | Hraises].
  - rewrite Hnone. cbn. intros [= <-]. cbn. split; [by left |].
    eexists. by repeat split.
  - destruct (supabase w2) as [db |] eqn:Hsb; cbn; rewrite ?Hraises; cbn;
      intros [= <-]; cbn; (split; [by right |]); eexists; by repeat split.
Qed.

(** X29. What was created in the fallback map is what the listing shows.
    After a creation that succeeded while the store could not be reached,
    the listing of the same user, for "all" and for "active", is flagged
    as fallback and has the session of the reply among its entries, with
    0 answers, 0 percent of progress and not completed. *)
Theorem created_in_fallback_then_listed
    (u n st : string) (f : PYQSessionFilter) (tl : option Z) (w : World)
    (cs : CreatedSession) :
  store_unreachable w ->
  fst (create_session u n f tl w) = Success cs ->
  st = "all" \/ st = "active" ->
  exists l e,
    fst (get_user_sessions u st (snd (create_session u n f tl w)))
    = Success l
    /\ sl_fallback l = true
    /\ e ∈ sl_sessions l
    /\ ss_session e = cs_session cs
    /\ ss_questions_answered e = 0
    /\ (ss_progress_percentage e == 0)%Q
    /\ ss_is_completed e = false
    /\ ss_fallback e = Some true.
Proof.
  intros Hdown Hcs Hst.
  destruct (create_session_unreachable u n f tl w cs Hdown Hcs)
    as (Hdown' & entry & Hsess & Hf & Hu & Hact & Hans & Htot & Hpos).
  set (w' := snd (create_session u n f tl w)) in *. clearbody w'.
  destruct (get_user_sessions_spec u st w') as (_ & l & Hl & Hcases).
  destruct (get_user_sessions_unreachable u st w' Hdown')
    as (l' & Hl' & Hflag).
  rewrite Hl in Hl'. injection Hl' as <-.
  destruct Hcases as [(Hflag' & _) | (_ & _ & Hlist)]; [congruence |].
  assert (fallback_sessions w' !! fs_id entry = Some entry) as Hentry
    by (by rewrite Hf, lookup_insert_eq).
  exists l, (fst (fallback_summary (public_view entry) w')).
  split; [done |]. split; [done |]. split.
  - rewrite Hlist. apply list_elem_of_fmap.
    exists (public_view entry). split; [done |].
    apply list_elem_of_fmap. exists entry. split; [done |].
    apply list_elem_of_In, List.filter_In. split.
    + apply list_elem_of_In, elem_of_map_values. by exists (fs_id entry).
    + unfold listed_in_fallback. rewrite (bool_decide_eq_true_2 _ Hu).
      rewrite Hact. cbn. destruct Hst as [-> | ->]; [done |].
      by rewrite (bool_decide_eq_false_2 ("active" = "all")).
  - unfold fallback_summary, bind, get_fallback, ret. cbn.
    rewrite Hentry, Hans, Htot. cbn.
    split; [done |]. split; [done |].
    destruct (cs_total_questions cs) as [| p | p] eqn:Ht; [lia | | lia].
    cbn. split; [| done]. unfold percentage, Qdiv. ring.
Qed.

Lemma created_in_fallback_then_listed_witness :
  exists l e,
    fst (get_user_sessions "u" "active" Demo.degraded) = Success l
    /\ sl_fallback l = true
    /\ e ∈ sl_sessions l
    /\ ss_questions_answered e = 0.
Proof.
  destruct (created_in_fallback_then_listed
              "u" "n" "active" Demo.any_question None Demo.offline _
              ltac:(right; reflexivity) ltac:(vm_compute; reflexivity)
              ltac:(right; reflexivity))
    as (l & e & Hl & Hflag & He & _ & Hans & _).
  by exists l, e.
Defined.

(** X30. [jump_to_question] accepts exactly the positions of the question
    list. For a session that is found and has questions, a jump to [i]
    succeeds when [0 <= i < len(question_ids)], and then keeps the
    question ids and leaves the cursor of the fallback entry at [i] when
    the session was read from the fallback map, or writes only the row
    of the session when it was read from the store; any other [i] is
    refused with "Invalid question index" and changes nothing. *)
Theorem jump_accepts_exactly_the_positions
    (w : World) (sid : string) (i : Z) (s : Session) :
  fst (find_session sid w) = Some s ->
  fallback_question_ids sid w <> [] ->
  let n := len (fallback_question_ids sid w) in
  let w' := snd (jump_to_question sid i w) in
  (0 <= i < n ->
   fst (jump_to_question sid i w)
   = Success {| mv_current_index := i;
                mv_fallback := is_fallback (source_of s) |}
   /\ fallback_question_ids sid w' = fallback_question_ids sid w
   /\ match s with
      | MemSession _ =>
          fallback_cursor sid w' = Some i
          /\ supabase w' = supabase w
      | RowSession _ =>
          fallback_sessions w' = fallback_sessions w
          /\ forall k,
               stored_sessions w' !! k = stored_sessions w !! k
               \/ k = sid
                  /\ exists t, stored_sessions w' !! k
                               = row_move i t <$> stored_sessions w !! k
      end)
  /\ (~ 0 <= i < n ->
      fst (jump_to_question sid i w)
      = Failure "Invalid question index" false
      /\ same_state w w').
Proof.
  intros Hs Hne n w'.
  pose proof (find_session_same_state sid w) as Hsame.
  pose proof (find_session_found sid w s Hs) as Hfound.
  pose proof Hsame as (_ & Hdb & _ & Hf).
  subst w'. rewrite jump_unfold, Hs. cbv zeta.
  destruct (fallback_question_ids sid w) as [| q qs] eqn:Hq; [done |].
  cbn [nonempty negb]. fold n.
  assert (stored_sessions (snd (find_session sid w)) = stored_sessions w)
    as Hst by (unfold stored_sessions; by rewrite Hdb).
  split; intros Hi.
  - assert ((i <? 0) || (n <=? i) = false) as -> by lia.
    cbn [fst snd]. split; [done |].
    destruct s as [r | m].
    + destruct (store_cursor_row sid r i (snd (find_session sid w)))
        as (Hf' & Hrows).
      split; [unfold fallback_question_ids; by rewrite Hf', Hf, <- Hq |].
      split; [by rewrite Hf', Hf |]. intros k. rewrite <- Hst. apply Hrows.
    + destruct (store_cursor_fallback sid m i (snd (find_session sid w)))
        as (Hf' & Hdb').
      unfold fallback_question_ids, fallback_cursor in *.
      rewrite Hf', Hf, lookup_alter_eq, Hfound in *. cbn.
      split; [exact Hq |]. split; [done |]. by rewrite ?Hdb', ?Hdb.
  - assert ((i <? 0) || (n <=? i) = true) as -> by lia.
    by cbn.
Qed.

Lemma jump_accepts_exactly_the_positions_witness :
  fst (jump_to_question "uuid-0" 1 Sample.local_session)
  = Success {| mv_current_index := 1; mv_fallback := true |}
  /\ fst (jump_to_question "uuid-0" 2 Sample.local_session)
     = Failure "Invalid question index" false.
Proof.
  pose proof (fun i =>
                jump_accepts_exactly_the_positions
                  Sample.local_session "uuid-0" i _
                  ltac:(vm_compute; reflexivity) ltac:(discriminate)) as H.
  cbv zeta in H. split.
  - apply (H 1). by vm_compute.
  - apply (H 2). vm_compute. intros [_ Hlt]. discriminate.
Defined.

End RoundTrips.
